(** * A single-request HTTP/1.1 client connection

    Shallow embedding of [http_connection] (src/src/http_connection.cpp)
    and the properties of its state machine.

    The connection is a struct of plain members that is driven by the
    completion handlers of one event loop.  Every member function is
    embedded as a function from the connection to the connection after
    the call, paired with the list of effects the call had on its
    collaborators (timers, resolver, stream, handlers), in program
    order.  The collaborators whose code lives outside this file (URL
    parser, HTTP response parser, gzip, base64, the stream types) are
    the fields of the [Collaborators] interface. *)

From Stdlib Require Import ZArith List String Ascii Bool Lia.
From Stdlib Require Import Strings.Byte.
From Stdlib Require Import Sorting.Permutation.
From Stdlib Require Import DecimalString.
Import ListNotations.

Local Open Scope string_scope.
Local Open Scope list_scope.
Local Open Scope Z_scope.

(** ** Error codes *)

(** The values of [error_code] the connection creates or tests for.
    [other_errc] stands for the codes only collaborators produce
    (resolver, stream, URL parser, gzip). *)
Inductive errc : Type :=
| operation_aborted            (* boost::asio::error::operation_aborted *)
| eof                          (* boost::asio::error::eof *)
| shut_down                    (* boost::asio::error::shut_down *)
| timed_out                    (* errors::timed_out *)
| blocked_by_idna              (* errors::blocked_by_idna *)
| unsupported_url_protocol     (* errors::unsupported_url_protocol *)
| http_parse_error             (* errors::http_parse_error *)
| http_missing_location        (* errors::http_missing_location *)
| address_family_not_supported (* boost::system::errc, generic_category *)
| file_too_large               (* boost::system::errc, generic_category *)
| other_errc (n : Z).

(** [None] is the default-constructed [error_code], "success";
    [if (e)] is [is_error e] and [e.clear()] makes it [None]. *)
Definition error_code : Type := option errc.

Definition is_error (e : error_code) : bool :=
  match e with Some _ => true | None => false end.

Definition is_operation_aborted (e : error_code) : bool :=
  match e with Some operation_aborted => true | _ => false end.

Definition is_eof_or_shut_down (e : error_code) : bool :=
  match e with Some eof | Some shut_down => true | _ => false end.

(** ** Error categories (src/src/error_code.cpp) *)

(** [ip2_error_category]: the category of the library's own error
    values.  [message] reads the text of a value from the table [msgs];
    the block of the table for the bdecode errors is compiled in only
    with [TORRENT_ABI_VERSION == 1] and is ten empty strings
    otherwise. *)
Module ip2_error_category.

Definition name : string := "ip2".

(** The entries before the bdecode block. *)
Definition msgs_head : list string :=
  [ "no error"; "torrent file collides with file from another torrent";
    "hash check failed"; "torrent file is not a dictionary";
    "missing or invalid 'info' section in torrent file";
    "'info' entry is not a dictionary";
    "invalid or missing 'piece length' entry in torrent file";
    "missing name in torrent file";
    "invalid 'name' of torrent (possible exploit attempt)";
    "invalid length of torrent"; "failed to parse files from torrent file";
    "invalid or missing 'pieces' entry in torrent file";
    "incorrect number of piece hashes in torrent file";
    "too many pieces in torrent"; "invalid metadata received from swarm";
    "invalid bencoding"; "no files in torrent"; "invalid escaped string";
    "session is closing"; "torrent already exists in session";
    "invalid torrent handle used"; "invalid type requested from entry";
    "missing info-hash from URI"; "file too short";
    "unsupported URL protocol"; "failed to parse URL";
    "peer sent 0 length piece"; "parse failed"; "invalid file format tag";
    "missing info-hash"; "mismatching info-hash"; "invalid hostname";
    "invalid port"; "port blocked by port-filter";
    "expected closing ] for address"; "destructing torrent"; "timed out";
    "upload to upload connection"; "uninteresting upload-only peer";
    "invalid info-hash"; "torrent paused";
    "'have'-message with higher index than the number of pieces";
    "bitfield of invalid size"; "too many piece requests while choked";
    "invalid piece packet"; "out of memory"; "torrent aborted";
    "connected to ourselves"; "invalid piece size"; "timed out: no interest";
    "timed out: inactivity"; "timed out: no handshake";
    "timed out: no request"; "invalid choke message";
    "invalid unchoke message"; "invalid interested message";
    "invalid not-interested message"; "invalid request message";
    "invalid hash list"; "invalid hash piece message";
    "invalid cancel message"; "invalid dht-port message";
    "invalid suggest piece message"; "invalid have-all message";
    "invalid have-none message"; "invalid reject message";
    "invalid allow-fast message"; "invalid extended message";
    "invalid message"; "sync hash not found";
    "unable to verify encryption constant"; "plaintext mode not provided";
    "rc4 mode not provided"; "unsupported encryption mode";
    "peer selected unsupported encryption mode";
    "invalid encryption pad size"; "invalid encryption handshake";
    "incoming encrypted connections disabled";
    "incoming regular connections disabled"; "duplicate peer-id";
    "torrent removed"; "packet too large"; ""; "HTTP error";
    "missing location header"; "invalid redirection"; "redirecting";
    "invalid HTTP range"; "missing content-length"; "banned by IP filter";
    "too many connections"; "peer banned"; "stopping torrent";
    "too many corrupt pieces"; "torrent is not ready to accept peers";
    "peer is not properly constructed"; "session is closing";
    "optimistic disconnect"; "torrent finished"; "no router found";
    "metadata too large"; "invalid metadata request"; "invalid metadata size";
    "invalid metadata offset"; "invalid metadata message";
    "pex message too large"; "invalid pex message";
    "invalid lt_tracker message";
    "pex messages sent too frequent (possible attack)";
    "torrent has no metadata"; "invalid dont-have message";
    "SSL connection required"; "invalid SSL certificate";
    "not an SSL torrent"; "banned by port filter";
    "invalid session handle used"; "listen socket has been closed";
    "invalid hash request"; "invalid hashes"; "invalid hash reject";
    "unsupported protocol version";
    "not authorized to create port map (enable NAT-PMP on your router)";
    "network failure"; "out of resources"; "unsupported opcode"; ""; ""; "";
    ""; ""; "missing or invalid 'file sizes' entry";
    "no files in resume data"; "missing 'slots' and 'pieces' entry";
    "mismatching number of files"; "mismatching file size";
    "mismatching file timestamp"; "not a dictionary";
    "invalid 'blocks per piece' entry"; "missing slots list";
    "file has more slots than torrent"; "invalid entry type in slot list";
    "invalid piece index in slot list"; "pieces needs to be reordered";
    "fastresume not modified since last save"; "too many duplicate filenames";
    ""; ""; ""; ""; ""; "Invalid HTTP header";
    "missing Location header in HTTP redirect";
    "failed to decompress HTTP response"; ""; ""; ""; ""; ""; ""; "";
    "no i2p router is set up"; ""; ""; ""; ""; ""; ""; ""; ""; "";
    "scrape not available on tracker"; "invalid tracker response";
    "invalid peer dictionary entry"; "tracker sent a failure message";
    "missing or invalid 'files' entry"; "missing or invalid 'hash' entry";
    "missing or invalid 'peers' and 'peers6' entry";
    "udp tracker response packet has invalid size";
    "invalid transaction id in udp tracker response";
    "invalid action field in udp tracker response";
    "skipping tracker announce (unreachable)"; ""; ""; ""; ""; ""; ""; ""; "";
    "" ].

(** The bdecode block, by the build switch. *)
Definition msgs_bdecode (abi_version_1 : bool) : list string :=
  if abi_version_1
  then
    [ "expected string in bencoded string";
      "expected colon in bencoded string";
      "unexpected end of file in bencoded string";
      "expected value (list, dict, int or string) in bencoded string";
      "bencoded nesting depth exceeded"; "bencoded item count limit exceeded";
      "integer overflow"; ""; ""; "" ]
  else
    [ ""; ""; ""; ""; ""; ""; ""; ""; ""; "" ].

(** The entries after the bdecode block. *)
Definition msgs_tail : list string :=
  [ "random number generator failed"; "blocked by SSRF mitigation";
    "blocked by IDNA ban"; ""; ""; ""; ""; ""; ""; "";
    "the torrent file has an unknown meta version";
    "the v2 torrent file has no file tree";
    "the torrent contains v2 keys but does not specify meta version 2";
    "the v1 and v2 file metadata does not match";
    "one or more files are missing piece layer hashes";
    "a piece layer is invalid"; "a v2 file entry has no root hash";
    "v1 and v2 hashes do not describe the same data";
    "a file in the v2 metadata has the pad attribute set" ].

Definition msgs (abi_version_1 : bool) : list string :=
  msgs_head ++ msgs_bdecode abi_version_1 ++ msgs_tail.

(** [if (ev < 0 || ev >= int(sizeof(msgs)/sizeof(msgs[0])))
      return "Unknown error";
    return msgs[ev];] *)
Definition message (abi_version_1 : bool) (ev : Z) : string :=
  if (ev <? 0) || (ev >=? Z.of_nat (List.length (msgs abi_version_1)))
  then "Unknown error"
  else nth (Z.to_nat ev) (msgs abi_version_1) "".

End ip2_error_category.

(** ** Addresses, endpoints, proxy settings *)

Inductive address : Type :=
| address_v4 (a : N)
| address_v6 (a : N).

(** [address()] is the unspecified IPv4 address. *)
Definition address_any : address := address_v4 0.

Definition is_v4 (a : address) : bool :=
  match a with address_v4 _ => true | address_v6 _ => false end.

Definition address_eqb (a b : address) : bool :=
  match a, b with
  | address_v4 x, address_v4 y => N.eqb x y
  | address_v6 x, address_v6 y => N.eqb x y
  | _, _ => false
  end.

Definition opt_address_eqb (a b : option address) : bool :=
  match a, b with
  | Some x, Some y => address_eqb x y
  | None, None => true
  | _, _ => false
  end.

(** [tcp::endpoint]: an address and a 16-bit port. *)
Record endpoint : Type := mk_endpoint {
  ep_address : address;
  ep_port : Z
}.

Definition endpoint_is_v4 (ep : endpoint) : bool := is_v4 (ep_address ep).

Module settings_pack.
Inductive proxy_type_t : Type :=
| none | socks4 | socks5 | socks5_pw | http | http_pw | i2p_proxy.
End settings_pack.

Record proxy_settings : Type := mk_proxy_settings {
  ps_hostname : string;
  ps_username : string;
  ps_password : string;
  ps_type : settings_pack.proxy_type_t;
  ps_port : Z;
  ps_proxy_hostnames : bool
}.

Definition is_http_proxy (t : settings_pack.proxy_type_t) : bool :=
  match t with
  | settings_pack.http | settings_pack.http_pw => true
  | _ => false
  end.

Definition is_socks5_proxy (t : settings_pack.proxy_type_t) : bool :=
  match t with
  | settings_pack.socks5 | settings_pack.socks5_pw => true
  | _ => false
  end.

(** [std::uint16_t(port)] *)
Definition to_uint16 (port : Z) : Z := port mod 65536.

(** [int] has 32 bits: the value of an [int] expression whose
    mathematical value is [z], by two's complement wrap-around. *)
Definition wrap_int (z : Z) : Z :=
  (z + 2147483648) mod 4294967296 - 2147483648.

(** [std::size_t(n)] for an [int] [n], [size_t] having 64 bits: a
    negative [n] becomes [2^64 + n]. *)
Definition to_size_t (n : Z) : Z := n mod 18446744073709551616.

(** ** The stream *)

(** Modelled from the spec: the stream variant of section 4.4 is not in
    this file's sources; the connection only uses [is_open], [close],
    [open]/[bind], [async_connect] and the two name hooks.
    [sock_connected] is the peer side of the stream: it is set when a
    connect completes without error and dropped by [close]. *)
Record socket_type : Type := mk_socket {
  sock_is_open : bool;
  sock_connected : bool;
  sock_proxy : proxy_settings;
  sock_tls : bool;
  sock_bound : option address;
  sock_tls_hostname : option string;
  sock_dst_name : option string
}.

Definition instantiate_connection (ps : proxy_settings) (tls : bool)
  : socket_type :=
  mk_socket false false ps tls None None None.

Definition socket_close (s : socket_type) : socket_type :=
  mk_socket false false (sock_proxy s) (sock_tls s) (sock_bound s)
    (sock_tls_hostname s) (sock_dst_name s).

Definition socket_open_bind (a : address) (s : socket_type) : socket_type :=
  mk_socket true (sock_connected s) (sock_proxy s) (sock_tls s) (Some a)
    (sock_tls_hostname s) (sock_dst_name s).

Definition socket_set_tls_hostname (h : string) (s : socket_type)
  : socket_type :=
  mk_socket (sock_is_open s) (sock_connected s) (sock_proxy s) (sock_tls s)
    (sock_bound s) (Some h) (sock_dst_name s).

Definition socket_set_dst_name (h : string) (s : socket_type) : socket_type :=
  mk_socket (sock_is_open s) (sock_connected s) (sock_proxy s) (sock_tls s)
    (sock_bound s) (sock_tls_hostname s) (Some h).

(** [async_connect] opens a stream that is not open yet. *)
Definition socket_start_connect (s : socket_type) : socket_type :=
  mk_socket true false (sock_proxy s) (sock_tls s) (sock_bound s)
    (sock_tls_hostname s) (sock_dst_name s).

Definition socket_connected (s : socket_type) : socket_type :=
  mk_socket (sock_is_open s) true (sock_proxy s) (sock_tls s) (sock_bound s)
    (sock_tls_hostname s) (sock_dst_name s).

(** ** Buffers and views *)

(** [span<char>]: a view of [sp_len] bytes at offset [sp_off] of the
    receive buffer.  Every non-empty span the connection passes around
    points into [m_recvbuffer]. *)
Record span : Type := mk_span {
  sp_off : Z;
  sp_len : Z
}.

Definition empty_span : span := mk_span 0 0.

Definition span_empty (s : span) : bool := sp_len s =? 0.

Definition view (buf : list byte) (s : span) : list byte :=
  firstn (Z.to_nat (sp_len s)) (skipn (Z.to_nat (sp_off s)) buf).

(** Writing [d] into [buf] at offset [off], as [memmove] into the
    vector's storage and as the stream does on a read. *)
Definition overwrite (buf : list byte) (off : Z) (d : list byte) : list byte :=
  firstn (Z.to_nat off) buf ++ d
    ++ skipn (Z.to_nat off + List.length d) buf.

(** [std::vector<char>::resize(n)]: truncate or pad with zero bytes. *)
Definition resize (n : Z) (buf : list byte) : list byte :=
  firstn (Z.to_nat n) buf ++ repeat x00 (Z.to_nat n - List.length buf).

(** [int(v.size())] *)
Definition size (buf : list byte) : Z := Z.of_nat (List.length buf).

(** [operator<<(std::ostream&, int)] *)
Definition string_of_Z (n : Z) : string := NilZero.string_of_int (Z.to_int n).

(** ** Effects *)

(** What a member function does to its collaborators, in program
    order.  [Handler e data] is one invocation of the response handler
    [m_handler(e, m_parser, data, *this)]; [Post_callback e] is
    [post(m_ios, bind(&callback, me, e, span<char>{}))], which runs
    [callback] from the event loop after the caller returned.  The size
    of [Async_read_some] is the [std::size_t] the stream is given.
    [Throw_length_error] is the [std::length_error] with which the
    member function ends when the receive buffer is resized past what a
    vector holds. *)
Inductive action : Type :=
| Handler (e : error_code) (data : list byte)
| Connect_handler
| Post_callback (e : error_code)
| Timer_expires_after (d : Z)
| Timer_expires_at (t : Z)
| Timer_async_wait
| Timer_cancel
| Limiter_expires_after (ms : Z)
| Limiter_async_wait
| Limiter_cancel
| Async_resolve (host : string) (flags : Z)
| Async_connect (ep : endpoint)
| Async_write (buf : string)
| Async_read_some (pos : Z) (amount : Z)
| Async_shutdown
| Throw_length_error.

Definition is_handler (a : action) : bool :=
  match a with Handler _ _ => true | _ => false end.

Definition is_async_connect (a : action) : bool :=
  match a with Async_connect _ => true | _ => false end.

Definition is_async_read (a : action) : bool :=
  match a with Async_read_some _ _ => true | _ => false end.

Definition is_timer_expires_after (a : action) : bool :=
  match a with Timer_expires_after _ => true | _ => false end.

(** Number of response-handler invocations in a trace. *)
Definition handler_calls (t : list action) : nat :=
  List.length (filter is_handler t).

(** ** Collaborators *)

(** The result of [parse_url_components]: the five pieces and the
    error code. *)
Record url_components : Type := mk_url_components {
  uc_protocol : string;
  uc_auth : string;
  uc_hostname : string;
  uc_port : Z;
  uc_path : string;
  uc_ec : error_code
}.

(** Code the connection calls but does not contain.  [http_parser] is
    the response parser with the members the connection uses;
    [bind_result] and [setup_ssl_hostname] give the error code of the
    two fallible calls on a fresh stream; [random_shuffle] is one
    outcome of the shuffle, a permutation; [default_proxy_settings] is a
    default-constructed [proxy_settings] and [close_force_default] the
    default argument of [close], both declared in headers;
    [TORRENT_USE_SSL] is the build switch. *)
Class Collaborators : Type := {
  http_parser : Type;
  parser_new : http_parser;
  parser_reset : http_parser -> http_parser;
  parser_incoming : http_parser -> list byte -> http_parser * bool;
  header_finished : http_parser -> bool;
  finished : http_parser -> bool;
  status_code : http_parser -> Z;
  header : http_parser -> string -> string;
  body_start : http_parser -> Z;
  get_body_size : http_parser -> Z;
  collapse_chunk_headers : http_parser -> list byte -> list byte;
  inflate_gzip : list byte -> Z -> list byte * error_code;
  parse_url_components : string -> url_components;
  resolve_redirect_location : string -> string -> string;
  base64encode : string -> string;
  is_redirect : Z -> bool;
  make_address : string -> option address;
  random_shuffle : list endpoint -> list endpoint;
  random_shuffle_permutes : forall eps, Permutation eps (random_shuffle eps);
  bind_result : address -> error_code;
  setup_ssl_hostname : bool -> string -> error_code;
  default_proxy_settings : proxy_settings;
  close_force_default : bool;
  TORRENT_USE_SSL : bool
}.

Section Connection.

Context {K : Collaborators}.

(** ** The connection *)

(** The members of [http_connection].  The three optional hooks and the
    response handler are user code: [m_handler] and [m_connect_handler]
    record whether a callable is held (their invocations are [action]s),
    the two filters are the functions they compute. *)
Record http_connection : Type := mk_http_connection {
  m_sendbuffer : string;
  m_recvbuffer : list byte;
  m_read_pos : Z;
  m_parser : http_parser;
  m_url : string;
  m_endpoints : list endpoint;
  m_next_ep : Z;
  m_sock : option socket_type;
  m_hostname : string;
  m_port : Z;
  m_ssl : bool;
  m_bind_addr : option address;
  m_proxy : proxy_settings;
  m_handler : bool;
  m_connect_handler : bool;
  m_filter_handler : option (list endpoint -> list endpoint);
  m_hostname_filter_handler : option (string -> bool);
  m_completion_timeout : Z;
  m_last_receive : Z;
  m_start_time : Z;
  m_redirects : Z;
  m_max_bottled_buffer_size : Z;
  m_rate_limit : Z;
  m_download_quota : Z;
  m_priority : Z;
  m_resolve_flags : Z;
  m_auth : string;
  m_user_agent : string;
  m_bottled : bool;
  m_called : bool;
  m_abort : bool;
  m_connecting : bool;
  m_resolving_host : bool;
  m_limiter_timer_active : bool
}.

Definition set_m_sendbuffer (v : string) (c : http_connection) : http_connection :=
  mk_http_connection v (m_recvbuffer c) (m_read_pos c) (m_parser c) (m_url c)
    (m_endpoints c) (m_next_ep c) (m_sock c) (m_hostname c) (m_port c)
    (m_ssl c) (m_bind_addr c) (m_proxy c) (m_handler c) (m_connect_handler c)
    (m_filter_handler c) (m_hostname_filter_handler c)
    (m_completion_timeout c) (m_last_receive c) (m_start_time c)
    (m_redirects c) (m_max_bottled_buffer_size c) (m_rate_limit c)
    (m_download_quota c) (m_priority c) (m_resolve_flags c) (m_auth c)
    (m_user_agent c) (m_bottled c) (m_called c) (m_abort c) (m_connecting c)
    (m_resolving_host c) (m_limiter_timer_active c).

Definition set_m_recvbuffer (v : list byte) (c : http_connection) : http_connection :=
  mk_http_connection (m_sendbuffer c) v (m_read_pos c) (m_parser c) (m_url c)
    (m_endpoints c) (m_next_ep c) (m_sock c) (m_hostname c) (m_port c)
    (m_ssl c) (m_bind_addr c) (m_proxy c) (m_handler c) (m_connect_handler c)
    (m_filter_handler c) (m_hostname_filter_handler c)
    (m_completion_timeout c) (m_last_receive c) (m_start_time c)
    (m_redirects c) (m_max_bottled_buffer_size c) (m_rate_limit c)
    (m_download_quota c) (m_priority c) (m_resolve_flags c) (m_auth c)
    (m_user_agent c) (m_bottled c) (m_called c) (m_abort c) (m_connecting c)
    (m_resolving_host c) (m_limiter_timer_active c).

Definition set_m_read_pos (v : Z) (c : http_connection) : http_connection :=
  mk_http_connection (m_sendbuffer c) (m_recvbuffer c) v (m_parser c)
    (m_url c) (m_endpoints c) (m_next_ep c) (m_sock c) (m_hostname c)
    (m_port c) (m_ssl c) (m_bind_addr c) (m_proxy c) (m_handler c)
    (m_connect_handler c) (m_filter_handler c) (m_hostname_filter_handler c)
    (m_completion_timeout c) (m_last_receive c) (m_start_time c)
    (m_redirects c) (m_max_bottled_buffer_size c) (m_rate_limit c)
    (m_download_quota c) (m_priority c) (m_resolve_flags c) (m_auth c)
    (m_user_agent c) (m_bottled c) (m_called c) (m_abort c) (m_connecting c)
    (m_resolving_host c) (m_limiter_timer_active c).

Definition set_m_parser (v : http_parser) (c : http_connection) : http_connection :=
  mk_http_connection (m_sendbuffer c) (m_recvbuffer c) (m_read_pos c) v
    (m_url c) (m_endpoints c) (m_next_ep c) (m_sock c) (m_hostname c)
    (m_port c) (m_ssl c) (m_bind_addr c) (m_proxy c) (m_handler c)
    (m_connect_handler c) (m_filter_handler c) (m_hostname_filter_handler c)
    (m_completion_timeout c) (m_last_receive c) (m_start_time c)
    (m_redirects c) (m_max_bottled_buffer_size c) (m_rate_limit c)
    (m_download_quota c) (m_priority c) (m_resolve_flags c) (m_auth c)
    (m_user_agent c) (m_bottled c) (m_called c) (m_abort c) (m_connecting c)
    (m_resolving_host c) (m_limiter_timer_active c).

Definition set_m_url (v : string) (c : http_connection) : http_connection :=
  mk_http_connection (m_sendbuffer c) (m_recvbuffer c) (m_read_pos c)
    (m_parser c) v (m_endpoints c) (m_next_ep c) (m_sock c) (m_hostname c)
    (m_port c) (m_ssl c) (m_bind_addr c) (m_proxy c) (m_handler c)
    (m_connect_handler c) (m_filter_handler c) (m_hostname_filter_handler c)
    (m_completion_timeout c) (m_last_receive c) (m_start_time c)
    (m_redirects c) (m_max_bottled_buffer_size c) (m_rate_limit c)
    (m_download_quota c) (m_priority c) (m_resolve_flags c) (m_auth c)
    (m_user_agent c) (m_bottled c) (m_called c) (m_abort c) (m_connecting c)
    (m_resolving_host c) (m_limiter_timer_active c).

Definition set_m_endpoints (v : list endpoint) (c : http_connection) : http_connection :=
  mk_http_connection (m_sendbuffer c) (m_recvbuffer c) (m_read_pos c)
    (m_parser c) (m_url c) v (m_next_ep c) (m_sock c) (m_hostname c)
    (m_port c) (m_ssl c) (m_bind_addr c) (m_proxy c) (m_handler c)
    (m_connect_handler c) (m_filter_handler c) (m_hostname_filter_handler c)
    (m_completion_timeout c) (m_last_receive c) (m_start_time c)
    (m_redirects c) (m_max_bottled_buffer_size c) (m_rate_limit c)
    (m_download_quota c) (m_priority c) (m_resolve_flags c) (m_auth c)
    (m_user_agent c) (m_bottled c) (m_called c) (m_abort c) (m_connecting c)
    (m_resolving_host c) (m_limiter_timer_active c).

Definition set_m_next_ep (v : Z) (c : http_connection) : http_connection :=
  mk_http_connection (m_sendbuffer c) (m_recvbuffer c) (m_read_pos c)
    (m_parser c) (m_url c) (m_endpoints c) v (m_sock c) (m_hostname c)
    (m_port c) (m_ssl c) (m_bind_addr c) (m_proxy c) (m_handler c)
    (m_connect_handler c) (m_filter_handler c) (m_hostname_filter_handler c)
    (m_completion_timeout c) (m_last_receive c) (m_start_time c)
    (m_redirects c) (m_max_bottled_buffer_size c) (m_rate_limit c)
    (m_download_quota c) (m_priority c) (m_resolve_flags c) (m_auth c)
    (m_user_agent c) (m_bottled c) (m_called c) (m_abort c) (m_connecting c)
    (m_resolving_host c) (m_limiter_timer_active c).

Definition set_m_sock (v : option socket_type) (c : http_connection) : http_connection :=
  mk_http_connection (m_sendbuffer c) (m_recvbuffer c) (m_read_pos c)
    (m_parser c) (m_url c) (m_endpoints c) (m_next_ep c) v (m_hostname c)
    (m_port c) (m_ssl c) (m_bind_addr c) (m_proxy c) (m_handler c)
    (m_connect_handler c) (m_filter_handler c) (m_hostname_filter_handler c)
    (m_completion_timeout c) (m_last_receive c) (m_start_time c)
    (m_redirects c) (m_max_bottled_buffer_size c) (m_rate_limit c)
    (m_download_quota c) (m_priority c) (m_resolve_flags c) (m_auth c)
    (m_user_agent c) (m_bottled c) (m_called c) (m_abort c) (m_connecting c)
    (m_resolving_host c) (m_limiter_timer_active c).

Definition set_m_hostname (v : string) (c : http_connection) : http_connection :=
  mk_http_connection (m_sendbuffer c) (m_recvbuffer c) (m_read_pos c)
    (m_parser c) (m_url c) (m_endpoints c) (m_next_ep c) (m_sock c) v
    (m_port c) (m_ssl c) (m_bind_addr c) (m_proxy c) (m_handler c)
    (m_connect_handler c) (m_filter_handler c) (m_hostname_filter_handler c)
    (m_completion_timeout c) (m_last_receive c) (m_start_time c)
    (m_redirects c) (m_max_bottled_buffer_size c) (m_rate_limit c)
    (m_download_quota c) (m_priority c) (m_resolve_flags c) (m_auth c)
    (m_user_agent c) (m_bottled c) (m_called c) (m_abort c) (m_connecting c)
    (m_resolving_host c) (m_limiter_timer_active c).

Definition set_m_port (v : Z) (c : http_connection) : http_connection :=
  mk_http_connection (m_sendbuffer c) (m_recvbuffer c) (m_read_pos c)
    (m_parser c) (m_url c) (m_endpoints c) (m_next_ep c) (m_sock c)
    (m_hostname c) v (m_ssl c) (m_bind_addr c) (m_proxy c) (m_handler c)
    (m_connect_handler c) (m_filter_handler c) (m_hostname_filter_handler c)
    (m_completion_timeout c) (m_last_receive c) (m_start_time c)
    (m_redirects c) (m_max_bottled_buffer_size c) (m_rate_limit c)
    (m_download_quota c) (m_priority c) (m_resolve_flags c) (m_auth c)
    (m_user_agent c) (m_bottled c) (m_called c) (m_abort c) (m_connecting c)
    (m_resolving_host c) (m_limiter_timer_active c).

Definition set_m_ssl (v : bool) (c : http_connection) : http_connection :=
  mk_http_connection (m_sendbuffer c) (m_recvbuffer c) (m_read_pos c)
    (m_parser c) (m_url c) (m_endpoints c) (m_next_ep c) (m_sock c)
    (m_hostname c) (m_port c) v (m_bind_addr c) (m_proxy c) (m_handler c)
    (m_connect_handler c) (m_filter_handler c) (m_hostname_filter_handler c)
    (m_completion_timeout c) (m_last_receive c) (m_start_time c)
    (m_redirects c) (m_max_bottled_buffer_size c) (m_rate_limit c)
    (m_download_quota c) (m_priority c) (m_resolve_flags c) (m_auth c)
    (m_user_agent c) (m_bottled c) (m_called c) (m_abort c) (m_connecting c)
    (m_resolving_host c) (m_limiter_timer_active c).

Definition set_m_bind_addr (v : option address) (c : http_connection) : http_connection :=
  mk_http_connection (m_sendbuffer c) (m_recvbuffer c) (m_read_pos c)
    (m_parser c) (m_url c) (m_endpoints c) (m_next_ep c) (m_sock c)
    (m_hostname c) (m_port c) (m_ssl c) v (m_proxy c) (m_handler c)
    (m_connect_handler c) (m_filter_handler c) (m_hostname_filter_handler c)
    (m_completion_timeout c) (m_last_receive c) (m_start_time c)
    (m_redirects c) (m_max_bottled_buffer_size c) (m_rate_limit c)
    (m_download_quota c) (m_priority c) (m_resolve_flags c) (m_auth c)
    (m_user_agent c) (m_bottled c) (m_called c) (m_abort c) (m_connecting c)
    (m_resolving_host c) (m_limiter_timer_active c).

Definition set_m_proxy (v : proxy_settings) (c : http_connection) : http_connection :=
  mk_http_connection (m_sendbuffer c) (m_recvbuffer c) (m_read_pos c)
    (m_parser c) (m_url c) (m_endpoints c) (m_next_ep c) (m_sock c)
    (m_hostname c) (m_port c) (m_ssl c) (m_bind_addr c) v (m_handler c)
    (m_connect_handler c) (m_filter_handler c) (m_hostname_filter_handler c)
    (m_completion_timeout c) (m_last_receive c) (m_start_time c)
    (m_redirects c) (m_max_bottled_buffer_size c) (m_rate_limit c)
    (m_download_quota c) (m_priority c) (m_resolve_flags c) (m_auth c)
    (m_user_agent c) (m_bottled c) (m_called c) (m_abort c) (m_connecting c)
    (m_resolving_host c) (m_limiter_timer_active c).

Definition set_m_handler (v : bool) (c : http_connection) : http_connection :=
  mk_http_connection (m_sendbuffer c) (m_recvbuffer c) (m_read_pos c)
    (m_parser c) (m_url c) (m_endpoints c) (m_next_ep c) (m_sock c)
    (m_hostname c) (m_port c) (m_ssl c) (m_bind_addr c) (m_proxy c) v
    (m_connect_handler c) (m_filter_handler c) (m_hostname_filter_handler c)
    (m_completion_timeout c) (m_last_receive c) (m_start_time c)
    (m_redirects c) (m_max_bottled_buffer_size c) (m_rate_limit c)
    (m_download_quota c) (m_priority c) (m_resolve_flags c) (m_auth c)
    (m_user_agent c) (m_bottled c) (m_called c) (m_abort c) (m_connecting c)
    (m_resolving_host c) (m_limiter_timer_active c).

Definition set_m_completion_timeout (v : Z) (c : http_connection) : http_connection :=
  mk_http_connection (m_sendbuffer c) (m_recvbuffer c) (m_read_pos c)
    (m_parser c) (m_url c) (m_endpoints c) (m_next_ep c) (m_sock c)
    (m_hostname c) (m_port c) (m_ssl c) (m_bind_addr c) (m_proxy c)
    (m_handler c) (m_connect_handler c) (m_filter_handler c)
    (m_hostname_filter_handler c) v (m_last_receive c) (m_start_time c)
    (m_redirects c) (m_max_bottled_buffer_size c) (m_rate_limit c)
    (m_download_quota c) (m_priority c) (m_resolve_flags c) (m_auth c)
    (m_user_agent c) (m_bottled c) (m_called c) (m_abort c) (m_connecting c)
    (m_resolving_host c) (m_limiter_timer_active c).

Definition set_m_last_receive (v : Z) (c : http_connection) : http_connection :=
  mk_http_connection (m_sendbuffer c) (m_recvbuffer c) (m_read_pos c)
    (m_parser c) (m_url c) (m_endpoints c) (m_next_ep c) (m_sock c)
    (m_hostname c) (m_port c) (m_ssl c) (m_bind_addr c) (m_proxy c)
    (m_handler c) (m_connect_handler c) (m_filter_handler c)
    (m_hostname_filter_handler c) (m_completion_timeout c) v (m_start_time c)
    (m_redirects c) (m_max_bottled_buffer_size c) (m_rate_limit c)
    (m_download_quota c) (m_priority c) (m_resolve_flags c) (m_auth c)
    (m_user_agent c) (m_bottled c) (m_called c) (m_abort c) (m_connecting c)
    (m_resolving_host c) (m_limiter_timer_active c).

Definition set_m_start_time (v : Z) (c : http_connection) : http_connection :=
  mk_http_connection (m_sendbuffer c) (m_recvbuffer c) (m_read_pos c)
    (m_parser c) (m_url c) (m_endpoints c) (m_next_ep c) (m_sock c)
    (m_hostname c) (m_port c) (m_ssl c) (m_bind_addr c) (m_proxy c)
    (m_handler c) (m_connect_handler c) (m_filter_handler c)
    (m_hostname_filter_handler c) (m_completion_timeout c) (m_last_receive c)
    v (m_redirects c) (m_max_bottled_buffer_size c) (m_rate_limit c)
    (m_download_quota c) (m_priority c) (m_resolve_flags c) (m_auth c)
    (m_user_agent c) (m_bottled c) (m_called c) (m_abort c) (m_connecting c)
    (m_resolving_host c) (m_limiter_timer_active c).

Definition set_m_redirects (v : Z) (c : http_connection) : http_connection :=
  mk_http_connection (m_sendbuffer c) (m_recvbuffer c) (m_read_pos c)
    (m_parser c) (m_url c) (m_endpoints c) (m_next_ep c) (m_sock c)
    (m_hostname c) (m_port c) (m_ssl c) (m_bind_addr c) (m_proxy c)
    (m_handler c) (m_connect_handler c) (m_filter_handler c)
    (m_hostname_filter_handler c) (m_completion_timeout c) (m_last_receive c)
    (m_start_time c) v (m_max_bottled_buffer_size c) (m_rate_limit c)
    (m_download_quota c) (m_priority c) (m_resolve_flags c) (m_auth c)
    (m_user_agent c) (m_bottled c) (m_called c) (m_abort c) (m_connecting c)
    (m_resolving_host c) (m_limiter_timer_active c).

Definition set_m_rate_limit (v : Z) (c : http_connection) : http_connection :=
  mk_http_connection (m_sendbuffer c) (m_recvbuffer c) (m_read_pos c)
    (m_parser c) (m_url c) (m_endpoints c) (m_next_ep c) (m_sock c)
    (m_hostname c) (m_port c) (m_ssl c) (m_bind_addr c) (m_proxy c)
    (m_handler c) (m_connect_handler c) (m_filter_handler c)
    (m_hostname_filter_handler c) (m_completion_timeout c) (m_last_receive c)
    (m_start_time c) (m_redirects c) (m_max_bottled_buffer_size c) v
    (m_download_quota c) (m_priority c) (m_resolve_flags c) (m_auth c)
    (m_user_agent c) (m_bottled c) (m_called c) (m_abort c) (m_connecting c)
    (m_resolving_host c) (m_limiter_timer_active c).

Definition set_m_download_quota (v : Z) (c : http_connection) : http_connection :=
  mk_http_connection (m_sendbuffer c) (m_recvbuffer c) (m_read_pos c)
    (m_parser c) (m_url c) (m_endpoints c) (m_next_ep c) (m_sock c)
    (m_hostname c) (m_port c) (m_ssl c) (m_bind_addr c) (m_proxy c)
    (m_handler c) (m_connect_handler c) (m_filter_handler c)
    (m_hostname_filter_handler c) (m_completion_timeout c) (m_last_receive c)
    (m_start_time c) (m_redirects c) (m_max_bottled_buffer_size c)
    (m_rate_limit c) v (m_priority c) (m_resolve_flags c) (m_auth c)
    (m_user_agent c) (m_bottled c) (m_called c) (m_abort c) (m_connecting c)
    (m_resolving_host c) (m_limiter_timer_active c).

Definition set_m_priority (v : Z) (c : http_connection) : http_connection :=
  mk_http_connection (m_sendbuffer c) (m_recvbuffer c) (m_read_pos c)
    (m_parser c) (m_url c) (m_endpoints c) (m_next_ep c) (m_sock c)
    (m_hostname c) (m_port c) (m_ssl c) (m_bind_addr c) (m_proxy c)
    (m_handler c) (m_connect_handler c) (m_filter_handler c)
    (m_hostname_filter_handler c) (m_completion_timeout c) (m_last_receive c)
    (m_start_time c) (m_redirects c) (m_max_bottled_buffer_size c)
    (m_rate_limit c) (m_download_quota c) v (m_resolve_flags c) (m_auth c)
    (m_user_agent c) (m_bottled c) (m_called c) (m_abort c) (m_connecting c)
    (m_resolving_host c) (m_limiter_timer_active c).

Definition set_m_resolve_flags (v : Z) (c : http_connection) : http_connection :=
  mk_http_connection (m_sendbuffer c) (m_recvbuffer c) (m_read_pos c)
    (m_parser c) (m_url c) (m_endpoints c) (m_next_ep c) (m_sock c)
    (m_hostname c) (m_port c) (m_ssl c) (m_bind_addr c) (m_proxy c)
    (m_handler c) (m_connect_handler c) (m_filter_handler c)
    (m_hostname_filter_handler c) (m_completion_timeout c) (m_last_receive c)
    (m_start_time c) (m_redirects c) (m_max_bottled_buffer_size c)
    (m_rate_limit c) (m_download_quota c) (m_priority c) v (m_auth c)
    (m_user_agent c) (m_bottled c) (m_called c) (m_abort c) (m_connecting c)
    (m_resolving_host c) (m_limiter_timer_active c).

Definition set_m_auth (v : string) (c : http_connection) : http_connection :=
  mk_http_connection (m_sendbuffer c) (m_recvbuffer c) (m_read_pos c)
    (m_parser c) (m_url c) (m_endpoints c) (m_next_ep c) (m_sock c)
    (m_hostname c) (m_port c) (m_ssl c) (m_bind_addr c) (m_proxy c)
    (m_handler c) (m_connect_handler c) (m_filter_handler c)
    (m_hostname_filter_handler c) (m_completion_timeout c) (m_last_receive c)
    (m_start_time c) (m_redirects c) (m_max_bottled_buffer_size c)
    (m_rate_limit c) (m_download_quota c) (m_priority c) (m_resolve_flags c) v
    (m_user_agent c) (m_bottled c) (m_called c) (m_abort c) (m_connecting c)
    (m_resolving_host c) (m_limiter_timer_active c).

Definition set_m_user_agent (v : string) (c : http_connection) : http_connection :=
  mk_http_connection (m_sendbuffer c) (m_recvbuffer c) (m_read_pos c)
    (m_parser c) (m_url c) (m_endpoints c) (m_next_ep c) (m_sock c)
    (m_hostname c) (m_port c) (m_ssl c) (m_bind_addr c) (m_proxy c)
    (m_handler c) (m_connect_handler c) (m_filter_handler c)
    (m_hostname_filter_handler c) (m_completion_timeout c) (m_last_receive c)
    (m_start_time c) (m_redirects c) (m_max_bottled_buffer_size c)
    (m_rate_limit c) (m_download_quota c) (m_priority c) (m_resolve_flags c)
    (m_auth c) v (m_bottled c) (m_called c) (m_abort c) (m_connecting c)
    (m_resolving_host c) (m_limiter_timer_active c).

Definition set_m_called (v : bool) (c : http_connection) : http_connection :=
  mk_http_connection (m_sendbuffer c) (m_recvbuffer c) (m_read_pos c)
    (m_parser c) (m_url c) (m_endpoints c) (m_next_ep c) (m_sock c)
    (m_hostname c) (m_port c) (m_ssl c) (m_bind_addr c) (m_proxy c)
    (m_handler c) (m_connect_handler c) (m_filter_handler c)
    (m_hostname_filter_handler c) (m_completion_timeout c) (m_last_receive c)
    (m_start_time c) (m_redirects c) (m_max_bottled_buffer_size c)
    (m_rate_limit c) (m_download_quota c) (m_priority c) (m_resolve_flags c)
    (m_auth c) (m_user_agent c) (m_bottled c) v (m_abort c) (m_connecting c)
    (m_resolving_host c) (m_limiter_timer_active c).

Definition set_m_abort (v : bool) (c : http_connection) : http_connection :=
  mk_http_connection (m_sendbuffer c) (m_recvbuffer c) (m_read_pos c)
    (m_parser c) (m_url c) (m_endpoints c) (m_next_ep c) (m_sock c)
    (m_hostname c) (m_port c) (m_ssl c) (m_bind_addr c) (m_proxy c)
    (m_handler c) (m_connect_handler c) (m_filter_handler c)
    (m_hostname_filter_handler c) (m_completion_timeout c) (m_last_receive c)
    (m_start_time c) (m_redirects c) (m_max_bottled_buffer_size c)
    (m_rate_limit c) (m_download_quota c) (m_priority c) (m_resolve_flags c)
    (m_auth c) (m_user_agent c) (m_bottled c) (m_called c) v (m_connecting c)
    (m_resolving_host c) (m_limiter_timer_active c).

Definition set_m_connecting (v : bool) (c : http_connection) : http_connection :=
  mk_http_connection (m_sendbuffer c) (m_recvbuffer c) (m_read_pos c)
    (m_parser c) (m_url c) (m_endpoints c) (m_next_ep c) (m_sock c)
    (m_hostname c) (m_port c) (m_ssl c) (m_bind_addr c) (m_proxy c)
    (m_handler c) (m_connect_handler c) (m_filter_handler c)
    (m_hostname_filter_handler c) (m_completion_timeout c) (m_last_receive c)
    (m_start_time c) (m_redirects c) (m_max_bottled_buffer_size c)
    (m_rate_limit c) (m_download_quota c) (m_priority c) (m_resolve_flags c)
    (m_auth c) (m_user_agent c) (m_bottled c) (m_called c) (m_abort c) v
    (m_resolving_host c) (m_limiter_timer_active c).

Definition set_m_resolving_host (v : bool) (c : http_connection) : http_connection :=
  mk_http_connection (m_sendbuffer c) (m_recvbuffer c) (m_read_pos c)
    (m_parser c) (m_url c) (m_endpoints c) (m_next_ep c) (m_sock c)
    (m_hostname c) (m_port c) (m_ssl c) (m_bind_addr c) (m_proxy c)
    (m_handler c) (m_connect_handler c) (m_filter_handler c)
    (m_hostname_filter_handler c) (m_completion_timeout c) (m_last_receive c)
    (m_start_time c) (m_redirects c) (m_max_bottled_buffer_size c)
    (m_rate_limit c) (m_download_quota c) (m_priority c) (m_resolve_flags c)
    (m_auth c) (m_user_agent c) (m_bottled c) (m_called c) (m_abort c)
    (m_connecting c) v (m_limiter_timer_active c).

Definition set_m_limiter_timer_active (v : bool) (c : http_connection) : http_connection :=
  mk_http_connection (m_sendbuffer c) (m_recvbuffer c) (m_read_pos c)
    (m_parser c) (m_url c) (m_endpoints c) (m_next_ep c) (m_sock c)
    (m_hostname c) (m_port c) (m_ssl c) (m_bind_addr c) (m_proxy c)
    (m_handler c) (m_connect_handler c) (m_filter_handler c)
    (m_hostname_filter_handler c) (m_completion_timeout c) (m_last_receive c)
    (m_start_time c) (m_redirects c) (m_max_bottled_buffer_size c)
    (m_rate_limit c) (m_download_quota c) (m_priority c) (m_resolve_flags c)
    (m_auth c) (m_user_agent c) (m_bottled c) (m_called c) (m_abort c)
    (m_connecting c) (m_resolving_host c) v.

(** The state the constructor leaves. *)
Definition new_http_connection (now : Z) (bottled : bool)
    (max_bottled_buffer_size : Z) (ch : bool)
    (fh : option (list endpoint -> list endpoint))
    (hfh : option (string -> bool)) : http_connection :=
  {| m_sendbuffer := ""; m_recvbuffer := []; m_read_pos := 0;
     m_parser := parser_new; m_url := ""; m_endpoints := []; m_next_ep := 0;
     m_sock := None; m_hostname := ""; m_port := 0; m_ssl := false;
     m_bind_addr := None; m_proxy := default_proxy_settings;
     m_handler := true; m_connect_handler := ch; m_filter_handler := fh;
     m_hostname_filter_handler := hfh; m_completion_timeout := 5;
     m_last_receive := now; m_start_time := now; m_redirects := 5;
     m_max_bottled_buffer_size := max_bottled_buffer_size;
     m_rate_limit := 0; m_download_quota := 0; m_priority := 0;
     m_resolve_flags := 0; m_auth := ""; m_user_agent := "";
     m_bottled := bottled; m_called := false; m_abort := false;
     m_connecting := false; m_resolving_host := false;
     m_limiter_timer_active := false |}.

(** ** Member functions as state transformers with a trace *)

Definition proc : Type := http_connection -> http_connection * list action.

Definition ret : proc := fun c => (c, []).

Definition emit (a : action) : proc := fun c => (c, [a]).

Definition upd (f : http_connection -> http_connection) : proc :=
  fun c => (f c, []).

Definition seq (p q : proc) : proc :=
  fun c => let (c1, t1) := p c in
           let (c2, t2) := q c1 in (c2, t1 ++ t2).

Definition with_this (k : http_connection -> proc) : proc :=
  fun c => k c c.

Notation "p ;; q" := (seq p q) (at level 61, right associativity).

Definition when (b : bool) (p : proc) : proc := if b then p else ret.

(** [m_sock && m_sock->is_open()] *)
Definition sock_open (c : http_connection) : bool :=
  match m_sock c with Some s => sock_is_open s | None => false end.

Definition on_sock (f : socket_type -> socket_type) : proc :=
  upd (fun c => set_m_sock (option_map f (m_sock c)) c).

(** *** callback (lines 507-538) *)

(** The tail of [callback]: [m_called = true; m_timer.cancel();
    if (m_handler) m_handler(e, m_parser, data, *this)]. *)
Definition deliver (e : error_code) (data : list byte) : proc :=
  upd (set_m_called true) ;;
  emit Timer_cancel ;;
  with_this (fun c => when (m_handler c) (emit (Handler e data))).

Definition is_gzip (encoding : string) : bool :=
  String.eqb encoding "gzip" || String.eqb encoding "x-gzip".

Definition callback (e : error_code) (data : span) : proc :=
  with_this (fun c =>
  if m_bottled c && m_called c then ret
  else if negb (span_empty data) && m_bottled c
          && header_finished (m_parser c)
  then
    (* collapse_chunk_headers rewrites the viewed bytes in place and
       returns a prefix of the view *)
    let collapsed :=
      collapse_chunk_headers (m_parser c) (view (m_recvbuffer c) data) in
    upd (set_m_recvbuffer
           (overwrite (m_recvbuffer c) (sp_off data) collapsed)) ;;
    let e' := if finished (m_parser c) then None else e in
    if is_gzip (header (m_parser c) "content-encoding")
    then
      let (buf, ec) := inflate_gzip collapsed (m_max_bottled_buffer_size c) in
      if is_error ec
      then when (m_handler c) (emit (Handler ec collapsed))
      else deliver e' buf
    else deliver e' collapsed
  else deliver e (view (m_recvbuffer c) data)).

(** *** close (lines 351-377) *)

Definition close (force : bool) : proc :=
  with_this (fun c =>
  if m_abort c then ret
  else
    match m_sock c with
    | Some _ =>
        if force then on_sock socket_close ;; emit Timer_cancel
        else emit Async_shutdown  (* the stream closes itself later *)
    | None => emit Timer_cancel
    end ;;
    emit Limiter_cancel ;;
    upd (set_m_hostname "") ;;
    upd (set_m_port 0) ;;
    upd (set_m_handler false) ;;
    upd (set_m_abort true)).

(** *** connect (lines 425-475) *)

(** [m_endpoints[0].address(adr)] *)
Definition set_first_address (adr : address) (eps : list endpoint)
  : list endpoint :=
  match eps with
  | ep :: rest => mk_endpoint adr (ep_port ep) :: rest
  | [] => []
  end.

(** [int(m_endpoints.size())] *)
Definition endpoints_size (c : http_connection) : Z :=
  Z.of_nat (List.length (m_endpoints c)).

Definition connect : proc :=
  with_this (fun c =>
    when (ps_proxy_hostnames (m_proxy c)
          && is_socks5_proxy (ps_type (m_proxy c)))
      match make_address (m_hostname c) with
      | None => on_sock (socket_set_dst_name (m_hostname c))
      | Some adr =>
          upd (set_m_endpoints (set_first_address adr (m_endpoints c)))
      end) ;;
  with_this (fun c =>
    if m_next_ep c >=? endpoints_size c then ret
    else
      match nth_error (m_endpoints c) (Z.to_nat (m_next_ep c)) with
      | None => ret
      | Some target_address =>
          upd (set_m_next_ep (m_next_ep c + 1)) ;;
          upd (set_m_connecting true) ;;
          on_sock socket_start_connect ;;
          emit (Async_connect target_address)
      end).

(** *** start (lines 188-305) *)

Definition socks5_hostnames (ps : option proxy_settings) : bool :=
  match ps with
  | Some p => ps_proxy_hostnames p && is_socks5_proxy (ps_type p)
  | None => false
  end.

(** [ps && (ps->type == http || ps->type == http_pw) && !ssl] *)
Definition plain_http_proxy (ps : option proxy_settings) (ssl : bool) : bool :=
  match ps with
  | Some p => is_http_proxy (ps_type p) && negb ssl
  | None => false
  end.

Definition start (hostname : string) (port : Z) (timeout : Z) (prio : Z)
    (ps : option proxy_settings) (ssl : bool) (handle_redirects : Z)
    (bind_addr : option address) (resolve_flags : Z) : proc :=
  upd (set_m_redirects handle_redirects) ;;
  upd (set_m_resolve_flags resolve_flags) ;;
  match ps with Some p => upd (set_m_proxy p) | None => ret end ;;
  upd (set_m_completion_timeout timeout) ;;
  emit (Timer_expires_after timeout) ;;
  emit Timer_async_wait ;;
  upd (set_m_called false) ;;
  upd (fun c => set_m_parser (parser_reset (m_parser c)) c) ;;
  upd (set_m_recvbuffer []) ;;
  upd (set_m_read_pos 0) ;;
  upd (set_m_priority prio) ;;
  with_this (fun c =>
  if sock_open c && String.eqb (m_hostname c) hostname && (m_port c =? port)
     && Bool.eqb (m_ssl c) ssl && opt_address_eqb (m_bind_addr c) bind_addr
  then emit (Async_write (m_sendbuffer c))
  else
    upd (set_m_ssl ssl) ;;
    upd (set_m_bind_addr bind_addr) ;;
    when (sock_open c) (on_sock socket_close) ;;
    (* an http proxy without TLS was handled by the request builder *)
    let proxy := if plain_http_proxy ps ssl then None else ps in
    let tls := TORRENT_USE_SSL && ssl in
    upd (set_m_sock (Some (instantiate_connection
           match proxy with Some p => p | None => default_proxy_settings end
           tls))) ;;
    match bind_addr with
    | Some a => on_sock (socket_open_bind a)
    | None => ret
    end ;;
    let bind_ec :=
      match bind_addr with Some a => bind_result a | None => None end in
    if is_error bind_ec then emit (Post_callback bind_ec)
    else
      let ec := setup_ssl_hostname tls hostname in
      when tls (on_sock (socket_set_tls_hostname hostname)) ;;
      if is_error ec then emit (Post_callback ec)
      else
        upd (set_m_endpoints []) ;;
        upd (set_m_next_ep 0) ;;
        upd (set_m_hostname hostname) ;;
        (if socks5_hostnames ps
         then
           upd (set_m_port (to_uint16 port)) ;;
           upd (fun c => set_m_endpoints
                  (m_endpoints c ++ [mk_endpoint address_any (m_port c)]) c) ;;
           connect
         else
           upd (set_m_resolving_host true) ;;
           with_this (fun c =>
             emit (Async_resolve hostname (m_resolve_flags c)))) ;;
        upd (set_m_port (to_uint16 port))).

(** *** get (lines 84-186) *)

Definition crlf : string :=
  String (ascii_of_nat 13) (String (ascii_of_nat 10) EmptyString).

Definition string_empty (s : string) : bool := String.eqb s "".

(** [request << "Host: " << hostname] and the port, which is written
    only when it is not the scheme's default. *)
Definition host_header (hostname : string) (port default_port : Z) : string :=
  ("Host: " ++ hostname
   ++ (if negb (Z.eqb port default_port)
       then ":" ++ string_of_Z port ++ crlf
       else crlf))%string.

(** [protocol != "http" && protocol != "https"], the second test only
    in a build with TLS. *)
Definition unsupported_protocol (protocol : string) : bool :=
  negb (String.eqb protocol "http")
  && (if TORRENT_USE_SSL then negb (String.eqb protocol "https") else true).

Definition get (url : string) (timeout : Z) (prio : Z)
    (ps : option proxy_settings) (handle_redirects : Z) (user_agent : string)
    (bind_addr : option address) (resolve_flags : Z) (auth_ : string) : proc :=
  upd (set_m_user_agent user_agent) ;;
  upd (set_m_resolve_flags resolve_flags) ;;
  let uc := parse_url_components url in
  let protocol := uc_protocol uc in
  let hostname := uc_hostname uc in
  let path := uc_path uc in
  let auth := if string_empty (uc_auth uc) then auth_ else uc_auth uc in
  upd (set_m_auth auth) ;;
  let default_port := if String.eqb protocol "https" then 443 else 80 in
  let port := if uc_port uc =? -1 then default_port else uc_port uc in
  if is_error (uc_ec uc) then emit (Post_callback (uc_ec uc))
  else with_this (fun c =>
  if match m_hostname_filter_handler c with
     | Some hfh => negb (hfh hostname)
     | None => false
     end
  then emit (Post_callback (Some blocked_by_idna))
  else if unsupported_protocol protocol
  then emit (Post_callback (Some unsupported_url_protocol))
  else
    let ssl := String.eqb protocol "https" in
    let request1 :=
      (match ps with
       | Some p =>
           if is_http_proxy (ps_type p) && negb ssl
           then
             "GET " ++ url ++ " HTTP/1.1" ++ crlf
             ++ match ps_type p with
                | settings_pack.http_pw =>
                    "Proxy-Authorization: Basic "
                    ++ base64encode (ps_username p ++ ":" ++ ps_password p)
                    ++ crlf
                | _ => ""
                end
             ++ host_header hostname port default_port
           else
             "GET " ++ path ++ " HTTP/1.1" ++ crlf
             ++ host_header hostname port default_port
       | None =>
           "GET " ++ path ++ " HTTP/1.1" ++ crlf
           ++ host_header hostname port default_port
       end)%string in
    let hostname' :=
      match ps with
      | Some p => if is_http_proxy (ps_type p) && negb ssl
                  then ps_hostname p else hostname
      | None => hostname
      end in
    let port' :=
      match ps with
      | Some p => if is_http_proxy (ps_type p) && negb ssl
                  then ps_port p else port
      | None => port
      end in
    let request2 :=
      (request1
       ++ (if negb (string_empty (m_user_agent c))
           then "User-Agent: " ++ m_user_agent c ++ crlf else "")
       ++ (if m_bottled c then "Accept-Encoding: gzip" ++ crlf else "")
       ++ (if negb (string_empty auth)
           then "Authorization: Basic " ++ base64encode auth ++ crlf else "")
       ++ "Connection: close" ++ crlf ++ crlf)%string in
    upd (set_m_sendbuffer request2) ;;
    upd (set_m_url url) ;;
    with_this (fun c =>
      start hostname' port' timeout prio ps ssl handle_redirects bind_addr
        (m_resolve_flags c))).

(** *** on_timeout (lines 307-349) *)

Definition rearm_deadline : proc :=
  with_this (fun c =>
    emit (Timer_expires_at (m_start_time c + m_completion_timeout c))) ;;
  emit Timer_async_wait.

(** [m_start_time + m_completion_timeout * (int(m_resolving_host) + 1)] *)
Definition effective_deadline (c : http_connection) : Z :=
  m_start_time c + m_completion_timeout c * (Z.b2z (m_resolving_host c) + 1).

Definition on_timeout (e : error_code) (now : Z) : proc :=
  if is_operation_aborted e then ret
  else with_this (fun c =>
  if m_abort c then ret
  else if effective_deadline c <=? now
  then
    if m_next_ep c <? endpoints_size c
    then
      on_sock socket_close ;;
      with_this (fun c => when (negb (m_connecting c)) connect) ;;
      upd (set_m_last_receive now) ;;
      upd (set_m_start_time now) ;;
      rearm_deadline
    else
      on_sock socket_close ;;
      callback (Some timed_out) empty_span
  else rearm_deadline).

(** *** on_resolve (lines 379-423) *)

Definition on_resolve (e : error_code) (addresses : list address) (now : Z)
  : proc :=
  upd (set_m_resolving_host false) ;;
  if is_error e then callback e empty_span
  else
    upd (set_m_start_time now) ;;
    upd (fun c => set_m_endpoints
           (m_endpoints c
            ++ map (fun addr => mk_endpoint addr (m_port c)) addresses) c) ;;
    with_this (fun c =>
      match m_filter_handler c with
      | Some fh => upd (set_m_endpoints (fh (m_endpoints c)))
      | None => ret
      end) ;;
    with_this (fun c =>
    match m_endpoints c with
    | [] => close close_force_default
    | _ :: _ =>
        upd (set_m_endpoints (random_shuffle (m_endpoints c))) ;;
        with_this (fun c =>
        match m_bind_addr c with
        | Some bind_addr =>
            (* remove_if + erase: drop the endpoints of the other family *)
            let kept :=
              filter (fun ep => Bool.eqb (endpoint_is_v4 ep) (is_v4 bind_addr))
                     (m_endpoints c) in
            upd (set_m_endpoints kept) ;;
            match kept with
            | [] =>
                callback (Some address_family_not_supported) empty_span ;;
                close close_force_default
            | _ :: _ => connect
            end
        | None => connect
        end)
    end).

(** *** on_connect (lines 477-505) *)

Definition on_connect (e : error_code) (now : Z) : proc :=
  upd (set_m_connecting false) ;;
  upd (set_m_last_receive now) ;;
  upd (set_m_start_time now) ;;
  with_this (fun c =>
  if negb (is_error e)
  then
    when (m_connect_handler c) (emit Connect_handler) ;;
    emit (Async_write (m_sendbuffer c))
  else if (m_next_ep c <? endpoints_size c) && negb (m_abort c)
  then on_sock socket_close ;; connect
  else on_sock socket_close ;; callback e empty_span).

(** *** on_assign_bandwidth (lines 727-763) *)

Definition on_assign_bandwidth (e : error_code) : proc :=
  with_this (fun c =>
  if (is_operation_aborted e && m_limiter_timer_active c)
     || negb (sock_open c)
  then callback (Some eof) empty_span
  else
    upd (set_m_limiter_timer_active false) ;;
    if is_error e then ret
    else if m_abort c then ret
    else if m_download_quota c >? 0 then ret
    else
      (* int division truncates towards zero *)
      upd (set_m_download_quota (Z.quot (m_rate_limit c) 4)) ;;
      with_this (fun c =>
        let amount_to_read := size (m_recvbuffer c) - m_read_pos c in
        let amount_to_read :=
          if amount_to_read >? m_download_quota c
          then m_download_quota c else amount_to_read in
        if negb (sock_open c) then ret
        else
          emit (Async_read_some (m_read_pos c) (to_size_t amount_to_read)) ;;
          upd (set_m_limiter_timer_active true) ;;
          emit (Limiter_expires_after 250) ;;
          emit Limiter_async_wait)).

(** The same text ends [on_write] (lines 557-575) and [on_read]
    (lines 706-724): compute [amount_to_read] under the rate limit and
    issue the next read, or start the limiter when the quota is used up. *)
Definition request_read : proc :=
  with_this (fun c =>
    let amount_to_read := size (m_recvbuffer c) - m_read_pos c in
    if (m_rate_limit c >? 0) && (amount_to_read >? m_download_quota c)
    then
      if m_download_quota c =? 0
      then when (negb (m_limiter_timer_active c)) (on_assign_bandwidth None)
      else emit (Async_read_some (m_read_pos c)
                   (to_size_t (m_download_quota c)))
    else emit (Async_read_some (m_read_pos c) (to_size_t amount_to_read))).

(** *** on_write (lines 540-576) *)

Definition on_write (e : error_code) : proc :=
  if is_operation_aborted e then ret
  else if is_error e then callback e empty_span
  else with_this (fun c =>
  if m_abort c then ret
  else
    upd (set_m_sendbuffer "") ;;
    upd (fun c => set_m_recvbuffer (resize 4096 (m_recvbuffer c)) c) ;;
    request_read).

(** *** on_read (lines 578-725) *)

(** [std::min(m_read_pos * 2, m_max_bottled_buffer_size)] of line 697;
    the product is a product of two [int]s. *)
Definition grown_size (c : http_connection) : Z :=
  Z.min (wrap_int (m_read_pos c * 2)) (m_max_bottled_buffer_size c).

(** Lines 695-725: the grow policy, the size cap and the next read.
    [resize] takes a [std::size_t]: a negative [grown_size] converts to
    [2^64 - 2^31] or more, which is past [max_size()] of a vector, so
    that [resize] throws [std::length_error] and [on_read] ends
    there. *)
Definition on_read_grow : proc :=
  with_this (fun c =>
    if (size (m_recvbuffer c) =? m_read_pos c) && (grown_size c <? 0)
    then emit Throw_length_error
    else
      when (size (m_recvbuffer c) =? m_read_pos c)
        (upd (set_m_recvbuffer (resize (grown_size c) (m_recvbuffer c)))) ;;
      with_this (fun c =>
        if m_read_pos c =? m_max_bottled_buffer_size c
        then callback (Some file_too_large) empty_span
        else request_read)).

(** Lines 636-666: the redirect test after the parser accepted the
    bytes.  [None] when the response is not a redirect to follow (the
    caller goes on), the rest of [on_read] otherwise. *)
Definition on_read_redirect (c : http_connection) : option proc :=
  if negb (m_redirects c =? 0) && header_finished (m_parser c)
     && is_redirect (status_code (m_parser c))
  then
    let location := header (m_parser c) "location" in
    if string_empty location
    then Some (callback (Some http_missing_location) empty_span)
    else Some (
      on_sock socket_close ;;
      let url := resolve_redirect_location (m_url c) location in
      get url (m_completion_timeout c) (m_priority c) (Some (m_proxy c))
        (m_redirects c - 1) (m_user_agent c) (m_bind_addr c)
        (m_resolve_flags c) (m_auth c))
  else None.

Definition on_read (e : error_code) (bytes_transferred : Z) (now : Z) : proc :=
  with_this (fun c =>
    when (negb (m_rate_limit c =? 0))
      (upd (set_m_download_quota (m_download_quota c - bytes_transferred)))) ;;
  if is_operation_aborted e then ret
  else with_this (fun c =>
  if m_abort c then ret
  else if is_eof_or_shut_down e
  then
    let body :=
      if m_bottled c && header_finished (m_parser c)
      then mk_span (body_start (m_parser c)) (get_body_size (m_parser c))
      else empty_span in
    callback (Some eof) body
  else if is_error e then callback e empty_span
  else
    upd (set_m_read_pos (m_read_pos c + bytes_transferred)) ;;
    with_this (fun c =>
    if m_bottled c || negb (header_finished (m_parser c))
    then
      let (parser', error) :=
        parser_incoming (m_parser c)
          (firstn (Z.to_nat (m_read_pos c)) (m_recvbuffer c)) in
      upd (set_m_parser parser') ;;
      if error then callback (Some http_parse_error) empty_span
      else with_this (fun c =>
        match on_read_redirect c with
        | Some redirect => redirect
        | None =>
            when (negb (m_redirects c =? 0) && header_finished (m_parser c))
              (upd (set_m_redirects 0)) ;;
            with_this (fun c =>
              let body :=
                mk_span (body_start (m_parser c))
                        (m_read_pos c - body_start (m_parser c)) in
              if negb (m_bottled c) && header_finished (m_parser c)
              then
                when (m_read_pos c >? body_start (m_parser c))
                  (callback e body) ;;
                upd (set_m_read_pos 0) ;;
                upd (set_m_last_receive now)
              else if m_bottled c && finished (m_parser c)
              then emit Timer_cancel ;; callback e body
              else ret) ;;
            on_read_grow
        end)
    else
      callback e (mk_span 0 (m_read_pos c)) ;;
      upd (set_m_read_pos 0) ;;
      upd (set_m_last_receive now) ;;
      on_read_grow)).

(** *** rate_limit (lines 765-778) *)

Definition rate_limit (limit : Z) : proc :=
  with_this (fun c =>
  if negb (sock_open c) then ret
  else
    when (negb (m_limiter_timer_active c))
      (upd (set_m_limiter_timer_active true) ;;
       emit (Limiter_expires_after 250) ;;
       emit Limiter_async_wait) ;;
    upd (set_m_rate_limit limit)).

(** ** The event loop *)

(** What can happen to a connection: a call of the caller's API or the
    completion of an asynchronous operation.  A completion carries what
    the collaborator reports; [now] is the clock reading the handler
    takes. *)
Inductive event : Type :=
| Ev_get (url : string) (timeout prio : Z) (ps : option proxy_settings)
    (handle_redirects : Z) (user_agent : string)
    (bind_addr : option address) (resolve_flags : Z) (auth_ : string)
| Ev_start (hostname : string) (port timeout prio : Z)
    (ps : option proxy_settings) (ssl : bool) (handle_redirects : Z)
    (bind_addr : option address) (resolve_flags : Z)
| Ev_close (force : bool)
| Ev_rate_limit (limit : Z)
| Ev_posted_callback (e : error_code)
| Ev_on_resolve (e : error_code) (addresses : list address) (now : Z)
| Ev_on_connect (e : error_code) (now : Z)
| Ev_on_write (e : error_code)
| Ev_on_read (e : error_code) (data : list byte) (now : Z)
| Ev_on_timeout (e : error_code) (now : Z)
| Ev_on_assign_bandwidth (e : error_code).

(** The stream stores the bytes it read at the position the read was
    issued for, and is connected once a connect succeeded; then the
    completion handler runs. *)
Definition handle (ev : event) : proc :=
  match ev with
  | Ev_get url timeout prio ps redirects ua bind_addr flags auth_ =>
      get url timeout prio ps redirects ua bind_addr flags auth_
  | Ev_start hostname port timeout prio ps ssl redirects bind_addr flags =>
      start hostname port timeout prio ps ssl redirects bind_addr flags
  | Ev_close force => close force
  | Ev_rate_limit limit => rate_limit limit
  | Ev_posted_callback e => callback e empty_span
  | Ev_on_resolve e addresses now => on_resolve e addresses now
  | Ev_on_connect e now =>
      when (negb (is_error e)) (on_sock socket_connected) ;;
      on_connect e now
  | Ev_on_write e => on_write e
  | Ev_on_read e data now =>
      upd (fun c => set_m_recvbuffer
             (overwrite (m_recvbuffer c) (m_read_pos c) data) c) ;;
      on_read e (size data) now
  | Ev_on_timeout e now => on_timeout e now
  | Ev_on_assign_bandwidth e => on_assign_bandwidth e
  end.

(** [m_sock] is connected to its peer. *)
Definition sock_is_connected (c : http_connection) : bool :=
  match m_sock c with Some s => sock_connected s | None => false end.

(** The contract of the event loop and of the single-request use of the
    object: a resolve or connect completion is delivered for an
    operation that is outstanding; a read only succeeds on a connected
    stream; the caller issues a request only while no resolve and no
    connect of an earlier request is outstanding. *)
Definition admissible (c : http_connection) (ev : event) : bool :=
  match ev with
  | Ev_get _ _ _ _ _ _ _ _ _
  | Ev_start _ _ _ _ _ _ _ _ _ =>
      negb (m_resolving_host c) && negb (m_connecting c)
  | Ev_on_resolve _ _ _ => m_resolving_host c
  | Ev_on_connect _ _ => m_connecting c
  | Ev_on_read e _ _ => is_error e || sock_is_connected c
  | _ => true
  end.

(** Running a sequence of events, collecting the trace. *)
Fixpoint run (evs : list event) : proc :=
  match evs with
  | [] => ret
  | ev :: rest => handle ev ;; run rest
  end.

(** Every event of the sequence is admissible when it happens. *)
Fixpoint admissible_run (evs : list event) (c : http_connection) : bool :=
  match evs with
  | [] => true
  | ev :: rest => admissible c ev && admissible_run rest (fst (handle ev c))
  end.

(** The states a connection can be in: those the event loop reaches
    from a freshly constructed object. *)
Inductive reachable : http_connection -> Prop :=
| reachable_new now bottled max_size ch fh hfh :
    reachable (new_http_connection now bottled max_size ch fh hfh)
| reachable_step c ev :
    reachable c -> admissible c ev = true ->
    reachable (fst (handle ev c)).

(** ** The request as section 4.6 words it *)

(** "All other cases" of the request builder, line by line: the request
    line, [Host] with the port only when it is not the scheme default,
    the common trailing headers in their order, and the blank line. *)
Definition spec_request_lines (path hostname : string) (port default_port : Z)
    (user_agent : string) (bottled : bool) (auth : string) : list string :=
  [ ("GET " ++ path ++ " HTTP/1.1")%string;
    ("Host: " ++ hostname
     ++ (if Z.eqb port default_port then "" else ":" ++ string_of_Z port))%string ]
  ++ (if string_empty user_agent then []
      else [("User-Agent: " ++ user_agent)%string])
  ++ (if bottled then ["Accept-Encoding: gzip"] else [])
  ++ (if string_empty auth then []
      else [("Authorization: Basic " ++ base64encode auth)%string])
  ++ ["Connection: close"; ""].

(** Every line is followed by CR LF. *)
Definition serialize (lines : list string) : string :=
  String.concat "" (map (fun l => (l ++ crlf)%string) lines).

(** The endpoints [on_resolve] collects: the resolved addresses paired
    with the port, as the endpoint filter leaves them. *)
Definition resolved_endpoints (addresses : list address)
    (c : http_connection) : list endpoint :=
  let eps :=
    m_endpoints c ++ map (fun addr => mk_endpoint addr (m_port c)) addresses in
  match m_filter_handler c with
  | Some fh => fh eps
  | None => eps
  end.

(** The endpoints [on_resolve] hands to [connect]: shuffled and, under
    a bind address, without those of the other address family. *)
Definition usable_endpoints (addresses : list address)
    (c : http_connection) : list endpoint :=
  let eps := random_shuffle (resolved_endpoints addresses c) in
  match m_bind_addr c with
  | Some bind_addr =>
      filter (fun ep => Bool.eqb (endpoint_is_v4 ep) (is_v4 bind_addr)) eps
  | None => eps
  end.

(** The connection after the SOCKS5 part of [connect] (lines 431-462). *)
Definition connect_prepared (c : http_connection) : http_connection :=
  if ps_proxy_hostnames (m_proxy c) && is_socks5_proxy (ps_type (m_proxy c))
  then
    match make_address (m_hostname c) with
    | None =>
        set_m_sock
          (option_map (socket_set_dst_name (m_hostname c)) (m_sock c)) c
    | Some adr =>
        set_m_endpoints (set_first_address adr (m_endpoints c)) c
    end
  else c.

(** ** Properties of procedures *)

(** [stable P p]: running [p] keeps [P]. *)
Definition stable (P : http_connection -> Prop) (p : proc) : Prop :=
  forall c, P c -> P (fst (p c)).

(** [keeps P T p]: running [p] keeps [P] and has effects in [T] only. *)
Definition keeps (P : http_connection -> Prop) (T : action -> Prop)
    (p : proc) : Prop :=
  forall c, P c -> P (fst (p c)) /\ Forall T (snd (p c)).

(** The handler reference was dropped. *)
Definition dropped (c : http_connection) : Prop := m_handler c = false.

Definition not_handler (a : action) : Prop := is_handler a = false.

(** [keeps_or P T X p]: running [p] keeps [P] with effects in [T] only,
    unless it has an effect in [X]. *)
Definition keeps_or (P : http_connection -> Prop) (T X : action -> Prop)
    (p : proc) : Prop :=
  forall c, P c ->
    (P (fst (p c)) /\ Forall T (snd (p c))) \/ Exists X (snd (p c)).

(** [leads P Q p]: from [P], running [p] gives [Q]. *)
Definition leads (P Q : http_connection -> Prop) (p : proc) : Prop :=
  forall c, P c -> Q (fst (p c)).

(** [start] ran: it is the only procedure that arms the deadline timer
    with [expires_after]. *)
Definition started (a : action) : Prop := is_timer_expires_after a = true.

Definition not_connect (a : action) : Prop := is_async_connect a = false.

Definition any_action (a : action) : Prop := True.

(** The endpoint list is used up. *)
Definition exhausted (c : http_connection) : Prop :=
  endpoints_size c <= m_next_ep c.

(** [m_next_ep] did not fall below [n0]; with [b] set, the endpoint
    list is moreover used up. *)
Definition progress_from (n0 : Z) (b : bool) (c : http_connection) : Prop :=
  n0 <= m_next_ep c /\ (b = true -> exhausted c).

(** With [b] set, no connect is issued. *)
Definition quiet_connect (b : bool) (a : action) : Prop :=
  b = true -> not_connect a.

Definition is_on_resolve (ev : event) : bool :=
  match ev with Ev_on_resolve _ _ _ => true | _ => false end.

(** ** The endpoint invariant *)

(** [m_next_ep] stays within the endpoint list.  The two other parts
    make the statement inductive: while the host is being resolved the
    list is still empty and the stream is neither connected nor
    connecting, and a connecting stream is not connected. *)
Definition endpoint_invariant (c : http_connection) : Prop :=
  0 <= m_next_ep c <= endpoints_size c
  /\ (m_resolving_host c = true ->
      m_endpoints c = [] /\ sock_is_connected c = false
      /\ m_connecting c = false)
  /\ (m_connecting c = true -> sock_is_connected c = false).

(** No resolve and no connect is outstanding. *)
Definition settled (c : http_connection) : Prop :=
  endpoint_invariant c
  /\ m_resolving_host c = false /\ m_connecting c = false.

(** The stream was replaced or closed and nothing is outstanding. *)
Definition unconnected (c : http_connection) : Prop :=
  settled c /\ sock_is_connected c = false.

(** [start] emptied the endpoint list of a connection on which nothing
    is outstanding. *)
Definition cleared (c : http_connection) : Prop :=
  m_next_ep c = 0 /\ m_endpoints c = []
  /\ m_resolving_host c = false /\ m_connecting c = false
  /\ sock_is_connected c = false.

(** [close] was called. *)
Definition aborted (c : http_connection) : Prop := m_abort c = true.

(** What [callback(e)] without data does on [c] (lines 509 and
    535-537): nothing once a bottled callback was made; otherwise the
    timer is cancelled and the handler, if the connection holds one, is
    invoked with [e] and no data. *)
Definition reports (e : error_code) (c : http_connection) : list action :=
  if m_bottled c && m_called c then []
  else Timer_cancel :: if m_handler c then [Handler e []] else [].

(** A bottled connection that has made its callback. *)
Definition delivered (c : http_connection) : Prop :=
  m_bottled c = true /\ m_called c = true.

(** The error [get] reports for an input it refuses, by the order of
    its three tests. *)
Definition input_error (c : http_connection) (uc : url_components)
  : error_code :=
  if is_error (uc_ec uc) then uc_ec uc
  else if match m_hostname_filter_handler c with
          | Some hfh => negb (hfh (uc_hostname uc))
          | None => false
          end
       then Some blocked_by_idna
       else Some unsupported_url_protocol.

(** The connection after the bookkeeping [on_read] does for a read of
    [n] bytes that the parser accepts: the quota under a rate limit,
    the read position, and the parser [parser'] that saw the bytes. *)
Definition after_read (n : Z) (parser' : http_parser) (c : http_connection)
  : http_connection :=
  set_m_parser parser'
    (set_m_read_pos (m_read_pos c + n)
       (if negb (m_rate_limit c =? 0)
        then set_m_download_quota (m_download_quota c - n) c
        else c)).

(** [m_sock->close(ec)] *)
Definition hard_closed (c : http_connection) : http_connection :=
  set_m_sock (option_map socket_close (m_sock c)) c.

(** ** Reads against the buffer and the quota *)

Definition no_read (a : action) : Prop := is_async_read a = false.

(** A read [async_read_some(m_recvbuffer.data() + pos, amount)] as the
    connection [c] that issued it stands: it starts at [m_read_pos],
    and when the quota is not negative and the read position is within
    the receive buffer, it ends within the buffer and, under a rate
    limit, asks for no more than the quota.  [amount] is a
    [std::size_t]. *)
Definition read_within (c : http_connection) (a : action) : Prop :=
  match a with
  | Async_read_some pos amount =>
      pos = m_read_pos c
      /\ 0 <= amount
      /\ (0 <= m_download_quota c -> pos <= size (m_recvbuffer c) ->
          pos + amount <= size (m_recvbuffer c)
          /\ (0 < m_rate_limit c -> amount <= m_download_quota c))
  | _ => True
  end.

(** Every read [p] issues is within the buffer and the quota of the
    connection [p] leaves. *)
Definition issues_within (p : proc) : Prop :=
  forall c, Forall (read_within (fst (p c))) (snd (p c)).

(** [p] issues no read. *)
Definition reads_nothing (p : proc) : Prop :=
  keeps (fun _ => True) no_read p.

(** ** The paths of start *)

(** [m_sock && m_sock->is_open() && m_hostname == hostname
    && m_port == port && m_ssl == ssl && m_bind_addr == bind_addr]:
    the stream the connection has can carry the request. *)
Definition reusable (hostname : string) (port : Z) (ssl : bool)
    (bind_addr : option address) (c : http_connection) : bool :=
  sock_open c && String.eqb (m_hostname c) hostname && (m_port c =? port)
  && Bool.eqb (m_ssl c) ssl && opt_address_eqb (m_bind_addr c) bind_addr.

(** The error of the bind of a fresh stream, none without a bind
    address. *)
Definition bind_error (bind_addr : option address) : error_code :=
  match bind_addr with Some a => bind_result a | None => None end.

Definition not_write (a : action) : Prop :=
  match a with Async_write _ => False | _ => True end.

(** The connection after the assignments [start] begins with (lines
    197-214), before it looks at the stream. *)
Definition start_prepared (timeout prio : Z) (ps : option proxy_settings)
    (handle_redirects resolve_flags : Z) (c : http_connection)
  : http_connection :=
  let c1 := set_m_resolve_flags resolve_flags (set_m_redirects handle_redirects c) in
  let c2 := match ps with Some p => set_m_proxy p c1 | None => c1 end in
  let c3 := set_m_called false (set_m_completion_timeout timeout c2) in
  set_m_priority prio
    (set_m_read_pos 0
       (set_m_recvbuffer []
          (set_m_parser (parser_reset (m_parser c3)) c3))).

(** Lines 266-304 of [start], on the stream it has just made: a bind
    that failed, and then a TLS host name that cannot be set, is
    posted; otherwise the host is resolved or, through a SOCKS5 proxy
    that resolves host names, connected to at once. *)
Definition start_fresh (hostname : string) (port : Z)
    (ps : option proxy_settings) (ssl : bool) (bind_addr : option address)
  : proc :=
  if is_error (bind_error bind_addr)
  then emit (Post_callback (bind_error bind_addr))
  else
    let tls := TORRENT_USE_SSL && ssl in
    let ec := setup_ssl_hostname tls hostname in
    when tls (on_sock (socket_set_tls_hostname hostname)) ;;
    if is_error ec then emit (Post_callback ec)
    else
      upd (set_m_endpoints []) ;;
      upd (set_m_next_ep 0) ;;
      upd (set_m_hostname hostname) ;;
      (if socks5_hostnames ps
       then
         upd (set_m_port (to_uint16 port)) ;;
         upd (fun c => set_m_endpoints
                (m_endpoints c ++ [mk_endpoint address_any (m_port c)]) c) ;;
         connect
       else
         upd (set_m_resolving_host true) ;;
         with_this (fun c =>
           emit (Async_resolve hostname (m_resolve_flags c)))) ;;
      upd (set_m_port (to_uint16 port)).

(** Lines 220-265 of [start]: the request is written on the stream at
    hand when that can carry it; otherwise the stream is replaced by
    one instantiated for the proxy (none for a plain HTTP proxy, which
    the request text addresses) and bound under a bind address. *)
Definition start_stream (hostname : string) (port : Z)
    (ps : option proxy_settings) (ssl : bool) (bind_addr : option address)
  : proc :=
  with_this (fun c =>
  if reusable hostname port ssl bind_addr c
  then emit (Async_write (m_sendbuffer c))
  else
    upd (set_m_ssl ssl) ;;
    upd (set_m_bind_addr bind_addr) ;;
    when (sock_open c) (on_sock socket_close) ;;
    let proxy := if plain_http_proxy ps ssl then None else ps in
    let tls := TORRENT_USE_SSL && ssl in
    upd (set_m_sock (Some (instantiate_connection
           match proxy with Some p => p | None => default_proxy_settings end
           tls))) ;;
    match bind_addr with
    | Some a => on_sock (socket_open_bind a)
    | None => ret
    end ;;
    start_fresh hostname port ps ssl bind_addr).

(** The stream [start_stream] makes: instantiated for the proxy and,
    under a bind address, opened and bound. *)
Definition bound_stream (ps : option proxy_settings) (ssl : bool)
    (bind_addr : option address) : socket_type :=
  let proxy := if plain_http_proxy ps ssl then None else ps in
  let s0 :=
    instantiate_connection
      match proxy with Some p => p | None => default_proxy_settings end
      (TORRENT_USE_SSL && ssl) in
  match bind_addr with Some a => socket_open_bind a s0 | None => s0 end.

(** The stream [start] makes when it does not reuse the one it has:
    the bound stream, given the host name when it is a TLS stream. *)
Definition fresh_stream (hostname : string) (ps : option proxy_settings)
    (ssl : bool) (bind_addr : option address) : socket_type :=
  if TORRENT_USE_SSL && ssl
  then socket_set_tls_hostname hostname (bound_stream ps ssl bind_addr)
  else bound_stream ps ssl bind_addr.

(** A connection whose stream is not connected. *)
Definition stream_unconnected (c : http_connection) : Prop :=
  exists s, m_sock c = Some s /\ sock_connected s = false.

(** ** The request of get *)

(** [auth] of [get]: the credentials of the URL, else the argument. *)
Definition request_auth (url auth_ : string) : string :=
  let uc := parse_url_components url in
  if string_empty (uc_auth uc) then auth_ else uc_auth uc.

(** The port [get] uses: that of the URL, else the default of the
    scheme. *)
Definition request_port (url : string) : Z :=
  let uc := parse_url_components url in
  if uc_port uc =? -1
  then (if String.eqb (uc_protocol uc) "https" then 443 else 80)
  else uc_port uc.

(** The host and the port [get] hands to [start]: those of the proxy
    for a request through a plain HTTP proxy, those of the URL
    otherwise (lines 158-159). *)
Definition request_target (url : string) (ps : option proxy_settings)
  : string * Z :=
  let uc := parse_url_components url in
  let ssl := String.eqb (uc_protocol uc) "https" in
  match ps with
  | Some p =>
      if is_http_proxy (ps_type p) && negb ssl
      then (ps_hostname p, ps_port p)
      else (uc_hostname uc, request_port url)
  | None => (uc_hostname uc, request_port url)
  end.

(** The request through a plain HTTP proxy, line by line (lines
    149-156 and 170-179): the request line carries the whole URL, and
    the credentials of the proxy follow it when the proxy wants
    them. *)
Definition proxy_request_lines (url : string) (p : proxy_settings)
    (user_agent : string) (bottled : bool) (auth : string) : list string :=
  let uc := parse_url_components url in
  let default_port := if String.eqb (uc_protocol uc) "https" then 443 else 80 in
  [ ("GET " ++ url ++ " HTTP/1.1")%string ]
  ++ match ps_type p with
     | settings_pack.http_pw =>
         [("Proxy-Authorization: Basic "
           ++ base64encode (ps_username p ++ ":" ++ ps_password p))%string]
     | _ => []
     end
  ++ [ ("Host: " ++ uc_hostname uc
        ++ (if Z.eqb (request_port url) default_port then ""
            else ":" ++ string_of_Z (request_port url)))%string ]
  ++ (if string_empty user_agent then []
      else [("User-Agent: " ++ user_agent)%string])
  ++ (if bottled then ["Accept-Encoding: gzip"] else [])
  ++ (if string_empty auth then []
      else [("Authorization: Basic " ++ base64encode auth)%string])
  ++ ["Connection: close"; ""].

(** The text of the request as [get] builds it (lines 139-179). *)
Definition request_text (url : string) (ps : option proxy_settings)
    (user_agent : string) (bottled : bool) (auth_ : string) : string :=
  let uc := parse_url_components url in
  let protocol := uc_protocol uc in
  let hostname := uc_hostname uc in
  let path := uc_path uc in
  let auth := if string_empty (uc_auth uc) then auth_ else uc_auth uc in
  let default_port := if String.eqb protocol "https" then 443 else 80 in
  let port := if uc_port uc =? -1 then default_port else uc_port uc in
  let ssl := String.eqb protocol "https" in
  ((match ps with
    | Some p =>
        if is_http_proxy (ps_type p) && negb ssl
        then
          "GET " ++ url ++ " HTTP/1.1" ++ crlf
          ++ match ps_type p with
             | settings_pack.http_pw =>
                 "Proxy-Authorization: Basic "
                 ++ base64encode (ps_username p ++ ":" ++ ps_password p)
                 ++ crlf
             | _ => ""
             end
          ++ host_header hostname port default_port
        else
          "GET " ++ path ++ " HTTP/1.1" ++ crlf
          ++ host_header hostname port default_port
    | None =>
        "GET " ++ path ++ " HTTP/1.1" ++ crlf
        ++ host_header hostname port default_port
    end)
   ++ (if negb (string_empty user_agent)
       then "User-Agent: " ++ user_agent ++ crlf else "")
   ++ (if bottled then "Accept-Encoding: gzip" ++ crlf else "")
   ++ (if negb (string_empty auth)
       then "Authorization: Basic " ++ base64encode auth ++ crlf else "")
   ++ "Connection: close" ++ crlf ++ crlf)%string.

(** The connection [get] hands to [start]: the agent, the flags, the
    credentials, the request and the URL are stored. *)
Definition get_prepared (url : string) (ps : option proxy_settings)
    (user_agent : string) (resolve_flags : Z) (auth_ : string)
    (c : http_connection) : http_connection :=
  set_m_url url
    (set_m_sendbuffer (request_text url ps user_agent (m_bottled c) auth_)
       (set_m_auth (request_auth url auth_)
          (set_m_resolve_flags resolve_flags
             (set_m_user_agent user_agent c)))).

(** [get] lets the input pass: the URL parses, the host name filter
    accepts the host, and the scheme is supported. *)
Definition input_accepted (url : string) (c : http_connection) : bool :=
  let uc := parse_url_components url in
  negb (is_error (uc_ec uc))
  && match m_hostname_filter_handler c with
     | Some hfh => hfh (uc_hostname uc)
     | None => true
     end
  && negb (unsupported_protocol (uc_protocol uc)).

(** ** The redirect budget *)

(** A call of the caller that begins a request. *)
Definition is_request (ev : event) : bool :=
  match ev with
  | Ev_get _ _ _ _ _ _ _ _ _ | Ev_start _ _ _ _ _ _ _ _ _ => true
  | _ => false
  end.

Definition not_started (a : action) : Prop :=
  is_timer_expires_after a = false.

(** Number of times [start] ran in a trace. *)
Definition starts (t : list action) : nat :=
  List.length (filter is_timer_expires_after t).

(** [p] leaves [m_redirects] as it is and does not run [start]. *)
Definition same_request (p : proc) : Prop :=
  forall r, keeps (fun c => m_redirects c = r) not_started p.

(** [p] pays for every [start] it runs with one of the redirects that
    are left. *)
Definition spends (p : proc) : Prop :=
  forall c, 0 <= m_redirects c ->
    0 <= m_redirects (fst (p c))
    /\ Z.of_nat (starts (snd (p c))) + m_redirects (fst (p c))
       <= m_redirects c.

(** ** What the connection waits for *)





















(** ** After close *)

(** An effect that begins an asynchronous operation or arms a timer. *)
Definition begins_operation (a : action) : bool :=
  match a with
  | Async_resolve _ _ | Async_connect _ | Async_write _
  | Async_read_some _ _ | Async_shutdown
  | Timer_expires_after _ | Timer_expires_at _ | Timer_async_wait
  | Limiter_expires_after _ | Limiter_async_wait => true
  | _ => false
  end.

Definition idle (a : action) : Prop := begins_operation a = false.

(** The events whose handlers test [m_abort] before they go on: the
    completions of a write, a read and the two timers, the posted
    callback, and [close] itself. *)
Definition tests_abort (ev : event) : bool :=
  match ev with
  | Ev_close _ | Ev_posted_callback _ | Ev_on_write _ | Ev_on_read _ _ _
  | Ev_on_timeout _ _ | Ev_on_assign_bandwidth _ => true
  | _ => false
  end.

End Connection.

Notation "p ;; q" := (seq p q) (at level 61, right associativity).

(** ** Example collaborators *)

(** One implementation of the [Collaborators] interface, small enough
    to run: a response parser for un-chunked HTTP/1.1 responses with
    lower-case header names, a URL splitter for [scheme://host/path],
    and stand-ins for gzip and base64.  The concrete runs below are
    computed with it. *)
Module Example.

Definition header_end (p : string) : option nat :=
  String.index 0 (crlf ++ crlf) p.

Definition x_header_finished (p : string) : bool :=
  match header_end p with Some _ => true | None => false end.

Definition x_body_start (p : string) : Z :=
  match header_end p with Some i => Z.of_nat (i + 4) | None => 0 end.

Definition x_body_size (p : string) : Z :=
  match header_end p with
  | Some i => Z.of_nat (String.length p - (i + 4))
  | None => 0
  end.

Definition digit (a : option ascii) : Z :=
  match a with
  | Some ch => Z.of_nat (nat_of_ascii ch) - 48
  | None => 0
  end.

(** The three digits after ["HTTP/1.1 "]; -1 before they arrived. *)
Definition x_status_code (p : string) : Z :=
  if (String.length p <? 12)%nat then -1
  else 100 * digit (String.get 9 p) + 10 * digit (String.get 10 p)
       + digit (String.get 11 p).

(** The value of header [name], the empty string when absent. *)
Definition x_header (p : string) (name : string) : string :=
  match header_end p with
  | None => ""
  | Some h =>
      let block := substring 0 (h + 2) p in
      let key := (crlf ++ name ++ ": ")%string in
      match String.index 0 key block with
      | None => ""
      | Some i =>
          let from := (i + String.length key)%nat in
          match String.index from crlf block with
          | Some j => substring from (j - from) block
          | None => ""
          end
      end
  end.

(** The response is complete when the body has the announced length. *)
Definition x_finished (p : string) : bool :=
  x_header_finished p
  && String.eqb (x_header p "content-length") (string_of_Z (x_body_size p)).

(** Feeding a prefix of the receive buffer; the bytes are rejected
    when they do not start like a status line. *)
Definition x_incoming (p : string) (buf : list byte) : string * bool :=
  let s := string_of_list_byte buf in
  (s, (5 <=? String.length s)%nat
      && negb (String.eqb (substring 0 5 s) "HTTP/")).

Definition x_parse_url_components (url : string) : url_components :=
  match String.index 0 "://" url with
  | None => mk_url_components "" "" "" (-1) "" (Some (other_errc 1))
  | Some i =>
      let protocol := substring 0 i url in
      let rest := substring (i + 3) (String.length url - (i + 3)) url in
      match String.index 0 "/" rest with
      | None => mk_url_components protocol "" rest (-1) "/" None
      | Some j =>
          mk_url_components protocol "" (substring 0 j rest) (-1)
            (substring j (String.length rest - j) rest) None
      end
  end.

Definition x_resolve_redirect_location (base location : string) : string :=
  match String.index 0 "://" location with
  | Some _ => location
  | None =>
      let uc := x_parse_url_components base in
      (uc_protocol uc ++ "://" ++ uc_hostname uc ++ location)%string
  end.

(** Stand-in for gzip: data without the gzip magic [1f 8b] is an
    error, anything else inflates to what follows the magic. *)
Definition x_inflate_gzip (data : list byte) (max : Z)
  : list byte * error_code :=
  match data with
  | x1f :: x8b :: rest => (rest, None)
  | _ => ([], Some (other_errc 2))
  end.

Definition x_default_proxy : proxy_settings :=
  mk_proxy_settings "" "" "" settings_pack.none 0 true.

Definition collaborators : Collaborators :=
  {| http_parser := string;
     parser_new := "";
     parser_reset := fun _ => "";
     parser_incoming := x_incoming;
     header_finished := x_header_finished;
     finished := x_finished;
     status_code := x_status_code;
     header := x_header;
     body_start := x_body_start;
     get_body_size := x_body_size;
     collapse_chunk_headers := fun _ data => data;
     inflate_gzip := x_inflate_gzip;
     parse_url_components := x_parse_url_components;
     resolve_redirect_location := x_resolve_redirect_location;
     base64encode := fun s => ("base64(" ++ s ++ ")")%string;
     is_redirect := fun code => (300 <=? code) && (code <? 400);
     make_address := fun _ => None;
     random_shuffle := fun eps => eps;
     random_shuffle_permutes := fun eps => Permutation_refl eps;
     bind_result := fun _ => None;
     setup_ssl_hostname := fun _ _ => None;
     default_proxy_settings := x_default_proxy;
     close_force_default := false;
     TORRENT_USE_SSL := true |}.

(** Text as the bytes on the wire. *)
Definition bytes (s : string) : list byte := list_byte_of_string s.

(** A bottled connection without hooks, [max_bottled_buffer_size]
    1 MiB, constructed at time 0. *)
Definition bottled_connection : @http_connection collaborators :=
  new_http_connection 0 true 1048576 false None None.

(** The same, streaming. *)
Definition streaming_connection : @http_connection collaborators :=
  new_http_connection 0 false 1048576 false None None.

Definition server : address := address_v4 3232235777.

(** [get("http://example.org/a", timeout 10, priority 0, no proxy,
    5 redirects, agent "ua", no bind address, no flags, no auth)] *)
Definition get_a : event :=
  Ev_get "http://example.org/a" 10 0 None 5 "ua" None 0 "".

(** The request answered by one address, a connect and a written
    request: the first read is outstanding. *)
Definition request_sent : list event :=
  [ get_a;
    Ev_on_resolve None [server] 1;
    Ev_on_connect None 2;
    Ev_on_write None ].

(** A complete response that announces gzip and carries three bytes
    that are not gzip. *)
Definition not_gzip_response : list byte :=
  bytes ("HTTP/1.1 200 OK" ++ crlf ++ "content-encoding: gzip" ++ crlf
         ++ "content-length: 3" ++ crlf ++ crlf ++ "abc").

Definition redirect_response : list byte :=
  bytes ("HTTP/1.1 302 Found" ++ crlf ++ "location: /b" ++ crlf ++ crlf).


(** A bottled connection with [max_bottled_buffer_size] 4096. *)
Definition small_connection : @http_connection collaborators :=
  new_http_connection 0 true 4096 false None None.


(** The beginning of a response: a status line. *)
Definition status_line : list byte := bytes ("HTTP/1.1 200 OK" ++ crlf).

(** A complete response with a body of three bytes. *)
Definition ok_response : list byte :=
  bytes ("HTTP/1.1 200 OK" ++ crlf ++ "content-length: 3" ++ crlf ++ crlf
         ++ "abc").

(** A complete response of 4096 bytes: 41 bytes of headers and a body
    of 4055 bytes. *)
Definition exact_fit_response : list byte :=
  bytes ("HTTP/1.1 200 OK" ++ crlf ++ "content-length: 4055" ++ crlf ++ crlf)
  ++ repeat x61 4055.

(** The small connection with a full receive buffer. *)
Definition buffer_full : @http_connection collaborators :=
  set_m_read_pos 4096 (fst (run request_sent small_connection)).

End Example.


(** * Properties *)

Section Properties.

Context {K : Collaborators}.

(** ** Reasoning about procedures *)

Lemma fst_seq (p q : proc) (c : http_connection) :
  fst ((p ;; q) c) = fst (q (fst (p c))).
Proof.
  unfold seq. destruct (p c) as [c1 t1]. simpl.
  destruct (q c1) as [c2 t2]. reflexivity.
Qed.

Lemma snd_seq (p q : proc) (c : http_connection) :
  snd ((p ;; q) c) = snd (p c) ++ snd (q (fst (p c))).
Proof.
  unfold seq. destruct (p c) as [c1 t1]. simpl.
  destruct (q c1) as [c2 t2]. reflexivity.
Qed.

Lemma seq_upd (f : http_connection -> http_connection) (q : proc) c :
  (upd f ;; q) c = q (f c).
Proof. unfold seq, upd. destruct (q (f c)). reflexivity. Qed.

Lemma seq_emit (a : action) (q : proc) c :
  (emit a ;; q) c = (fst (q c), a :: snd (q c)).
Proof. unfold seq, emit. destruct (q c). reflexivity. Qed.

Lemma seq_ret (q : proc) c : (ret ;; q) c = q c.
Proof. unfold seq, ret. destruct (q c). reflexivity. Qed.

Lemma seq_ret_r (p : proc) c : (p ;; ret) c = p c.
Proof.
  unfold seq, ret. destruct (p c). now rewrite app_nil_r.
Qed.

Lemma seq_assoc (p q r : proc) c : ((p ;; q) ;; r) c = (p ;; q ;; r) c.
Proof.
  unfold seq. destruct (p c) as [c1 t1]. destruct (q c1) as [c2 t2].
  destruct (r c2) as [c3 t3]. now rewrite app_assoc.
Qed.

Lemma seq_with_this (k : http_connection -> proc) (q : proc) c :
  (with_this k ;; q) c = (k c ;; q) c.
Proof. reflexivity. Qed.

Lemma seq_when_true (p q : proc) c : (when true p ;; q) c = (p ;; q) c.
Proof. reflexivity. Qed.

Lemma seq_when_false (p q : proc) c : (when false p ;; q) c = q c.
Proof. unfold when. apply seq_ret. Qed.

Lemma seq_on_sock f (q : proc) c :
  (on_sock f ;; q) c = q (set_m_sock (option_map f (m_sock c)) c).
Proof. unfold on_sock. rewrite seq_upd. reflexivity. Qed.

(** Projections of assignments. *)
Ltac fields :=
  cbn [m_sendbuffer m_recvbuffer m_read_pos m_parser m_url m_endpoints
      m_next_ep m_sock m_hostname m_port m_ssl m_bind_addr m_proxy m_handler
      m_connect_handler m_filter_handler m_hostname_filter_handler
      m_completion_timeout m_last_receive m_start_time m_redirects
      m_max_bottled_buffer_size m_rate_limit m_download_quota m_priority
      m_resolve_flags m_auth m_user_agent m_bottled m_called m_abort
      m_connecting m_resolving_host m_limiter_timer_active set_m_sendbuffer
      set_m_recvbuffer set_m_read_pos set_m_parser set_m_url set_m_endpoints
      set_m_next_ep set_m_sock set_m_hostname set_m_port set_m_ssl
      set_m_bind_addr set_m_proxy set_m_handler set_m_completion_timeout
      set_m_last_receive set_m_start_time set_m_redirects set_m_rate_limit
      set_m_download_quota set_m_priority set_m_resolve_flags set_m_auth
      set_m_user_agent set_m_called set_m_abort set_m_connecting
      set_m_resolving_host set_m_limiter_timer_active].

Ltac fields_in H :=
  cbn [m_sendbuffer m_recvbuffer m_read_pos m_parser m_url m_endpoints
      m_next_ep m_sock m_hostname m_port m_ssl m_bind_addr m_proxy m_handler
      m_connect_handler m_filter_handler m_hostname_filter_handler
      m_completion_timeout m_last_receive m_start_time m_redirects
      m_max_bottled_buffer_size m_rate_limit m_download_quota m_priority
      m_resolve_flags m_auth m_user_agent m_bottled m_called m_abort
      m_connecting m_resolving_host m_limiter_timer_active set_m_sendbuffer
      set_m_recvbuffer set_m_read_pos set_m_parser set_m_url set_m_endpoints
      set_m_next_ep set_m_sock set_m_hostname set_m_port set_m_ssl
      set_m_bind_addr set_m_proxy set_m_handler set_m_completion_timeout
      set_m_last_receive set_m_start_time set_m_redirects set_m_rate_limit
      set_m_download_quota set_m_priority set_m_resolve_flags set_m_auth
      set_m_user_agent set_m_called set_m_abort set_m_connecting
      set_m_resolving_host set_m_limiter_timer_active] in H.

(** Runs the assignments and effects at the head of a procedure. *)
Ltac step :=
  repeat first
    [ rewrite seq_upd | rewrite seq_emit | rewrite seq_ret
    | rewrite seq_on_sock | rewrite seq_assoc
    | rewrite seq_with_this | rewrite seq_when_true
    | rewrite seq_when_false
    | progress unfold with_this
    | progress cbv beta iota ];
  fields.

Lemma stable_ret P : stable P ret.
Proof. intros c H. exact H. Qed.

Lemma stable_emit P a : stable P (emit a).
Proof. intros c H. exact H. Qed.

Lemma stable_upd (P : http_connection -> Prop) f :
  (forall c, P c -> P (f c)) -> stable P (upd f).
Proof. intros Hf c H. apply Hf, H. Qed.

Lemma stable_seq P p q : stable P p -> stable P q -> stable P (p ;; q).
Proof. intros Hp Hq c H. rewrite fst_seq. apply Hq, Hp, H. Qed.

Lemma stable_with_this P k :
  (forall c0, stable P (k c0)) -> stable P (with_this k).
Proof. intros Hk c H. exact (Hk c c H). Qed.

Lemma stable_when P b p : stable P p -> stable P (when b p).
Proof. intros Hp. destruct b; [exact Hp | apply stable_ret]. Qed.

Lemma stable_on_sock (P : http_connection -> Prop) :
  (forall v c, P c -> P (set_m_sock v c)) ->
  forall f, stable P (on_sock f).
Proof. intros HP f c H. apply HP, H. Qed.

(** Decomposes a [stable] goal along the structure of the procedure;
    what remains are the assignments and the calls. *)
Ltac stable_step :=
  match goal with
  | |- stable _ ret => apply stable_ret
  | |- stable _ (emit _) => apply stable_emit
  | |- stable _ (_ ;; _) => apply stable_seq
  | |- stable _ (with_this _) => apply stable_with_this; intro
  | |- stable _ (when _ _) => apply stable_when
  | |- stable _ (if ?b then _ else _) => destruct b
  | |- stable _ (match ?x with _ => _ end) => destruct x eqn:?
  | |- stable _ (let (_, _) := ?x in _) => destruct x
  end.

(** ** close *)

Lemma close_aborted (force : bool) (c : http_connection) :
  m_abort c = true -> close force c = (c, []).
Proof.
  intros H. unfold close, with_this. rewrite H. reflexivity.
Qed.

Lemma close_sets_abort (force : bool) (c : http_connection) :
  m_abort (fst (close force c)) = true.
Proof.
  unfold close, with_this.
  destruct (m_abort c) eqn:Ha; [exact Ha |].
  destruct (m_sock c); [destruct force |]; reflexivity.
Qed.

Lemma stable_aborted_callback e data : stable aborted (callback e data).
Proof.
  unfold callback, deliver.
  repeat (stable_step; try (apply stable_upd; intros ? H; exact H)).
Qed.

Ltac stable_field :=
  repeat first
    [ stable_step
    | apply stable_upd; let H := fresh "H" in intros ? H; exact H
    | apply stable_on_sock; let H := fresh "H" in intros ? ? H; exact H ].

Lemma stable_aborted_close force : stable aborted (close force).
Proof. intros c _. apply close_sets_abort. Qed.

Lemma stable_aborted_connect : stable aborted connect.
Proof. unfold connect. stable_field. Qed.

Lemma stable_aborted_start hostname port timeout prio ps ssl redirects
    bind_addr flags :
  stable aborted
    (start hostname port timeout prio ps ssl redirects bind_addr flags).
Proof. unfold start. stable_field; apply stable_aborted_connect. Qed.

Lemma stable_aborted_get url timeout prio ps redirects ua bind_addr flags
    auth_ :
  stable aborted (get url timeout prio ps redirects ua bind_addr flags auth_).
Proof. unfold get. stable_field. apply stable_aborted_start. Qed.

Lemma stable_aborted_on_timeout e now : stable aborted (on_timeout e now).
Proof.
  unfold on_timeout, rearm_deadline. stable_field;
    first [apply stable_aborted_connect | apply stable_aborted_callback].
Qed.

Lemma stable_aborted_on_resolve e addresses now :
  stable aborted (on_resolve e addresses now).
Proof.
  unfold on_resolve. stable_field;
    first [apply stable_aborted_connect | apply stable_aborted_callback
          | apply stable_aborted_close].
Qed.

Lemma stable_aborted_on_connect e now : stable aborted (on_connect e now).
Proof.
  unfold on_connect. stable_field;
    first [apply stable_aborted_connect | apply stable_aborted_callback].
Qed.

Lemma stable_aborted_on_assign_bandwidth e :
  stable aborted (on_assign_bandwidth e).
Proof.
  unfold on_assign_bandwidth. stable_field; apply stable_aborted_callback.
Qed.

Lemma stable_aborted_request_read : stable aborted request_read.
Proof.
  unfold request_read. stable_field. apply stable_aborted_on_assign_bandwidth.
Qed.

Lemma stable_aborted_on_write e : stable aborted (on_write e).
Proof.
  unfold on_write. stable_field;
    first [apply stable_aborted_request_read | apply stable_aborted_callback].
Qed.

Lemma stable_aborted_on_read_grow : stable aborted on_read_grow.
Proof.
  unfold on_read_grow. stable_field;
    first [apply stable_aborted_request_read | apply stable_aborted_callback].
Qed.

Lemma stable_aborted_on_read_redirect c0 redirect :
  on_read_redirect c0 = Some redirect -> stable aborted redirect.
Proof.
  unfold on_read_redirect. intros H.
  destruct (negb (m_redirects c0 =? 0) && header_finished (m_parser c0)
            && is_redirect (status_code (m_parser c0))); [| discriminate].
  destruct (string_empty (header (m_parser c0) "location"));
    injection H as <-.
  - apply stable_aborted_callback.
  - stable_field. apply stable_aborted_get.
Qed.

Lemma stable_aborted_on_read e n now : stable aborted (on_read e n now).
Proof.
  unfold on_read. stable_field;
    first [apply stable_aborted_on_read_grow
          | apply stable_aborted_callback
          | eapply stable_aborted_on_read_redirect; eassumption].
Qed.

Lemma stable_aborted_rate_limit limit : stable aborted (rate_limit limit).
Proof. unfold rate_limit. stable_field. Qed.

Lemma stable_aborted_handle ev : stable aborted (handle ev).
Proof.
  destruct ev; simpl.
  - apply stable_aborted_get.
  - apply stable_aborted_start.
  - apply stable_aborted_close.
  - apply stable_aborted_rate_limit.
  - apply stable_aborted_callback.
  - apply stable_aborted_on_resolve.
  - stable_field. apply stable_aborted_on_connect.
  - apply stable_aborted_on_write.
  - stable_field. apply stable_aborted_on_read.
  - apply stable_aborted_on_timeout.
  - apply stable_aborted_on_assign_bandwidth.
Qed.

Lemma stable_aborted_run evs : stable aborted (run evs).
Proof.
  induction evs as [| ev rest IH]; simpl.
  - apply stable_ret.
  - apply stable_seq; [apply stable_aborted_handle | exact IH].
Qed.

(** C10. [close] is idempotent: whatever the state and the [force]
    argument, the call leaves the abort flag set; a second call right
    after it, and every call after any further events, returns at once:
    it has no effect on any collaborator and leaves every member of the
    connection (stream, timers, host, port, handler reference, ...) as
    it was. *)
Theorem C10_close_idempotent (force1 force2 : bool) (c : http_connection)
    (evs : list event) :
  let c1 := fst (close force1 c) in
  let c2 := fst (run evs c1) in
  m_abort c1 = true
  /\ close force2 c1 = (c1, [])
  /\ close force2 c2 = (c2, []).
Proof.
  intros c1 c2.
  assert (H1 : m_abort c1 = true) by apply close_sets_abort.
  split; [exact H1 |].
  split; apply close_aborted; [exact H1 |].
  apply stable_aborted_run. exact H1.
Qed.


(** ** callback without data *)

Lemma callback_empty_span (e : error_code) (c : http_connection) :
  callback e empty_span c
  = if m_bottled c && m_called c then (c, []) else deliver e [] c.
Proof.
  unfold callback, with_this.
  destruct (m_bottled c && m_called c); reflexivity.
Qed.

Lemma deliver_run (e : error_code) (data : list byte) (c : http_connection) :
  deliver e data c
  = (set_m_called true c,
     Timer_cancel :: if m_handler c then [Handler e data] else []).
Proof.
  unfold deliver. step. destruct (m_handler c); reflexivity.
Qed.

(** What [callback] without data does: nothing when a bottled callback
    was made already, else it marks the callback as made, cancels the
    deadline timer and invokes the handler if one is held. *)
Lemma callback_empty_run (e : error_code) (c : http_connection) :
  callback e empty_span c
  = if m_bottled c && m_called c then (c, [])
    else (set_m_called true c,
          Timer_cancel :: if m_handler c then [Handler e []] else []).
Proof.
  rewrite callback_empty_span.
  destruct (m_bottled c && m_called c); [reflexivity | apply deliver_run].
Qed.

(** ** get *)

Lemma append_assoc (a b c : string) :
  ((a ++ b) ++ c = a ++ (b ++ c))%string.
Proof.
  induction a as [| ch a IH]; simpl; [reflexivity | now rewrite IH].
Qed.

Lemma append_empty_r (a : string) : (a ++ "" = a)%string.
Proof.
  induction a as [| ch a IH]; simpl; [reflexivity | now rewrite IH].
Qed.

Lemma stable_sendbuffer_connect s :
  stable (fun c => m_sendbuffer c = s) connect.
Proof. unfold connect. stable_field. Qed.

Lemma stable_sendbuffer_start s hostname port timeout prio ps ssl redirects
    bind_addr flags :
  stable (fun c => m_sendbuffer c = s)
    (start hostname port timeout prio ps ssl redirects bind_addr flags).
Proof. unfold start. stable_field; apply stable_sendbuffer_connect. Qed.

(** [get] on an input it refuses.  When the URL does not parse, or the
    installed hostname filter rejects the host, or the scheme is
    neither http nor https, all that
    [get] does to its collaborators is to post one callback carrying
    the error of the first failing test (the parser's error, then
    blocked_by_idna, then unsupported_url_protocol): the response
    handler is not invoked inside [get], and nothing else is started.
    When the event loop runs the posted callback, the handler gets the
    error and no data, with two exceptions: on a bottled connection
    that has made a callback before the posted callback does nothing,
    since [get] returns before [start] would clear [m_called]; and on a
    connection that has dropped its handler only the timer is
    cancelled. *)
Theorem C3_input_errors_are_posted (url : string) (timeout prio : Z)
    (ps : option proxy_settings) (redirects : Z) (ua : string)
    (bind_addr : option address) (flags : Z) (auth_ : string)
    (c : http_connection) :
  let uc := parse_url_components url in
  let auth := if string_empty (uc_auth uc) then auth_ else uc_auth uc in
  let c' :=
    set_m_auth auth (set_m_resolve_flags flags (set_m_user_agent ua c)) in
  is_error (uc_ec uc)
  || match m_hostname_filter_handler c with
     | Some hfh => negb (hfh (uc_hostname uc))
     | None => false
     end
  || (negb (String.eqb (uc_protocol uc) "http")
      && negb (String.eqb (uc_protocol uc) "https")) = true ->
  get url timeout prio ps redirects ua bind_addr flags auth_ c
  = (c', [Post_callback (input_error c uc)])
  /\ handler_calls
       (snd (get url timeout prio ps redirects ua bind_addr flags auth_ c))
     = 0%nat
  /\ snd (handle (Ev_posted_callback (input_error c uc)) c')
     = reports (input_error c uc) c.
Proof.
  intros uc auth c' H.
  assert (Hget : get url timeout prio ps redirects ua bind_addr flags auth_ c
                 = (c', [Post_callback (input_error c uc)])).
  { unfold get, input_error, unsupported_protocol in *. fold uc auth.
    step. fold c'.
    destruct (is_error (uc_ec uc)); [reflexivity |].
    step. change (m_hostname_filter_handler c')
      with (m_hostname_filter_handler c).
    destruct (match m_hostname_filter_handler c with
              | Some hfh => negb (hfh (uc_hostname uc))
              | None => false
              end); [reflexivity |].
    cbn [orb] in H. apply andb_prop in H. destruct H as [H1 H2].
    rewrite H1, H2. destruct TORRENT_USE_SSL; reflexivity. }
  split; [exact Hget |]. split; [rewrite Hget; reflexivity |].
  cbn [handle]. rewrite callback_empty_run.
  unfold reports, c'. fields.
  destruct (m_bottled c && m_called c); reflexivity.
Qed.

Lemma host_header_spec hostname port default_port rest :
  (host_header hostname port default_port ++ rest
   = "Host: " ++ (hostname
       ++ (if Z.eqb port default_port then "" else ":" ++ string_of_Z port))
     ++ crlf ++ rest)%string.
Proof.
  unfold host_header. destruct (Z.eqb port default_port); cbn [negb].
  - rewrite append_empty_r. now rewrite !append_assoc.
  - now rewrite !append_assoc.
Qed.

(** C4. A [get] that passes the input tests and does not go through a
    plain (non-TLS) HTTP proxy leaves in the send buffer the lines
    [GET <path> HTTP/1.1], [Host: <host>] with [:<port>] only when the
    port is not the scheme default (443 for https, 80 for http), then
    [User-Agent] if the agent is not empty, [Accept-Encoding: gzip] if
    bottled, [Authorization: Basic base64(auth)] if auth is not empty,
    [Connection: close] and an empty line, each followed by CR LF; none
    of the lines is an [Accept] header. *)
Theorem C4_request_text (url : string) (timeout prio : Z)
    (ps : option proxy_settings) (redirects : Z) (ua : string)
    (bind_addr : option address) (flags : Z) (auth_ : string)
    (c : http_connection) :
  let uc := parse_url_components url in
  let ssl := String.eqb (uc_protocol uc) "https" in
  let default_port := if ssl then 443 else 80 in
  let port := if uc_port uc =? -1 then default_port else uc_port uc in
  let auth := if string_empty (uc_auth uc) then auth_ else uc_auth uc in
  let lines :=
    spec_request_lines (uc_path uc) (uc_hostname uc) port default_port ua
      (m_bottled c) auth in
  is_error (uc_ec uc) = false ->
  match m_hostname_filter_handler c with
  | Some hfh => hfh (uc_hostname uc)
  | None => true
  end = true ->
  unsupported_protocol (uc_protocol uc) = false ->
  plain_http_proxy ps ssl = false ->
  m_sendbuffer
    (fst (get url timeout prio ps redirects ua bind_addr flags auth_ c))
  = serialize lines
  /\ Forall (fun l => String.prefix "Accept:" l = false) lines.
Proof.
  intros uc ssl default_port port auth lines Hec Hfilter Hproto Hproxy.
  split.
  - unfold get. fold uc. step. rewrite Hec. step.
    replace (match m_hostname_filter_handler c with
             | Some hfh => negb (hfh (uc_hostname uc))
             | None => false
             end) with false
      by (destruct (m_hostname_filter_handler c); [now rewrite Hfilter |];
          reflexivity).
    rewrite Hproto. step.
    fold ssl default_port port auth.
    match goal with
    | |- m_sendbuffer (fst (start ?h ?p ?t ?pr ?s ?sl ?r ?b ?f ?c0)) = _ =>
        rewrite (stable_sendbuffer_start (m_sendbuffer c0) h p t pr s sl r b f
                   c0 eq_refl)
    end.
    fields.
    replace (match ps with
             | Some p =>
                 if is_http_proxy (ps_type p) && negb ssl
                 then
                   ("GET " ++ url ++ " HTTP/1.1" ++ crlf
                    ++ match ps_type p with
                       | settings_pack.http_pw =>
                           "Proxy-Authorization: Basic "
                           ++ base64encode
                                (ps_username p ++ ":" ++ ps_password p)
                           ++ crlf
                       | _ => ""
                       end
                    ++ host_header (uc_hostname uc) port default_port)%string
                 else
                   ("GET " ++ uc_path uc ++ " HTTP/1.1" ++ crlf
                    ++ host_header (uc_hostname uc) port default_port)%string
             | None =>
                 ("GET " ++ uc_path uc ++ " HTTP/1.1" ++ crlf
                  ++ host_header (uc_hostname uc) port default_port)%string
             end)
      with ("GET " ++ uc_path uc ++ " HTTP/1.1" ++ crlf
            ++ host_header (uc_hostname uc) port default_port)%string
      by (destruct ps as [p |]; [| reflexivity];
          unfold plain_http_proxy in Hproxy; now rewrite Hproxy).
    unfold lines, serialize, spec_request_lines.
    rewrite !append_assoc, host_header_spec.
    destruct (string_empty ua), (m_bottled c), (string_empty auth);
      cbn [negb app map String.concat];
      rewrite ?append_assoc; reflexivity.
  - unfold lines, spec_request_lines.
    repeat first
      [ apply Forall_app; split
      | apply Forall_cons
      | apply Forall_nil
      | match goal with |- Forall _ (if ?b then _ else _) => destruct b end ];
      reflexivity.
Qed.

(** ** on_read: redirects *)

Lemma on_read_accepted (n now : Z) (parser' : http_parser)
    (c : http_connection) :
  m_abort c = false ->
  m_bottled c || negb (header_finished (m_parser c)) = true ->
  parser_incoming (m_parser c)
    (firstn (Z.to_nat (m_read_pos c + n)) (m_recvbuffer c)) = (parser', false) ->
  on_read None n now c
  = match on_read_redirect (after_read n parser' c) with
    | Some redirect => redirect (after_read n parser' c)
    | None =>
        (when (negb (m_redirects c =? 0) && header_finished parser')
           (upd (set_m_redirects 0)) ;;
         with_this (fun c =>
           let body :=
             mk_span (body_start (m_parser c))
                     (m_read_pos c - body_start (m_parser c)) in
           if negb (m_bottled c) && header_finished (m_parser c)
           then
             when (m_read_pos c >? body_start (m_parser c))
               (callback None body) ;;
             upd (set_m_read_pos 0) ;;
             upd (set_m_last_receive now)
           else if m_bottled c && finished (m_parser c)
           then emit Timer_cancel ;; callback None body
           else ret) ;;
         on_read_grow) (after_read n parser' c)
    end.
Proof.
  intros Habort Hbranch Hparse.
  unfold on_read, after_read.
  cbn [is_operation_aborted is_eof_or_shut_down is_error]. step.
  destruct (negb (m_rate_limit c =? 0)); step;
    rewrite Habort; step; rewrite Hbranch, Hparse; step;
    match goal with
    | |- context [on_read_redirect ?x] => destruct (on_read_redirect x)
    end; reflexivity.
Qed.

(** A read on a streaming connection whose headers were finished
    before: the bytes go to the handler as a chunk, and the grow policy
    and the next read follow. *)
Lemma on_read_streaming (n now : Z) (c : http_connection) :
  m_abort c = false ->
  m_bottled c || negb (header_finished (m_parser c)) = false ->
  on_read None n now c
  = (callback None (mk_span 0 (m_read_pos c + n)) ;;
     upd (set_m_read_pos 0) ;;
     upd (set_m_last_receive now) ;;
     on_read_grow)
      (set_m_read_pos (m_read_pos c + n)
         (if negb (m_rate_limit c =? 0)
          then set_m_download_quota (m_download_quota c - n) c
          else c)).
Proof.
  intros Habort Hbranch. unfold on_read.
  cbn [is_operation_aborted is_eof_or_shut_down is_error]. step.
  destruct (negb (m_rate_limit c =? 0)); step;
    rewrite Habort; step; rewrite Hbranch; reflexivity.
Qed.


(** ** on_read: the receive buffer *)

Lemma resize_length (n : Z) (buf : list byte) :
  List.length (resize n buf) = Z.to_nat n.
Proof.
  unfold resize. rewrite length_app, length_firstn, repeat_length. lia.
Qed.

Lemma size_resize (n : Z) (buf : list byte) : 0 <= n -> size (resize n buf) = n.
Proof. intros H. unfold size. rewrite resize_length. lia. Qed.

Lemma wrap_int_small (z : Z) :
  -2147483648 <= z < 2147483648 -> wrap_int z = z.
Proof.
  intros H. unfold wrap_int.
  rewrite Z.mod_small by lia. lia.
Qed.

(** Without overflow [grown_size] is the minimum the source spells. *)
Lemma grown_size_small (c : http_connection) :
  -1073741824 <= m_read_pos c < 1073741824 ->
  grown_size c = Z.min (2 * m_read_pos c) (m_max_bottled_buffer_size c).
Proof.
  intros H. unfold grown_size. rewrite wrap_int_small by lia.
  now rewrite (Z.mul_comm (m_read_pos c)).
Qed.

(** The paths of the grow policy. *)
Lemma on_read_grow_run (c : http_connection) :
  on_read_grow c
  = if (size (m_recvbuffer c) =? m_read_pos c) && (grown_size c <? 0)
    then (c, [Throw_length_error])
    else
      (if m_read_pos c =? m_max_bottled_buffer_size c
       then callback (Some file_too_large) empty_span
       else request_read)
        (if size (m_recvbuffer c) =? m_read_pos c
         then set_m_recvbuffer (resize (grown_size c) (m_recvbuffer c)) c
         else c).
Proof.
  unfold on_read_grow, with_this.
  destruct (size (m_recvbuffer c) =? m_read_pos c); cbn [andb when].
  - destruct (grown_size c <? 0); [reflexivity |].
    rewrite seq_upd. reflexivity.
  - rewrite seq_ret. reflexivity.
Qed.

(** [callback] without data leaves the receive buffer alone. *)
Lemma callback_empty_recvbuffer e c :
  m_recvbuffer (fst (callback e empty_span c)) = m_recvbuffer c.
Proof.
  rewrite callback_empty_run. now destruct (m_bottled c && m_called c).
Qed.

Lemma request_read_recvbuffer c :
  m_recvbuffer (fst (request_read c)) = m_recvbuffer c.
Proof.
  assert (Hst : stable (fun c' => m_recvbuffer c' = m_recvbuffer c)
                  request_read).
  { unfold request_read, on_assign_bandwidth. stable_field.
    all: intros c2 H2; rewrite callback_empty_recvbuffer; exact H2. }
  now apply Hst.
Qed.

(** C9. The grow policy of [on_read] (lines 695-705), as long as
    [2 * m_read_pos] fits in an [int], that is [m_read_pos < 2^30].
    When the receive buffer is full ([m_read_pos] equals its size) and
    the cap is not negative, the buffer is resized to
    [min(2 * m_read_pos, max_bottled_buffer_size)], and that is its size
    when [on_read] returns.  When [m_read_pos] equals
    [max_bottled_buffer_size], the rest of [on_read] is
    [callback(file_too_large)] and no read is issued; the handler gets
    file_too_large, except that nothing is delivered when the connection
    is bottled and has made its callback already, and that the handler
    is not invoked when the connection has dropped it. *)
Theorem C9_grow_policy (c : http_connection) :
  m_read_pos c < 1073741824 ->
  let target :=
    Z.min (2 * m_read_pos c) (m_max_bottled_buffer_size c) in
  (size (m_recvbuffer c) = m_read_pos c ->
   0 <= m_max_bottled_buffer_size c ->
   m_recvbuffer (fst (on_read_grow c)) = resize target (m_recvbuffer c)
   /\ size (m_recvbuffer (fst (on_read_grow c))) = target)
  /\ (m_read_pos c = m_max_bottled_buffer_size c ->
      on_read_grow c
      = callback (Some file_too_large) empty_span
          (if size (m_recvbuffer c) =? m_read_pos c
           then set_m_recvbuffer (resize target (m_recvbuffer c)) c
           else c)
      /\ Forall (fun a => is_async_read a = false) (snd (on_read_grow c))
      /\ snd (on_read_grow c)
         = if m_bottled c && m_called c then []
           else Timer_cancel
                :: if m_handler c
                   then [Handler (Some file_too_large) []] else []).
Proof.
  intros Hint target. rewrite on_read_grow_run.
  assert (Hpos : size (m_recvbuffer c) = m_read_pos c -> 0 <= m_read_pos c)
    by (intros <-; unfold size; lia).
  split.
  - intros Hfull Hcap. specialize (Hpos Hfull).
    assert (Hgrown : grown_size c = target)
      by (apply grown_size_small; lia).
    rewrite Hfull, Z.eqb_refl, Hgrown.
    replace (target <? 0) with false
      by (symmetry; apply Z.ltb_ge; unfold target; lia).
    cbn [andb].
    assert (Hbuf : m_recvbuffer
                     (fst ((if m_read_pos c =? m_max_bottled_buffer_size c
                            then callback (Some file_too_large) empty_span
                            else request_read)
                             (set_m_recvbuffer
                                (resize target (m_recvbuffer c)) c)))
                   = resize target (m_recvbuffer c)).
    { destruct (m_read_pos c =? m_max_bottled_buffer_size c).
      - now rewrite callback_empty_recvbuffer.
      - now rewrite request_read_recvbuffer. }
    split; [exact Hbuf |].
    rewrite Hbuf. apply size_resize. unfold target. lia.
  - intros Hcap.
    assert (Hthrow : (size (m_recvbuffer c) =? m_read_pos c)
                     && (grown_size c <? 0) = false).
    { destruct (size (m_recvbuffer c) =? m_read_pos c) eqn:Hfull;
        [| reflexivity].
      apply Z.eqb_eq in Hfull. specialize (Hpos Hfull).
      rewrite grown_size_small by lia. cbn [andb].
      apply Z.ltb_ge. lia. }
    assert (Hgrown : size (m_recvbuffer c) = m_read_pos c ->
                     grown_size c = target)
      by (intros Hfull; apply grown_size_small; specialize (Hpos Hfull); lia).
    rewrite Hthrow.
    replace (m_read_pos c =? m_max_bottled_buffer_size c) with true
      by (symmetry; apply Z.eqb_eq, Hcap).
    assert (Hstate : (if size (m_recvbuffer c) =? m_read_pos c
                      then set_m_recvbuffer
                             (resize (grown_size c) (m_recvbuffer c)) c
                      else c)
                     = (if size (m_recvbuffer c) =? m_read_pos c
                        then set_m_recvbuffer
                               (resize target (m_recvbuffer c)) c
                        else c)).
    { destruct (size (m_recvbuffer c) =? m_read_pos c) eqn:Hfull;
        [| reflexivity].
      apply Z.eqb_eq in Hfull. now rewrite (Hgrown Hfull). }
    rewrite Hstate.
    split; [reflexivity |].
    rewrite callback_empty_run.
    assert (Hsame : forall A (f : http_connection -> A),
               (forall v c, f (set_m_recvbuffer v c) = f c) ->
               f (if size (m_recvbuffer c) =? m_read_pos c
                  then set_m_recvbuffer (resize target (m_recvbuffer c)) c
                  else c) = f c).
    { intros A f Hf. destruct (_ =? _); [apply Hf | reflexivity]. }
    rewrite (Hsame _ m_bottled), (Hsame _ m_called), (Hsame _ m_handler)
      by reflexivity.
    destruct (m_bottled c && m_called c); cbn [snd].
    + split; [constructor | reflexivity].
    + split; [| reflexivity].
      destruct (m_handler c); repeat constructor.
Qed.

(** ** Effects of procedures *)

Lemma keeps_ret P T : keeps P T ret.
Proof. intros c H. split; [exact H | constructor]. Qed.

Lemma keeps_emit P (T : action -> Prop) a : T a -> keeps P T (emit a).
Proof. intros Ha c H. split; [exact H | repeat constructor; exact Ha]. Qed.

Lemma keeps_upd (P : http_connection -> Prop) T f :
  (forall c, P c -> P (f c)) -> keeps P T (upd f).
Proof. intros Hf c H. split; [apply Hf, H | constructor]. Qed.

Lemma keeps_seq P T p q : keeps P T p -> keeps P T q -> keeps P T (p ;; q).
Proof.
  intros Hp Hq c H. rewrite fst_seq, snd_seq.
  destruct (Hp c H) as [H1 T1]. destruct (Hq _ H1) as [H2 T2].
  split; [exact H2 | apply Forall_app; split; assumption].
Qed.

Lemma keeps_with_this P T k :
  (forall c0, P c0 -> keeps P T (k c0)) -> keeps P T (with_this k).
Proof. intros Hk c H. exact (Hk c H c H). Qed.

Lemma keeps_when P T b p : keeps P T p -> keeps P T (when b p).
Proof. intros Hp. destruct b; [exact Hp | apply keeps_ret]. Qed.

Lemma keeps_on_sock (P : http_connection -> Prop) T :
  (forall v c, P c -> P (set_m_sock v c)) ->
  forall f, keeps P T (on_sock f).
Proof. intros HP f c H. split; [apply HP, H | constructor]. Qed.

Ltac keeps_step :=
  match goal with
  | |- keeps _ _ ret => apply keeps_ret
  | |- keeps _ _ (emit _) =>
      apply keeps_emit; first [reflexivity | intros _; reflexivity]
  | |- keeps _ _ (upd _) =>
      apply keeps_upd; let H := fresh "H" in intros ? H; exact H
  | |- keeps _ _ (on_sock _) =>
      apply keeps_on_sock; let H := fresh "H" in intros ? ? H; exact H
  | |- keeps _ _ (_ ;; _) => apply keeps_seq
  | |- keeps _ _ (with_this _) =>
      apply keeps_with_this;
      let c := fresh "c" in
      let H := fresh "H" in
      intros c H; hnf in H; cbv beta; try rewrite H
  | |- keeps _ _ (when false _) => apply keeps_ret
  | |- keeps _ _ (when true ?p) => change (when true p) with p
  | |- keeps _ _ (when _ _) => apply keeps_when
  | |- keeps _ _ (if ?b then _ else _) => destruct b
  | |- keeps _ _ (match ?x with _ => _ end) => destruct x eqn:?
  | |- keeps _ _ (let (_, _) := ?x in _) => destruct x
  end.

(** Once the handler reference is dropped, no procedure invokes the
    handler, and none takes a new reference. *)
Definition silent (p : proc) : Prop := keeps dropped not_handler p.

Lemma silent_callback e data : silent (callback e data).
Proof. unfold silent, callback, deliver. repeat keeps_step. Qed.

Lemma silent_close force : silent (close force).
Proof.
  unfold silent, close. repeat keeps_step.
  all: apply keeps_upd; intros; reflexivity.
Qed.

Lemma silent_connect : silent connect.
Proof. unfold silent, connect. repeat keeps_step. Qed.

Lemma silent_start hostname port timeout prio ps ssl redirects bind_addr
    flags :
  silent (start hostname port timeout prio ps ssl redirects bind_addr flags).
Proof. unfold silent, start. repeat keeps_step; apply silent_connect. Qed.

Lemma silent_get url timeout prio ps redirects ua bind_addr flags auth_ :
  silent (get url timeout prio ps redirects ua bind_addr flags auth_).
Proof. unfold silent, get. repeat keeps_step. apply silent_start. Qed.

Lemma silent_on_timeout e now : silent (on_timeout e now).
Proof.
  unfold silent, on_timeout, rearm_deadline. repeat keeps_step;
    first [apply silent_connect | apply silent_callback].
Qed.

Lemma silent_on_resolve e addresses now : silent (on_resolve e addresses now).
Proof.
  unfold silent, on_resolve. repeat keeps_step;
    first [apply silent_connect | apply silent_callback | apply silent_close].
Qed.

Lemma silent_on_connect e now : silent (on_connect e now).
Proof.
  unfold silent, on_connect. repeat keeps_step;
    first [apply silent_connect | apply silent_callback].
Qed.

Lemma silent_on_assign_bandwidth e : silent (on_assign_bandwidth e).
Proof.
  unfold silent, on_assign_bandwidth. repeat keeps_step.
  all: apply silent_callback.
Qed.

Lemma silent_request_read : silent request_read.
Proof.
  unfold silent, request_read. repeat keeps_step.
  apply silent_on_assign_bandwidth.
Qed.

Lemma silent_on_write e : silent (on_write e).
Proof.
  unfold silent, on_write. repeat keeps_step;
    first [apply silent_request_read | apply silent_callback].
Qed.

Lemma silent_on_read_grow : silent on_read_grow.
Proof.
  unfold silent, on_read_grow. repeat keeps_step;
    first [apply silent_request_read | apply silent_callback].
Qed.

Lemma silent_on_read_redirect c0 redirect :
  on_read_redirect c0 = Some redirect -> silent redirect.
Proof.
  unfold on_read_redirect. intros H.
  destruct (negb (m_redirects c0 =? 0) && header_finished (m_parser c0)
            && is_redirect (status_code (m_parser c0))); [| discriminate].
  destruct (string_empty (header (m_parser c0) "location"));
    injection H as <-.
  - apply silent_callback.
  - unfold silent. repeat keeps_step. apply silent_get.
Qed.

Lemma silent_on_read e n now : silent (on_read e n now).
Proof.
  unfold silent, on_read. repeat keeps_step;
    first [apply silent_on_read_grow | apply silent_callback
          | eapply silent_on_read_redirect; eassumption].
Qed.

Lemma silent_rate_limit limit : silent (rate_limit limit).
Proof. unfold silent, rate_limit. repeat keeps_step. Qed.

Lemma silent_handle ev : silent (handle ev).
Proof.
  destruct ev; simpl.
  - apply silent_get.
  - apply silent_start.
  - apply silent_close.
  - apply silent_rate_limit.
  - apply silent_callback.
  - apply silent_on_resolve.
  - unfold silent. repeat keeps_step. apply silent_on_connect.
  - apply silent_on_write.
  - unfold silent. repeat keeps_step. apply silent_on_read.
  - apply silent_on_timeout.
  - apply silent_on_assign_bandwidth.
Qed.

Lemma silent_run evs : silent (run evs).
Proof.
  induction evs as [| ev rest IH]; simpl.
  - apply keeps_ret.
  - apply keeps_seq; [apply silent_handle | exact IH].
Qed.


(** ** connect *)

Lemma set_first_address_length adr eps :
  List.length (set_first_address adr eps) = List.length eps.
Proof. destruct eps; reflexivity. Qed.

Lemma connect_prepared_size c :
  endpoints_size (connect_prepared c) = endpoints_size c.
Proof.
  unfold connect_prepared, endpoints_size.
  destruct (_ && _); [| reflexivity].
  destruct (make_address _); fields; [| reflexivity].
  now rewrite set_first_address_length.
Qed.

Lemma connect_prepared_next_ep c :
  m_next_ep (connect_prepared c) = m_next_ep c.
Proof.
  unfold connect_prepared. destruct (_ && _); [| reflexivity].
  destruct (make_address _); reflexivity.
Qed.

(** [connect] either finds the endpoint list used up and does nothing
    more, or takes the endpoint at [m_next_ep], advances the index and
    issues the connect. *)
Lemma connect_run (c : http_connection) :
  let c1 := connect_prepared c in
  connect c
  = if m_next_ep c >=? endpoints_size c then (c1, [])
    else
      match nth_error (m_endpoints c1) (Z.to_nat (m_next_ep c)) with
      | None => (c1, [])
      | Some target =>
          (set_m_sock (option_map socket_start_connect (m_sock c1))
             (set_m_connecting true (set_m_next_ep (m_next_ep c + 1) c1)),
           [Async_connect target])
      end.
Proof.
  intros c1.
  assert (H : connect c
              = (with_this (fun c =>
                   if m_next_ep c >=? endpoints_size c then ret
                   else
                     match nth_error (m_endpoints c) (Z.to_nat (m_next_ep c))
                     with
                     | None => ret
                     | Some target_address =>
                         upd (set_m_next_ep (m_next_ep c + 1)) ;;
                         upd (set_m_connecting true) ;;
                         on_sock socket_start_connect ;;
                         emit (Async_connect target_address)
                     end)) c1).
  { unfold connect, c1, connect_prepared. step.
    destruct (_ && _); step; [| reflexivity].
    destruct (make_address _); step; reflexivity. }
  rewrite H. unfold with_this. cbv beta. subst c1.
  rewrite connect_prepared_size, connect_prepared_next_ep.
  destruct (m_next_ep c >=? endpoints_size c); [reflexivity |].
  destruct (nth_error _ _); [| reflexivity].
  step. reflexivity.
Qed.

Lemma connect_prepared_endpoints_nil c :
  m_endpoints c = [] -> m_endpoints (connect_prepared c) = [].
Proof.
  intros H. unfold connect_prepared. destruct (_ && _); [| exact H].
  destruct (make_address _); fields; [| exact H]. now rewrite H.
Qed.

(** With an endpoint left, [connect] issues a connect. *)
Lemma connect_issues (c : http_connection) :
  0 <= m_next_ep c < endpoints_size c ->
  exists ep, snd (connect c) = [Async_connect ep].
Proof.
  intros H. rewrite connect_run.
  replace (m_next_ep c >=? endpoints_size c) with false
    by (symmetry; rewrite Z.geb_leb; apply Z.leb_gt; lia).
  destruct (nth_error _ _) as [ep |] eqn:Hn.
  - exists ep. reflexivity.
  - apply nth_error_None in Hn.
    pose proof (connect_prepared_size c) as Hs.
    unfold endpoints_size in *. lia.
Qed.

(** ** on_resolve *)

(** The paths of [on_resolve] after a resolution without error. *)
Lemma on_resolve_run (e : error_code) (addresses : list address) (now : Z)
    (c : http_connection) :
  is_error e = false ->
  let c2 :=
    set_m_endpoints (resolved_endpoints addresses c)
      (set_m_start_time now (set_m_resolving_host false c)) in
  let c3 := set_m_endpoints (usable_endpoints addresses c) c2 in
  on_resolve e addresses now c
  = match resolved_endpoints addresses c with
    | [] => close close_force_default c2
    | _ :: _ =>
        match m_bind_addr c, usable_endpoints addresses c with
        | Some _, [] =>
            (callback (Some address_family_not_supported) empty_span ;;
             close close_force_default) c3
        | _, _ => connect c3
        end
    end.
Proof.
  intros He c2 c3. unfold on_resolve. rewrite He. step.
  subst c3 c2. unfold usable_endpoints, resolved_endpoints.
  destruct (m_filter_handler c) as [fh |]; step;
    match goal with
    | |- context [match ?l with [] => close _ | _ :: _ => _ end] =>
        destruct l as [| ep eps] eqn:Hres
    end; try reflexivity; step;
    destruct (m_bind_addr c) as [b |]; step; try reflexivity;
    destruct (filter _ _); reflexivity.
Qed.

(** What the first [close] does. *)
Lemma close_run (force : bool) (c : http_connection) :
  m_abort c = false ->
  close force c
  = (set_m_abort true
       (set_m_handler false
          (set_m_port 0
             (set_m_hostname "" (if force then hard_closed c else c)))),
     match m_sock c with
     | Some _ => if force then [Timer_cancel] else [Async_shutdown]
     | None => [Timer_cancel]
     end ++ [Limiter_cancel]).
Proof.
  intros Ha. unfold close, with_this. rewrite Ha.
  destruct (m_sock c) eqn:Hs; destruct force; step; try reflexivity.
  unfold hard_closed. rewrite Hs. destruct c. cbn in Hs. subst.
  reflexivity.
Qed.

Lemma close_quiet (force : bool) (c : http_connection) :
  handler_calls (snd (close force c)) = 0%nat.
Proof.
  unfold close, with_this. destruct (m_abort c); [reflexivity |].
  destruct (m_sock c); [destruct force |]; reflexivity.
Qed.

Lemma close_drops_handler (force : bool) (c : http_connection) :
  m_abort c = false -> m_handler (fst (close force c)) = false.
Proof. intros Ha. rewrite close_run by exact Ha. reflexivity. Qed.






(** ** The endpoint invariant *)

Lemma stable_invariant_on_sock (f : socket_type -> socket_type) :
  (forall s, sock_connected (f s) = true -> sock_connected s = true) ->
  stable endpoint_invariant (on_sock f).
Proof.
  intros Hf c (H1 & H2 & H3). unfold on_sock, upd. cbn [fst].
  assert (Hc : sock_is_connected c = false ->
               sock_is_connected
                 (set_m_sock (option_map f (m_sock c)) c) = false).
  { unfold sock_is_connected. fields.
    destruct (m_sock c) as [s |]; cbn [option_map]; [| easy].
    intros Hs. destruct (sock_connected (f s)) eqn:Hfs; [| reflexivity].
    apply Hf in Hfs. congruence. }
  split; [exact H1 |]. split.
  - intros Hr. destruct (H2 Hr) as (Ha & Hb & Hd).
    split; [exact Ha |]. split; [apply Hc, Hb | exact Hd].
  - intros Hn. apply Hc, H3, Hn.
Qed.

Lemma stable_invariant_sock_close :
  stable endpoint_invariant (on_sock socket_close).
Proof. apply stable_invariant_on_sock. discriminate. Qed.

Lemma stable_invariant_callback e data :
  stable endpoint_invariant (callback e data).
Proof. unfold callback, deliver. stable_field. Qed.

Lemma stable_invariant_close force : stable endpoint_invariant (close force).
Proof.
  unfold close. stable_field. apply stable_invariant_sock_close.
Qed.

Lemma stable_invariant_connect : stable endpoint_invariant connect.
Proof.
  intros c (H1 & H2 & H3). rewrite connect_run.
  assert (Hp : endpoint_invariant (connect_prepared c)).
  { unfold connect_prepared. destruct (_ && _); [| easy].
    destruct (make_address _).
    - split; [| split].
      + unfold endpoints_size in *. fields.
        now rewrite set_first_address_length.
      + intros Hr. destruct (H2 Hr) as (Ha & Hb & Hd). fields.
        rewrite Ha. easy.
      + exact H3.
    - apply (stable_invariant_on_sock (socket_set_dst_name (m_hostname c)));
        [easy | easy]. }
  destruct (m_next_ep c >=? endpoints_size c) eqn:Hge; [exact Hp |].
  destruct (nth_error _ _) as [ep |] eqn:Hn; [| exact Hp].
  cbn [fst].
  destruct Hp as (P1 & P2 & P3).
  rewrite connect_prepared_size, connect_prepared_next_ep in P1.
  assert (Hlt : m_next_ep c < endpoints_size c)
    by (rewrite Z.geb_leb in Hge; apply Z.leb_gt in Hge; exact Hge).
  assert (Hconn : sock_is_connected
            (set_m_sock
               (option_map socket_start_connect
                  (m_sock (connect_prepared c)))
               (set_m_connecting true
                  (set_m_next_ep (m_next_ep c + 1) (connect_prepared c))))
            = false).
  { unfold sock_is_connected. fields.
    destruct (m_sock (connect_prepared c)); reflexivity. }
  split; [| split].
  - unfold endpoints_size in *. fields.
    pose proof (connect_prepared_size c) as Hs.
    unfold endpoints_size in Hs. lia.
  - fields. intros Hr. destruct (P2 Hr) as (Ha & _).
    pose proof (connect_prepared_size c) as Hs.
    unfold endpoints_size in *. rewrite Ha in Hs. cbn in Hs. lia.
  - intros _. exact Hconn.
Qed.

Lemma leads_seq P R Q p q : leads P R p -> leads R Q q -> leads P Q (p ;; q).
Proof. intros Hp Hq c H. rewrite fst_seq. apply Hq, Hp, H. Qed.

Lemma leads_stable P p : stable P p -> leads P P p.
Proof. intros H. exact H. Qed.

Lemma leads_upd (P Q : http_connection -> Prop) f :
  (forall c, P c -> Q (f c)) -> leads P Q (upd f).
Proof. intros Hf c H. apply Hf, H. Qed.

Lemma leads_skip (P Q : http_connection -> Prop) (p : proc) :
  (forall c, fst (p c) = c) -> (forall c, P c -> Q c) -> leads P Q p.
Proof. intros Hp HPQ c H. rewrite Hp. apply HPQ, H. Qed.

Lemma leads_with_this P Q k :
  (forall c0, P c0 -> leads P Q (k c0)) -> leads P Q (with_this k).
Proof. intros Hk c H. exact (Hk c H c H). Qed.

Lemma leads_weaken (P Q Q' : http_connection -> Prop) p :
  leads P Q p -> (forall c, Q c -> Q' c) -> leads P Q' p.
Proof. intros Hp HQ c H. apply HQ, Hp, H. Qed.

(** Facts about one assignment to a connection [c]. *)
Ltac one_assignment :=
  unfold unconnected, cleared, settled, endpoint_invariant, endpoints_size,
    sock_is_connected in *;
  fields;
  cbn [option_map sock_connected instantiate_connection socket_close
       socket_open_bind socket_set_tls_hostname socket_set_dst_name
       socket_start_connect socket_connected List.length app] in *;
  intuition (first [congruence | lia | discriminate | idtac]).

Lemma settled_invariant c : settled c -> endpoint_invariant c.
Proof. intros H. apply H. Qed.

Lemma unconnected_invariant c : unconnected c -> endpoint_invariant c.
Proof. intros H. apply H. Qed.

Lemma stable_settled_sock_close : stable settled (on_sock socket_close).
Proof.
  intros c (Hi & Hr & Hc).
  split; [apply stable_invariant_sock_close, Hi | split; assumption].
Qed.

Lemma stable_unconnected_on_sock f :
  (forall s, sock_connected (f s) = sock_connected s) ->
  stable unconnected (on_sock f).
Proof.
  intros Hf c ((Hi & Hr & Hc) & Hs). unfold on_sock, upd. cbn [fst].
  assert (Hs' : sock_is_connected
                  (set_m_sock (option_map f (m_sock c)) c) = false).
  { unfold sock_is_connected in *. fields.
    destruct (m_sock c); cbn [option_map]; [now rewrite Hf | reflexivity]. }
  split; [| exact Hs'].
  split; [| split; assumption].
  apply (stable_invariant_on_sock f); [| exact Hi].
  intros s. now rewrite Hf.
Qed.

Lemma leads_start hostname port timeout prio ps ssl redirects bind_addr
    flags :
  leads settled endpoint_invariant
    (start hostname port timeout prio ps ssl redirects bind_addr flags).
Proof.
  unfold start.
  repeat (apply (leads_seq settled settled);
          [apply leads_stable; stable_field |]).
  apply leads_with_this. intros c0 _.
  destruct (_ && _).
  { apply leads_skip; [reflexivity | apply settled_invariant]. }
  repeat (apply (leads_seq settled settled);
          [apply leads_stable; stable_field;
           apply stable_settled_sock_close |]).
  apply (leads_seq settled unconnected).
  { apply leads_upd. intros c H. one_assignment. }
  apply (leads_seq unconnected unconnected).
  { apply leads_stable. destruct bind_addr; [| apply stable_ret].
    apply stable_unconnected_on_sock. reflexivity. }
  destruct (is_error _).
  { apply leads_skip; [reflexivity | apply unconnected_invariant]. }
  apply (leads_seq unconnected unconnected).
  { apply leads_stable, stable_when, stable_unconnected_on_sock.
    reflexivity. }
  destruct (is_error _).
  { apply leads_skip; [reflexivity | apply unconnected_invariant]. }
  apply (leads_seq unconnected
           (fun c => m_endpoints c = [] /\ m_resolving_host c = false
                     /\ m_connecting c = false
                     /\ sock_is_connected c = false)).
  { apply leads_upd. intros c H. one_assignment. }
  apply (leads_seq _ cleared).
  { apply leads_upd. intros c H. one_assignment. }
  apply (leads_seq cleared cleared).
  { apply leads_upd. intros c H. one_assignment. }
  apply (leads_seq cleared endpoint_invariant).
  - destruct (socks5_hostnames ps).
    + apply (leads_seq cleared cleared).
      { apply leads_upd. intros c H. one_assignment. }
      apply (leads_seq cleared endpoint_invariant).
      { apply leads_upd. intros c H. one_assignment. }
      apply leads_stable, stable_invariant_connect.
    + apply (leads_seq cleared endpoint_invariant).
      { apply leads_upd. intros c H. one_assignment. }
      apply leads_with_this. intros c1 _.
      apply leads_skip; [reflexivity | easy].
  - apply leads_upd. intros c H. one_assignment.
Qed.

Lemma leads_get url timeout prio ps redirects ua bind_addr flags auth_ :
  leads settled endpoint_invariant
    (get url timeout prio ps redirects ua bind_addr flags auth_).
Proof.
  unfold get.
  repeat (apply (leads_seq settled settled);
          [apply leads_stable; stable_field |]).
  destruct (is_error _).
  { apply leads_skip; [reflexivity | apply settled_invariant]. }
  apply leads_with_this. intros c0 _.
  destruct (match m_hostname_filter_handler c0 with
            | Some hfh => negb (hfh (uc_hostname (parse_url_components url)))
            | None => false
            end).
  { apply leads_skip; [reflexivity | apply settled_invariant]. }
  destruct (unsupported_protocol _).
  { apply leads_skip; [reflexivity | apply settled_invariant]. }
  repeat (apply (leads_seq settled settled);
          [apply leads_stable; stable_field |]).
  apply leads_with_this. intros c1 _. apply leads_start.
Qed.

(** Procedures that leave alone what the invariant is about, or keep
    it. *)
Ltac stable_invariant :=
  stable_field;
  first [ apply stable_invariant_sock_close
        | apply stable_invariant_connect
        | apply stable_invariant_callback
        | apply stable_invariant_close ].

Lemma stable_invariant_on_timeout e now :
  stable endpoint_invariant (on_timeout e now).
Proof. unfold on_timeout, rearm_deadline. stable_invariant. Qed.

Lemma stable_invariant_on_connect e now :
  stable endpoint_invariant (on_connect e now).
Proof.
  unfold on_connect. apply stable_seq.
  { apply stable_upd. intros c H. one_assignment. }
  stable_invariant.
Qed.

Lemma leads_on_connect e now :
  leads (fun c => endpoint_invariant c /\ m_connecting c = true)
    endpoint_invariant (handle (Ev_on_connect e now)).
Proof.
  cbn [handle]. destruct (is_error e) eqn:He; cbn [negb when].
  - apply (leads_seq _ endpoint_invariant).
    + apply leads_skip; [reflexivity | easy].
    + apply leads_stable, stable_invariant_on_connect.
  - unfold on_connect. rewrite He. cbn [negb].
    apply (leads_seq _ (fun c => 0 <= m_next_ep c <= endpoints_size c
                                 /\ m_resolving_host c = false)).
    { unfold on_sock. apply leads_upd. intros c [H Hc].
      assert (Hr : m_resolving_host c = false).
      { destruct (m_resolving_host c) eqn:Hr; [| reflexivity].
        destruct H as (_ & H2 & _). destruct (H2 Hr) as (_ & _ & Hn).
        congruence. }
      split; [apply H | exact Hr]. }
    apply (leads_seq _ settled).
    { apply leads_upd. intros c H. one_assignment. }
    apply (leads_weaken settled settled); [| apply settled_invariant].
    apply leads_stable. stable_field.
Qed.

Lemma leads_on_resolve e addresses now :
  leads (fun c => endpoint_invariant c /\ m_resolving_host c = true)
    endpoint_invariant (on_resolve e addresses now).
Proof.
  pose (Z0 := fun c => m_next_ep c = 0 /\ m_resolving_host c = false
                       /\ m_connecting c = false
                       /\ sock_is_connected c = false).
  assert (HZ : forall c, Z0 c -> endpoint_invariant c).
  { intros c H. unfold Z0 in H. one_assignment. }
  assert (Hcall : forall p, stable endpoint_invariant p ->
                  leads Z0 endpoint_invariant p).
  { intros p Hp c H. apply Hp, HZ, H. }
  unfold on_resolve.
  apply (leads_seq _ Z0).
  { apply leads_upd. intros c [H Hr]. unfold Z0.
    destruct H as (H1 & H2 & _). destruct (H2 Hr) as (Ha & Hb & Hd).
    unfold endpoints_size in H1. rewrite Ha in H1. cbn in H1.
    fields. repeat split; try assumption. lia. }
  destruct (is_error e).
  { apply Hcall, stable_invariant_callback. }
  repeat (apply (leads_seq Z0 Z0);
          [apply leads_stable; unfold Z0; stable_field |]).
  apply leads_with_this. intros c0 _.
  destruct (m_endpoints c0).
  { apply Hcall, stable_invariant_close. }
  apply (leads_seq Z0 Z0); [apply leads_stable; unfold Z0; stable_field |].
  apply leads_with_this. intros c1 _.
  destruct (m_bind_addr c1); [| apply Hcall, stable_invariant_connect].
  apply (leads_seq Z0 Z0); [apply leads_stable; unfold Z0; stable_field |].
  apply Hcall. destruct (filter _ _);
    [apply stable_seq; [apply stable_invariant_callback
                       | apply stable_invariant_close]
    | apply stable_invariant_connect].
Qed.

Lemma stable_invariant_on_assign_bandwidth e :
  stable endpoint_invariant (on_assign_bandwidth e).
Proof. unfold on_assign_bandwidth. stable_invariant. Qed.

Lemma stable_invariant_request_read : stable endpoint_invariant request_read.
Proof.
  unfold request_read. stable_field. apply stable_invariant_on_assign_bandwidth.
Qed.

Lemma stable_invariant_on_write e : stable endpoint_invariant (on_write e).
Proof.
  unfold on_write. stable_field;
    first [apply stable_invariant_request_read
          | apply stable_invariant_callback].
Qed.

Lemma stable_invariant_rate_limit limit :
  stable endpoint_invariant (rate_limit limit).
Proof. unfold rate_limit. stable_field. Qed.

(** A read that failed only reaches [callback]. *)
Lemma stable_invariant_on_read_error e n now :
  is_error e = true -> stable endpoint_invariant (on_read e n now).
Proof.
  intros He. unfold on_read. rewrite He.
  stable_field; apply stable_invariant_callback.
Qed.

Lemma stable_settled_callback e data : stable settled (callback e data).
Proof. unfold callback, deliver. stable_field. Qed.

Lemma stable_settled_on_assign_bandwidth e :
  stable settled (on_assign_bandwidth e).
Proof.
  unfold on_assign_bandwidth. stable_field. all: apply stable_settled_callback.
Qed.

Lemma stable_settled_request_read : stable settled request_read.
Proof.
  unfold request_read. stable_field. apply stable_settled_on_assign_bandwidth.
Qed.

Lemma stable_settled_on_read_grow : stable settled on_read_grow.
Proof.
  unfold on_read_grow. stable_field;
    first [apply stable_settled_callback
          | apply stable_settled_request_read].
Qed.

Lemma leads_on_read_redirect c0 redirect :
  on_read_redirect c0 = Some redirect ->
  leads settled endpoint_invariant redirect.
Proof.
  unfold on_read_redirect. intros H.
  destruct (negb (m_redirects c0 =? 0) && header_finished (m_parser c0)
            && is_redirect (status_code (m_parser c0))); [| discriminate].
  destruct (string_empty (header (m_parser c0) "location"));
    injection H as <-.
  - apply (leads_weaken settled settled); [| apply settled_invariant].
    apply leads_stable, stable_settled_callback.
  - apply (leads_seq settled settled).
    + apply leads_stable, stable_settled_sock_close.
    + apply leads_get.
Qed.

Ltac leads_settled :=
  repeat first
    [ match goal with
      | |- leads _ _ (with_this _) => apply leads_with_this; intros ? _
      | |- leads _ _ (if ?b then _ else _) => destruct b
      | |- leads _ _ (match on_read_redirect ?c with _ => _ end) =>
          destruct (on_read_redirect c) eqn:?
      | |- leads _ _ (let (_, _) := ?x in _) => destruct x
      end
    | apply (leads_seq settled settled);
      [ apply leads_stable;
        solve [ stable_field;
                first [ apply stable_settled_callback
                      | apply stable_settled_request_read
                      | apply stable_settled_on_read_grow ] ] | ]
    | apply (leads_weaken settled settled);
      [ apply leads_stable;
        solve [ stable_field;
                first [ apply stable_settled_callback
                      | apply stable_settled_request_read
                      | apply stable_settled_on_read_grow ] ]
      | apply settled_invariant ] ].

Lemma leads_on_read n now :
  leads settled endpoint_invariant (on_read None n now).
Proof.
  unfold on_read. leads_settled.
  all: try (eapply leads_on_read_redirect; eassumption).
Qed.

Lemma invariant_new now bottled max_size ch fh hfh :
  endpoint_invariant (new_http_connection now bottled max_size ch fh hfh).
Proof.
  unfold endpoint_invariant, endpoints_size, sock_is_connected. cbn.
  repeat split; try lia; discriminate.
Qed.

Lemma invariant_handle (c : http_connection) (ev : event) :
  endpoint_invariant c -> admissible c ev = true ->
  endpoint_invariant (fst (handle ev c)).
Proof.
  intros Hi Ha.
  assert (Hset : m_resolving_host c = false -> m_connecting c = false ->
                 settled c) by (intros; split; [exact Hi | split; assumption]).
  destruct ev; cbn [admissible] in Ha.
  - apply andb_prop in Ha. destruct Ha as [Hr Hc].
    apply negb_true_iff in Hr, Hc. apply leads_get, Hset; assumption.
  - apply andb_prop in Ha. destruct Ha as [Hr Hc].
    apply negb_true_iff in Hr, Hc. apply leads_start, Hset; assumption.
  - apply stable_invariant_close, Hi.
  - apply stable_invariant_rate_limit, Hi.
  - apply stable_invariant_callback, Hi.
  - apply leads_on_resolve. split; assumption.
  - apply leads_on_connect. split; assumption.
  - apply stable_invariant_on_write, Hi.
  - cbn [handle]. rewrite fst_seq. cbn [fst upd].
    destruct (is_error e) eqn:He.
    + apply stable_invariant_on_read_error; [exact He |]. exact Hi.
    + destruct e; [discriminate |]. cbn [orb] in Ha.
      apply leads_on_read.
      assert (Hs : settled c).
      { destruct Hi as (H1 & H2 & H3). apply Hset.
        - destruct (m_resolving_host c); [| reflexivity].
          destruct (H2 eq_refl) as (_ & Hb & _). congruence.
        - destruct (m_connecting c); [| reflexivity].
          specialize (H3 eq_refl). congruence. }
      exact Hs.
  - apply stable_invariant_on_timeout, Hi.
  - apply stable_invariant_on_assign_bandwidth, Hi.
Qed.

Lemma reachable_invariant (c : http_connection) :
  reachable c -> endpoint_invariant c.
Proof.
  induction 1 as [now bottled max_size ch fh hfh | c ev _ IH Ha].
  - apply invariant_new.
  - apply invariant_handle; assumption.
Qed.

(** ** [m_next_ep] only grows *)

Lemma keeps_or_keeps P T X p : keeps P T p -> keeps_or P T X p.
Proof. intros H c Hc. left. apply H, Hc. Qed.

Lemma keeps_or_always (P : http_connection -> Prop) (T X : action -> Prop) p :
  (forall c, Exists X (snd (p c))) -> keeps_or P T X p.
Proof. intros H c _. right. apply H. Qed.

Lemma keeps_or_seq P T X p q :
  keeps_or P T X p -> keeps_or P T X q -> keeps_or P T X (p ;; q).
Proof.
  intros Hp Hq c H. rewrite fst_seq, snd_seq.
  destruct (Hp c H) as [[H1 T1] | E1].
  - destruct (Hq _ H1) as [[H2 T2] | E2].
    + left. split; [exact H2 | apply Forall_app; split; assumption].
    + right. apply Exists_app. right. exact E2.
  - right. apply Exists_app. left. exact E1.
Qed.

Lemma keeps_or_with_this P T X k :
  (forall c0, P c0 -> keeps_or P T X (k c0)) -> keeps_or P T X (with_this k).
Proof. intros Hk c H. exact (Hk c H c H). Qed.

Lemma exists_seq_l (X : action -> Prop) (p q : proc) c :
  Exists X (snd (p c)) -> Exists X (snd ((p ;; q) c)).
Proof. intros H. rewrite snd_seq. apply Exists_app. left. exact H. Qed.

Lemma exists_seq_r (X : action -> Prop) (p q : proc) c :
  Exists X (snd (q (fst (p c)))) -> Exists X (snd ((p ;; q) c)).
Proof. intros H. rewrite snd_seq. apply Exists_app. right. exact H. Qed.

(** Every call of [start] arms the deadline timer. *)
Lemma start_started hostname port timeout prio ps ssl redirects bind_addr
    flags c :
  Exists started
    (snd (start hostname port timeout prio ps ssl redirects bind_addr flags c)).
Proof.
  unfold start. do 4 apply exists_seq_r. apply exists_seq_l.
  constructor. reflexivity.
Qed.

Lemma keeps_progress_connect n0 b :
  keeps (progress_from n0 b) (quiet_connect b) connect.
Proof.
  intros c [H1 H2]. rewrite connect_run.
  destruct (m_next_ep c >=? endpoints_size c) eqn:Hge.
  - cbn [fst snd]. split; [| constructor].
    split; [now rewrite connect_prepared_next_ep |].
    intros Hb. unfold exhausted.
    rewrite connect_prepared_size, connect_prepared_next_ep. now apply H2.
  - assert (Hb : b = false).
    { destruct b; [| reflexivity]. specialize (H2 eq_refl).
      unfold exhausted in H2. rewrite Z.geb_leb in Hge.
      apply Z.leb_gt in Hge. lia. }
    subst b. destruct (nth_error _ _); cbn [fst snd].
    + split; [split; [fields; lia | discriminate] |].
      repeat constructor. discriminate.
    + split; [| constructor].
      split; [now rewrite connect_prepared_next_ep | discriminate].
Qed.

Ltac keeps_progress :=
  repeat first
    [ keeps_step
    | apply keeps_progress_connect ].

Lemma keeps_progress_callback n0 b e data :
  keeps (progress_from n0 b) (quiet_connect b) (callback e data).
Proof. unfold callback, deliver. keeps_progress. Qed.

Lemma keeps_progress_close n0 b force :
  keeps (progress_from n0 b) (quiet_connect b) (close force).
Proof. unfold close. keeps_progress. Qed.

Lemma keeps_progress_on_timeout n0 b e now :
  keeps (progress_from n0 b) (quiet_connect b) (on_timeout e now).
Proof.
  unfold on_timeout, rearm_deadline. keeps_progress.
  all: apply keeps_progress_callback.
Qed.

Lemma keeps_progress_on_connect n0 b e now :
  keeps (progress_from n0 b) (quiet_connect b) (on_connect e now).
Proof.
  unfold on_connect. keeps_progress. all: apply keeps_progress_callback.
Qed.

Lemma keeps_progress_on_assign_bandwidth n0 b e :
  keeps (progress_from n0 b) (quiet_connect b) (on_assign_bandwidth e).
Proof.
  unfold on_assign_bandwidth. keeps_progress.
  all: apply keeps_progress_callback.
Qed.

Lemma keeps_progress_request_read n0 b :
  keeps (progress_from n0 b) (quiet_connect b) request_read.
Proof.
  unfold request_read. keeps_progress.
  apply keeps_progress_on_assign_bandwidth.
Qed.

Lemma keeps_progress_on_write n0 b e :
  keeps (progress_from n0 b) (quiet_connect b) (on_write e).
Proof.
  unfold on_write. keeps_progress;
    first [apply keeps_progress_callback | apply keeps_progress_request_read].
Qed.

Lemma keeps_progress_on_read_grow n0 b :
  keeps (progress_from n0 b) (quiet_connect b) on_read_grow.
Proof.
  unfold on_read_grow. keeps_progress;
    first [apply keeps_progress_callback | apply keeps_progress_request_read].
Qed.

Lemma keeps_progress_rate_limit n0 b limit :
  keeps (progress_from n0 b) (quiet_connect b) (rate_limit limit).
Proof. unfold rate_limit. keeps_progress. Qed.

Lemma keeps_progress_on_resolve n0 e addresses now :
  keeps (progress_from n0 false) (quiet_connect false)
    (on_resolve e addresses now).
Proof.
  unfold on_resolve. keeps_progress;
    first [apply keeps_progress_callback | apply keeps_progress_close
          | apply keeps_upd; intros ? [? ?]; split; [assumption | discriminate]].
Qed.

Ltac keeps_or_progress :=
  repeat first
    [ match goal with
      | |- keeps_or _ _ _ (_ ;; _) => apply keeps_or_seq
      | |- keeps_or _ _ _ (with_this _) =>
          apply keeps_or_with_this; intros ? _
      | |- keeps_or _ _ _ (if ?b then _ else _) => destruct b
      | |- keeps_or _ _ _ (match ?x with _ => _ end) => destruct x eqn:?
      | |- keeps_or _ _ _ (let (_, _) := ?x in _) => destruct x
      | |- keeps_or _ _ _ (start _ _ _ _ _ _ _ _ _) =>
          apply keeps_or_always; intros; apply start_started
      end
    | apply keeps_or_keeps;
      solve [ keeps_progress;
              first [ apply keeps_progress_callback
                    | apply keeps_progress_request_read
                    | apply keeps_progress_on_read_grow ] ] ].

Lemma keeps_or_progress_get n0 b url timeout prio ps redirects ua bind_addr
    flags auth_ :
  keeps_or (progress_from n0 b) (quiet_connect b) started
    (get url timeout prio ps redirects ua bind_addr flags auth_).
Proof. unfold get. keeps_or_progress. Qed.

Lemma keeps_or_progress_on_read_redirect n0 b c0 redirect :
  on_read_redirect c0 = Some redirect ->
  keeps_or (progress_from n0 b) (quiet_connect b) started redirect.
Proof.
  unfold on_read_redirect. intros H.
  destruct (negb (m_redirects c0 =? 0) && header_finished (m_parser c0)
            && is_redirect (status_code (m_parser c0))); [| discriminate].
  destruct (string_empty (header (m_parser c0) "location"));
    injection H as <-.
  - apply keeps_or_keeps, keeps_progress_callback.
  - apply keeps_or_seq.
    + apply keeps_or_keeps. keeps_progress.
    + apply keeps_or_progress_get.
Qed.

Lemma keeps_or_progress_on_read n0 b e n now :
  keeps_or (progress_from n0 b) (quiet_connect b) started (on_read e n now).
Proof.
  unfold on_read. keeps_or_progress.
  all: eapply keeps_or_progress_on_read_redirect; eassumption.
Qed.

Lemma keeps_or_progress_handle n0 b ev :
  b && is_on_resolve ev = false ->
  keeps_or (progress_from n0 b) (quiet_connect b) started (handle ev).
Proof.
  intros Hb. destruct ev; cbn [handle].
  - apply keeps_or_progress_get.
  - apply keeps_or_always. intros. apply start_started.
  - apply keeps_or_keeps, keeps_progress_close.
  - apply keeps_or_keeps, keeps_progress_rate_limit.
  - apply keeps_or_keeps, keeps_progress_callback.
  - destruct b; [discriminate |].
    apply keeps_or_keeps, keeps_progress_on_resolve.
  - apply keeps_or_keeps. keeps_progress. apply keeps_progress_on_connect.
  - apply keeps_or_keeps, keeps_progress_on_write.
  - apply keeps_or_seq; [apply keeps_or_keeps; keeps_progress |].
    apply keeps_or_progress_on_read.
  - apply keeps_or_keeps, keeps_progress_on_timeout.
  - apply keeps_or_keeps, keeps_progress_on_assign_bandwidth.
Qed.

(** C8.  In every state the event loop can reach, [m_next_ep] is at
    most the number of endpoints.  No event makes [m_next_ep] smaller
    unless [start] runs in it.  And once [m_next_ep] equals the number
    of endpoints, [connect] issues nothing and no event issues a connect
    before a resolve completion delivers endpoints or [start] runs
    again. *)
Theorem C8_next_ep_within_endpoints :
  (forall c, reachable c -> 0 <= m_next_ep c <= endpoints_size c)
  /\ (forall c ev,
        m_next_ep c <= m_next_ep (fst (handle ev c))
        \/ Exists started (snd (handle ev c)))
  /\ (forall c,
        endpoints_size c <= m_next_ep c ->
        snd (connect c) = []
        /\ m_next_ep (fst (connect c)) = m_next_ep c
        /\ endpoints_size (fst (connect c)) = endpoints_size c)
  /\ (forall c ev,
        endpoints_size c <= m_next_ep c -> is_on_resolve ev = false ->
        (endpoints_size (fst (handle ev c)) <= m_next_ep (fst (handle ev c))
         /\ Forall not_connect (snd (handle ev c)))
        \/ Exists started (snd (handle ev c))).
Proof.
  split; [| split; [| split]].
  - intros c H. apply reachable_invariant, H.
  - intros c ev.
    destruct (keeps_or_progress_handle (m_next_ep c) false ev eq_refl c)
      as [[[H _] _] | H].
    + split; [apply Z.le_refl | discriminate].
    + left. exact H.
    + right. exact H.
  - intros c H. rewrite connect_run.
    replace (m_next_ep c >=? endpoints_size c) with true
      by (symmetry; rewrite Z.geb_leb; apply Z.leb_le, H).
    cbn [fst snd].
    rewrite connect_prepared_next_ep, connect_prepared_size. easy.
  - intros c ev H Hev.
    destruct (keeps_or_progress_handle (m_next_ep c) true ev Hev c)
      as [[[_ H2] HT] | HX].
    + split; [apply Z.le_refl | intros _; exact H].
    + left. split; [apply H2; reflexivity |].
      eapply Forall_impl; [| exact HT]. intros a Ha. apply Ha. reflexivity.
    + right. exact HX.
Qed.

Lemma reachable_run (evs : list event) (c : http_connection) :
  reachable c -> admissible_run evs c = true -> reachable (fst (run evs c)).
Proof.
  revert c. induction evs as [| ev rest IH]; intros c Hc Ha.
  - exact Hc.
  - cbn [admissible_run] in Ha. apply andb_prop in Ha.
    destruct Ha as [Hev Hrest]. cbn [run]. rewrite fst_seq.
    apply IH; [| exact Hrest]. apply reachable_step; assumption.
Qed.

(** ** callback in bottled mode *)

(** With the [called] flag set, a bottled connection makes no second
    callback. *)
Lemma callback_suppressed e data c :
  m_bottled c = true -> m_called c = true -> callback e data c = (c, []).
Proof.
  intros Hb Hc. unfold callback, with_this. rewrite Hb, Hc. reflexivity.
Qed.

(** When the data is not gzip, or inflates, a bottled [callback] that
    is not suppressed sets the [called] flag; only the return on an
    inflate error leaves it as it was. *)
Lemma callback_marks_called e data c :
  m_bottled c = true ->
  is_gzip (header (m_parser c) "content-encoding")
  && is_error
       (snd (inflate_gzip
               (collapse_chunk_headers (m_parser c)
                  (view (m_recvbuffer c) data))
               (m_max_bottled_buffer_size c))) = false ->
  m_called (fst (callback e data c)) = true.
Proof.
  intros Hb Hz. unfold callback, with_this. rewrite Hb. cbn [andb].
  destruct (m_called c) eqn:Hc; [exact Hc |].
  destruct (negb (span_empty data) && true && header_finished (m_parser c)).
  - rewrite fst_seq. cbn [fst upd].
    destruct (is_gzip _); cbn [andb] in Hz.
    + destruct (inflate_gzip _ _) as [buf ec]. cbn [snd] in Hz.
      rewrite Hz. rewrite deliver_run. reflexivity.
    + rewrite deliver_run. reflexivity.
  - rewrite deliver_run. reflexivity.
Qed.

Lemma callback_inflate_error e data c :
  m_bottled c = true -> m_called c = false ->
  negb (span_empty data) && header_finished (m_parser c) = true ->
  is_gzip (header (m_parser c) "content-encoding") = true ->
  is_error
    (snd (inflate_gzip
            (collapse_chunk_headers (m_parser c)
               (view (m_recvbuffer c) data))
            (m_max_bottled_buffer_size c))) = true ->
  m_called (fst (callback e data c)) = false.
Proof.
  intros Hb Hc Hd Hz He. unfold callback, with_this. rewrite Hb, Hc.
  cbn [andb]. apply andb_prop in Hd. destruct Hd as [Hd1 Hd2].
  rewrite Hd1, Hd2. cbn [andb]. rewrite fst_seq. cbn [fst upd].
  rewrite Hz. destruct (inflate_gzip _ _) as [buf ec]. cbn [snd] in He.
  rewrite He. destruct (m_handler c); exact Hc.
Qed.

(** ** on_timeout *)

Lemma effective_deadline_doubled c :
  effective_deadline c
  = m_start_time c
    + m_completion_timeout c * (if m_resolving_host c then 2 else 1).
Proof. unfold effective_deadline. destruct (m_resolving_host c); reflexivity. Qed.

(** Before the effective deadline [on_timeout] raises nothing: it arms
    the timer again, for [m_start_time + m_completion_timeout]. *)
Lemma on_timeout_before_deadline e now c :
  is_operation_aborted e = false -> m_abort c = false ->
  now < effective_deadline c ->
  on_timeout e now c
  = (c, [Timer_expires_at (m_start_time c + m_completion_timeout c);
         Timer_async_wait]).
Proof.
  intros He Ha Hnow. unfold on_timeout, with_this. rewrite He, Ha.
  replace (effective_deadline c <=? now) with false
    by (symmetry; apply Z.leb_gt, Hnow).
  unfold rearm_deadline. step. reflexivity.
Qed.


(** * Further properties of the connection *)

(** ** Counting handler invocations *)

Lemma handler_calls_app (t1 t2 : list action) :
  handler_calls (t1 ++ t2) = (handler_calls t1 + handler_calls t2)%nat.
Proof. unfold handler_calls. now rewrite filter_app, length_app. Qed.

Lemma handler_calls_none (t : list action) :
  Forall not_handler t -> handler_calls t = 0%nat.
Proof.
  unfold handler_calls. induction 1 as [| a t Ha _ IH]; [reflexivity |].
  simpl. unfold not_handler in Ha. now rewrite Ha.
Qed.

(** ** close *)

(** The first [close] drops the handler reference for good: the call
    itself does not invoke the response handler, and no API call and no
    completion that follows does. *)
Theorem handler_silent_after_close (force : bool) (c : http_connection)
    (evs : list event) :
  m_abort c = false ->
  m_handler (fst (close force c)) = false
  /\ handler_calls (snd (run (Ev_close force :: evs) c)) = 0%nat.
Proof.
  intros Ha. split; [apply close_drops_handler, Ha |].
  cbn [run handle]. rewrite snd_seq, handler_calls_app, close_quiet.
  apply handler_calls_none.
  apply (silent_run evs (fst (close force c))).
  apply close_drops_handler, Ha.
Qed.

(** ** One delivery per request in bottled mode *)

Lemma keeps_delivered_callback e data :
  keeps delivered not_handler (callback e data).
Proof.
  intros c [Hb Hc]. rewrite callback_suppressed by assumption.
  split; [split; assumption | constructor].
Qed.

Ltac keeps_delivered :=
  repeat first
    [ keeps_step
    | apply keeps_delivered_callback ].

Lemma keeps_delivered_close force : keeps delivered not_handler (close force).
Proof. unfold close. keeps_delivered. Qed.

Lemma keeps_delivered_connect : keeps delivered not_handler connect.
Proof. unfold connect. keeps_delivered. Qed.

Lemma keeps_delivered_on_timeout e now :
  keeps delivered not_handler (on_timeout e now).
Proof.
  unfold on_timeout, rearm_deadline. keeps_delivered.
  all: apply keeps_delivered_connect.
Qed.

Lemma keeps_delivered_on_resolve e addresses now :
  keeps delivered not_handler (on_resolve e addresses now).
Proof.
  unfold on_resolve. keeps_delivered;
    first [apply keeps_delivered_connect | apply keeps_delivered_close].
Qed.

Lemma keeps_delivered_on_connect e now :
  keeps delivered not_handler (on_connect e now).
Proof. unfold on_connect. keeps_delivered. all: apply keeps_delivered_connect. Qed.

Lemma keeps_delivered_on_assign_bandwidth e :
  keeps delivered not_handler (on_assign_bandwidth e).
Proof. unfold on_assign_bandwidth. keeps_delivered. Qed.

Lemma keeps_delivered_request_read : keeps delivered not_handler request_read.
Proof.
  unfold request_read. keeps_delivered.
  apply keeps_delivered_on_assign_bandwidth.
Qed.

Lemma keeps_delivered_on_write e : keeps delivered not_handler (on_write e).
Proof.
  unfold on_write. keeps_delivered. apply keeps_delivered_request_read.
Qed.

Lemma keeps_delivered_on_read_grow : keeps delivered not_handler on_read_grow.
Proof.
  unfold on_read_grow. keeps_delivered. apply keeps_delivered_request_read.
Qed.

Lemma keeps_delivered_rate_limit limit :
  keeps delivered not_handler (rate_limit limit).
Proof. unfold rate_limit. keeps_delivered. Qed.

Ltac keeps_or_delivered :=
  repeat first
    [ match goal with
      | |- keeps_or _ _ _ (_ ;; _) => apply keeps_or_seq
      | |- keeps_or _ _ _ (with_this _) =>
          apply keeps_or_with_this; intros ? _
      | |- keeps_or _ _ _ (if ?b then _ else _) => destruct b
      | |- keeps_or _ _ _ (match ?x with _ => _ end) => destruct x eqn:?
      | |- keeps_or _ _ _ (let (_, _) := ?x in _) => destruct x
      | |- keeps_or _ _ _ (start _ _ _ _ _ _ _ _ _) =>
          apply keeps_or_always; intros; apply start_started
      end
    | apply keeps_or_keeps;
      solve [ keeps_delivered;
              first [ apply keeps_delivered_request_read
                    | apply keeps_delivered_on_read_grow ] ] ].

Lemma keeps_or_delivered_get url timeout prio ps redirects ua bind_addr flags
    auth_ :
  keeps_or delivered not_handler started
    (get url timeout prio ps redirects ua bind_addr flags auth_).
Proof. unfold get. keeps_or_delivered. Qed.

Lemma keeps_or_delivered_on_read_redirect c0 redirect :
  on_read_redirect c0 = Some redirect ->
  keeps_or delivered not_handler started redirect.
Proof.
  unfold on_read_redirect. intros H.
  destruct (negb (m_redirects c0 =? 0) && header_finished (m_parser c0)
            && is_redirect (status_code (m_parser c0))); [| discriminate].
  destruct (string_empty (header (m_parser c0) "location"));
    injection H as <-.
  - apply keeps_or_keeps, keeps_delivered_callback.
  - apply keeps_or_seq.
    + apply keeps_or_keeps. keeps_delivered.
    + apply keeps_or_delivered_get.
Qed.

Lemma keeps_or_delivered_on_read e n now :
  keeps_or delivered not_handler started (on_read e n now).
Proof.
  unfold on_read. keeps_or_delivered.
  all: eapply keeps_or_delivered_on_read_redirect; eassumption.
Qed.

Lemma keeps_or_delivered_handle ev :
  keeps_or delivered not_handler started (handle ev).
Proof.
  destruct ev; cbn [handle].
  - apply keeps_or_delivered_get.
  - apply keeps_or_always. intros. apply start_started.
  - apply keeps_or_keeps, keeps_delivered_close.
  - apply keeps_or_keeps, keeps_delivered_rate_limit.
  - apply keeps_or_keeps, keeps_delivered_callback.
  - apply keeps_or_keeps, keeps_delivered_on_resolve.
  - apply keeps_or_keeps. keeps_delivered. apply keeps_delivered_on_connect.
  - apply keeps_or_keeps, keeps_delivered_on_write.
  - apply keeps_or_seq; [apply keeps_or_keeps; keeps_delivered |].
    apply keeps_or_delivered_on_read.
  - apply keeps_or_keeps, keeps_delivered_on_timeout.
  - apply keeps_or_keeps, keeps_delivered_on_assign_bandwidth.
Qed.

Lemma keeps_or_delivered_run evs :
  keeps_or delivered not_handler started (run evs).
Proof.
  induction evs as [| ev rest IH]; cbn [run].
  - apply keeps_or_keeps, keeps_ret.
  - apply keeps_or_seq; [apply keeps_or_delivered_handle | exact IH].
Qed.

(** Once a bottled connection has made its callback ([m_called] is
    set), no API call and no completion invokes the response handler
    again until [start] runs for a new request: whatever arrives late
    (an end of stream, a timeout, a failed write) is swallowed. *)
Theorem bottled_delivery_is_final (c : http_connection) (evs : list event) :
  m_bottled c = true -> m_called c = true ->
  (handler_calls (snd (run evs c)) = 0%nat
   /\ m_called (fst (run evs c)) = true)
  \/ Exists started (snd (run evs c)).
Proof.
  intros Hb Hc.
  destruct (keeps_or_delivered_run evs c (conj Hb Hc)) as [[[_ H1] H2] | H].
  - left. split; [apply handler_calls_none, H2 | exact H1].
  - right. exact H.
Qed.

(** ** Members a procedure leaves alone *)

(** [connect] assigns the stream, the endpoint list, [m_next_ep] and
    [m_connecting] only. *)
Lemma connect_frame (A : Type) (f : http_connection -> A) :
  (forall v c, f (set_m_sock v c) = f c) ->
  (forall v c, f (set_m_endpoints v c) = f c) ->
  (forall v c, f (set_m_next_ep v c) = f c) ->
  (forall v c, f (set_m_connecting v c) = f c) ->
  forall c, f (fst (connect c)) = f c.
Proof.
  intros Hs He Hn Hc c. rewrite connect_run.
  assert (Hp : f (connect_prepared c) = f c).
  { unfold connect_prepared. destruct (_ && _); [| reflexivity].
    destruct (make_address _); [apply He | apply Hs]. }
  destruct (_ >=? _); [exact Hp |].
  destruct (nth_error _ _); [| exact Hp].
  cbn [fst]. now rewrite Hs, Hc, Hn.
Qed.

(** [callback] assigns the receive buffer and [m_called] only. *)
Lemma callback_frame (A : Type) (f : http_connection -> A) :
  (forall v c, f (set_m_recvbuffer v c) = f c) ->
  (forall v c, f (set_m_called v c) = f c) ->
  forall e data c, f (fst (callback e data c)) = f c.
Proof.
  intros Hr Hc e data c. unfold callback, with_this.
  destruct (_ && _); [reflexivity |].
  destruct (_ && _).
  - rewrite fst_seq. cbn [fst upd].
    destruct (is_gzip _).
    + destruct (inflate_gzip _ _) as [buf ec].
      destruct (is_error ec).
      * destruct (m_handler c); cbn [when fst emit ret]; apply Hr.
      * rewrite deliver_run. cbn [fst]. now rewrite Hc, Hr.
    + rewrite deliver_run. cbn [fst]. now rewrite Hc, Hr.
  - rewrite deliver_run. cbn [fst]. apply Hc.
Qed.

Lemma connect_prepared_nth (c : http_connection) (n : nat) :
  (0 < n)%nat ->
  nth_error (m_endpoints (connect_prepared c)) n = nth_error (m_endpoints c) n.
Proof.
  intros Hn. unfold connect_prepared. destruct (_ && _); [| reflexivity].
  destruct (make_address _); fields; [| reflexivity].
  destruct (m_endpoints c); [reflexivity |].
  destruct n; [lia | reflexivity].
Qed.

(** ** rate_limit *)

Lemma rate_limit_run (limit : Z) (c : http_connection) :
  sock_open c = true ->
  rate_limit limit c
  = (set_m_rate_limit limit
       (if m_limiter_timer_active c then c
        else set_m_limiter_timer_active true c),
     if m_limiter_timer_active c then []
     else [Limiter_expires_after 250; Limiter_async_wait]).
Proof.
  intros Ho. unfold rate_limit, with_this. rewrite Ho. cbn [negb].
  destruct (m_limiter_timer_active c); cbn [negb]; step; reflexivity.
Qed.

(** [rate_limit] on a stream that is not open is ignored: not even the
    limit is stored.  On an open stream it stores the limit and arms the
    limiter timer unless it is armed already, so that a second call only
    replaces the limit. *)
Theorem rate_limit_arms_once (a b : Z) (c : http_connection)
    (s : socket_type) :
  m_sock c = Some s ->
  if sock_is_open s
  then
    snd (rate_limit a c)
    = (if m_limiter_timer_active c then []
       else [Limiter_expires_after 250; Limiter_async_wait])
    /\ m_rate_limit (fst (rate_limit a c)) = a
    /\ m_limiter_timer_active (fst (rate_limit a c)) = true
    /\ snd (rate_limit b (fst (rate_limit a c))) = []
    /\ m_rate_limit (fst (rate_limit b (fst (rate_limit a c)))) = b
  else rate_limit a c = (c, []).
Proof.
  intros Hs.
  destruct (sock_is_open s) eqn:Ho.
  - assert (Hopen : sock_open c = true)
      by (unfold sock_open; now rewrite Hs).
    rewrite (rate_limit_run a c Hopen). cbn [fst snd].
    set (c1 := set_m_rate_limit a _).
    assert (Hopen1 : sock_open c1 = true).
    { unfold c1, sock_open.
      destruct (m_limiter_timer_active c); fields; now rewrite Hs. }
    assert (Hactive : m_limiter_timer_active c1 = true).
    { unfold c1. destruct (m_limiter_timer_active c) eqn:Hl; fields;
        [exact Hl | reflexivity]. }
    rewrite (rate_limit_run b c1 Hopen1). rewrite Hactive. cbn [fst snd].
    repeat split; reflexivity || exact Hactive.
  - unfold rate_limit, with_this, sock_open. rewrite Hs, Ho. reflexivity.
Qed.
(** ** What callback reports *)

Lemma callback_reports (e : error_code) (c : http_connection) :
  snd (callback e empty_span c) = reports e c.
Proof.
  rewrite callback_empty_run. unfold reports.
  now destruct (m_bottled c && m_called c).
Qed.

Lemma reports_frame (e : error_code) (c c1 : http_connection) :
  m_bottled c1 = m_bottled c -> m_called c1 = m_called c ->
  m_handler c1 = m_handler c -> reports e c1 = reports e c.
Proof. intros H1 H2 H3. unfold reports. now rewrite H1, H2, H3. Qed.

(** ** on_timeout at the deadline *)

Lemma on_timeout_run (e : error_code) (now : Z) (c : http_connection) :
  is_operation_aborted e = false -> m_abort c = false ->
  effective_deadline c <= now ->
  on_timeout e now c
  = if m_next_ep c <? endpoints_size c
    then
      (with_this (fun c => when (negb (m_connecting c)) connect) ;;
       upd (set_m_last_receive now) ;;
       upd (set_m_start_time now) ;;
       rearm_deadline) (hard_closed c)
    else callback (Some timed_out) empty_span (hard_closed c).
Proof.
  intros He Ha Hd. unfold on_timeout. rewrite He. unfold with_this at 1.
  rewrite Ha.
  replace (effective_deadline c <=? now) with true
    by (symmetry; apply Z.leb_le, Hd).
  destruct (_ <? _); rewrite seq_on_sock; reflexivity.
Qed.

(** When the deadline timer fires at or after the effective deadline of
    a connection that is not closed: with an endpoint left the stream is
    closed, the next endpoint is tried unless a connect is still
    outstanding, the clock of the request starts again and the timer is
    armed for a full timeout from now, and the handler is not invoked;
    with no endpoint left the stream is closed and all that remains is
    [callback] with timed_out, after which the timer is not armed
    again: the handler gets timed_out and no data, except that nothing
    happens when the connection is bottled and has made its callback,
    and that the handler is not invoked when the connection has dropped
    it. *)
Theorem on_timeout_at_deadline (e : error_code) (now : Z)
    (c : http_connection) :
  is_operation_aborted e = false -> m_abort c = false ->
  effective_deadline c <= now ->
  let t := snd (on_timeout e now c) in
  let c' := fst (on_timeout e now c) in
  if m_next_ep c <? endpoints_size c
  then
    handler_calls t = 0%nat
    /\ m_start_time c' = now
    /\ sock_is_connected c' = false
    /\ exists t0,
         t = t0 ++ [Timer_expires_at (now + m_completion_timeout c);
                    Timer_async_wait]
         /\ (m_connecting c = true -> t0 = [])
         /\ (m_connecting c = false -> 0 <= m_next_ep c ->
             exists ep, t0 = [Async_connect ep])
  else
    on_timeout e now c = callback (Some timed_out) empty_span (hard_closed c)
    /\ t = reports (Some timed_out) c.
Proof.
  intros He Ha Hd t c'. subst t c'.
  rewrite (on_timeout_run e now c He Ha Hd).
  destruct (m_next_ep c <? endpoints_size c) eqn:Hlt.
  - 
    set (c1 := hard_closed c).
    assert (Hconn : m_connecting c1 = m_connecting c) by reflexivity.
    assert (Hsize : endpoints_size c1 = endpoints_size c) by reflexivity.
    assert (Hnext : m_next_ep c1 = m_next_ep c) by reflexivity.
    assert (Htime : m_completion_timeout c1 = m_completion_timeout c)
      by reflexivity.
    assert (Hsock : sock_is_connected c1 = false).
    { unfold c1, hard_closed, sock_is_connected. fields.
      destruct (m_sock c); reflexivity. }
    clearbody c1. rewrite seq_with_this. rewrite Hconn.
    destruct (m_connecting c) eqn:Hc; cbn [negb].
    + rewrite seq_when_false. unfold rearm_deadline. step. cbn [fst snd].
      rewrite Htime.
      split; [reflexivity |]. split; [reflexivity |]. split; [exact Hsock |].
      exists []. split; [reflexivity |]. split; [reflexivity | discriminate].
    + rewrite seq_when_true. rewrite fst_seq, snd_seq.
      rewrite !seq_upd. unfold rearm_deadline.
      set (c2 := fst (connect c1)).
      assert (Htime2 : m_completion_timeout c2 = m_completion_timeout c).
      { unfold c2. now rewrite (connect_frame _ m_completion_timeout). }
      assert (Hsock2 : sock_is_connected c2 = false).
      { unfold c2. rewrite connect_run.
        assert (Hp : sock_is_connected (connect_prepared c1) = false).
        { unfold connect_prepared. destruct (_ && _); [| exact Hsock].
          destruct (make_address _); [exact Hsock |].
          unfold sock_is_connected in *. fields.
          destruct (m_sock c1); [exact Hsock | reflexivity]. }
        destruct (_ >=? _); [exact Hp |].
        destruct (nth_error _ _); [| exact Hp].
        cbn [fst]. unfold sock_is_connected. fields.
        destruct (m_sock (connect_prepared c1)); reflexivity. }
      clearbody c2. step. cbn [fst snd]. rewrite Htime2.
      assert (Hconnect : snd (connect c1) = []
                         \/ exists ep, snd (connect c1) = [Async_connect ep]).
      { rewrite connect_run. destruct (_ >=? _); [now left |].
        destruct (nth_error _ _) as [ep |]; [right; now exists ep | now left]. }
      split.
      { rewrite handler_calls_app.
        destruct Hconnect as [-> | [ep ->]]; reflexivity. }
      split; [reflexivity |]. split; [exact Hsock2 |].
      exists (snd (connect c1)). split; [reflexivity |].
      split; [discriminate |]. intros _ Hpos.
      apply connect_issues. rewrite Hnext, Hsize.
      apply Z.ltb_lt in Hlt. lia.
  - split; [reflexivity |].
    rewrite callback_reports. now apply reports_frame.
Qed.

(** ** on_connect *)

(** A connect that succeeded invokes the connect handler, if one is
    installed, and writes the request.  A connect that failed moves on
    to the next endpoint of the list, without telling the handler, as
    long as one is left and the connection is not closed; otherwise the
    stream is closed and the failure goes to [callback]: the handler
    gets the error and no data, except that nothing happens when the
    connection is bottled and has made its callback, and that the
    handler is not invoked when the connection has dropped it.  Either
    way the clock of the request starts again. *)
Theorem on_connect_paths (e : error_code) (now : Z) (c : http_connection) :
  let t := snd (on_connect e now c) in
  let c' := fst (on_connect e now c) in
  m_start_time c' = now
  /\ if is_error e
     then
       if (m_next_ep c <? endpoints_size c) && negb (m_abort c)
       then
         handler_calls t = 0%nat
         /\ (1 <= m_next_ep c ->
             exists ep,
               nth_error (m_endpoints c) (Z.to_nat (m_next_ep c)) = Some ep
               /\ t = [Async_connect ep]
               /\ m_next_ep c' = m_next_ep c + 1
               /\ m_connecting c' = true)
       else
         m_connecting c' = false /\ t = reports e c
     else
       t = (if m_connect_handler c then [Connect_handler] else [])
           ++ [Async_write (m_sendbuffer c)]
       /\ m_connecting c' = false.
Proof.
  intros t c'. subst t c'. unfold on_connect. rewrite !seq_upd.
  set (c0 := set_m_start_time now
               (set_m_last_receive now (set_m_connecting false c))).
  assert (F : forall A (f : http_connection -> A),
             (forall v c, f (set_m_start_time v c) = f c) ->
             (forall v c, f (set_m_last_receive v c) = f c) ->
             (forall v c, f (set_m_connecting v c) = f c) ->
             f c0 = f c).
  { intros A f H1 H2 H3. unfold c0. now rewrite H1, H2, H3. }
  assert (Hstart : m_start_time c0 = now) by reflexivity.
  assert (Hconn : m_connecting c0 = false) by reflexivity.
  clearbody c0. unfold with_this.
  rewrite (F _ m_next_ep), (F _ endpoints_size), (F _ m_abort),
    (F _ m_connect_handler), (F _ m_sendbuffer) by reflexivity.
  destruct (is_error e) eqn:He; cbn [negb].
  - destruct ((m_next_ep c <? endpoints_size c) && negb (m_abort c)) eqn:Hleft.
    + rewrite seq_on_sock. fold (hard_closed c0).
      split.
      { rewrite (connect_frame _ m_start_time) by reflexivity. exact Hstart. }
      assert (Hconnect : snd (connect (hard_closed c0)) = []
                         \/ exists ep, snd (connect (hard_closed c0))
                                       = [Async_connect ep]).
      { rewrite connect_run. destruct (_ >=? _); [now left |].
        destruct (nth_error _ _) as [ep |]; [right; now exists ep | now left]. }
      split; [destruct Hconnect as [-> | [ep ->]]; reflexivity |].
      intros Hpos. apply andb_prop in Hleft. destruct Hleft as [Hlt _].
      apply Z.ltb_lt in Hlt.
      assert (Hn : m_next_ep (hard_closed c0) = m_next_ep c)
        by (change (m_next_ep c0 = m_next_ep c); now apply F).
      assert (Hs : endpoints_size (hard_closed c0) = endpoints_size c)
        by (change (endpoints_size c0 = endpoints_size c); now apply F).
      assert (Hl : m_endpoints (hard_closed c0) = m_endpoints c)
        by (change (m_endpoints c0 = m_endpoints c); now apply F).
      rewrite connect_run. rewrite Hn, Hs.
      replace (m_next_ep c >=? endpoints_size c) with false
        by (symmetry; rewrite Z.geb_leb; apply Z.leb_gt; lia).
      rewrite connect_prepared_nth by lia. rewrite Hl.
      destruct (nth_error (m_endpoints c) (Z.to_nat (m_next_ep c)))
        as [ep |] eqn:Hnth.
      * exists ep. cbn [fst snd]. fields. repeat split; reflexivity.
      * apply nth_error_None in Hnth. unfold endpoints_size in Hlt. lia.
    + rewrite seq_on_sock. fold (hard_closed c0).
      split.
      { rewrite (callback_frame _ m_start_time) by reflexivity. exact Hstart. }
      split.
      { rewrite (callback_frame _ m_connecting) by reflexivity. exact Hconn. }
      rewrite callback_reports.
      apply reports_frame;
        [ change (m_bottled c0 = m_bottled c)
        | change (m_called c0 = m_called c)
        | change (m_handler c0 = m_handler c) ];
        now apply F.
  - rewrite fst_seq, snd_seq.
    destruct (m_connect_handler c); cbn [when emit ret fst snd app].
    + repeat split; assumption.
    + repeat split; assumption.
Qed.

(** ** What the reading procedures leave alone *)

Ltac frame_step :=
  repeat first
    [ stable_step
    | match goal with
      | |- stable _ (upd _) => apply stable_upd; intros; cbv beta; auto
      end ].

Lemma stable_frame_callback (P : http_connection -> Prop) :
  (forall v c, P c -> P (set_m_recvbuffer v c)) ->
  (forall v c, P c -> P (set_m_called v c)) ->
  forall e data, stable P (callback e data).
Proof. intros Hr Hc e data. unfold callback, deliver. frame_step. Qed.

Lemma stable_frame_on_assign_bandwidth (P : http_connection -> Prop) :
  (forall v c, P c -> P (set_m_recvbuffer v c)) ->
  (forall v c, P c -> P (set_m_called v c)) ->
  (forall v c, P c -> P (set_m_download_quota v c)) ->
  (forall v c, P c -> P (set_m_limiter_timer_active v c)) ->
  forall e, stable P (on_assign_bandwidth e).
Proof.
  intros Hr Hc Hq Hl e. unfold on_assign_bandwidth. frame_step.
  all: apply stable_frame_callback; assumption.
Qed.

Lemma stable_frame_request_read (P : http_connection -> Prop) :
  (forall v c, P c -> P (set_m_recvbuffer v c)) ->
  (forall v c, P c -> P (set_m_called v c)) ->
  (forall v c, P c -> P (set_m_download_quota v c)) ->
  (forall v c, P c -> P (set_m_limiter_timer_active v c)) ->
  stable P request_read.
Proof.
  intros Hr Hc Hq Hl. unfold request_read. frame_step.
  apply stable_frame_on_assign_bandwidth; assumption.
Qed.

Lemma stable_frame_on_read_grow (P : http_connection -> Prop) :
  (forall v c, P c -> P (set_m_recvbuffer v c)) ->
  (forall v c, P c -> P (set_m_called v c)) ->
  (forall v c, P c -> P (set_m_download_quota v c)) ->
  (forall v c, P c -> P (set_m_limiter_timer_active v c)) ->
  stable P on_read_grow.
Proof.
  intros Hr Hc Hq Hl. unfold on_read_grow. frame_step.
  - apply stable_frame_callback; assumption.
  - apply stable_frame_request_read; assumption.
Qed.

Lemma filter_not_handler (t : list action) :
  Forall not_handler t -> filter is_handler t = [].
Proof.
  induction 1 as [| a t Ha _ IH]; [reflexivity |].
  simpl. unfold not_handler in Ha. now rewrite Ha.
Qed.

(** ** Streaming mode *)

Lemma callback_unbottled e data c :
  m_bottled c = false ->
  callback e data c = deliver e (view (m_recvbuffer c) data) c.
Proof.
  intros Hb. unfold callback, with_this. rewrite Hb.
  cbn [andb]. now rewrite andb_false_r.
Qed.

Lemma view_overwrite_front (buf data : list byte) :
  view (overwrite buf 0 data) (mk_span 0 (size data)) = data.
Proof.
  unfold view, overwrite, size. cbn [sp_off sp_len Z.to_nat firstn skipn app].
  rewrite Nat2Z.id. rewrite firstn_app, firstn_all, Nat.sub_diag.
  cbn [firstn]. apply app_nil_r.
Qed.

(** On a streaming connection whose headers were finished before, a
    read that completes without error hands the bytes that arrived to
    the handler, unchanged and without an error, and the receive buffer
    is used from its beginning again for the next read. *)
Theorem streaming_chunk_delivered (data : list byte) (now : Z)
    (c : http_connection) :
  m_abort c = false -> m_bottled c = false ->
  header_finished (m_parser c) = true ->
  m_handler c = true -> m_read_pos c = 0 ->
  let r := handle (Ev_on_read None data now) c in
  (exists rest, snd r = Timer_cancel :: Handler None data :: rest)
  /\ m_read_pos (fst r) = 0
  /\ m_last_receive (fst r) = now.
Proof.
  intros Ha Hb Hf Hh Hp r. subst r. cbn [handle]. rewrite seq_upd.
  rewrite Hp.
  set (cw := set_m_recvbuffer (overwrite (m_recvbuffer c) 0 data) c).
  assert (Hbuf : m_recvbuffer cw = overwrite (m_recvbuffer c) 0 data)
    by reflexivity.
  assert (Haw : m_abort cw = false) by exact Ha.
  assert (Hbw : m_bottled cw = false) by exact Hb.
  assert (Hfw : header_finished (m_parser cw) = true) by exact Hf.
  assert (Hhw : m_handler cw = true) by exact Hh.
  assert (Hpw : m_read_pos cw = 0) by exact Hp.
  clearbody cw.
  rewrite on_read_streaming
    by (try assumption; rewrite Hbw, Hfw; reflexivity).
  rewrite Hpw. cbn [Z.add].
  set (c1 := set_m_read_pos (size data) _).
  assert (Hbuf1 : m_recvbuffer c1 = overwrite (m_recvbuffer c) 0 data).
  { unfold c1. destruct (negb _); exact Hbuf. }
  assert (Hb1 : m_bottled c1 = false) by (unfold c1; destruct (negb _); exact Hbw).
  assert (Hh1 : m_handler c1 = true) by (unfold c1; destruct (negb _); exact Hhw).
  clearbody c1.
  rewrite fst_seq, snd_seq.
  rewrite (callback_unbottled _ _ _ Hb1), deliver_run, Hh1, Hbuf1.
  rewrite view_overwrite_front. cbn [fst snd app].
  split; [eexists; reflexivity |].
  rewrite !seq_upd.
  split.
  - apply (stable_frame_on_read_grow (fun c => m_read_pos c = 0));
      auto.
  - apply (stable_frame_on_read_grow (fun c => m_last_receive c = now));
      auto.
Qed.

(** ** Bottled mode: the response *)

(** What [callback] hands to the handler of a bottled connection for a
    body that is not empty, after the headers: the body without its
    chunk headers, inflated when the response says gzip; the error is
    dropped when the parser has the whole response. *)
Lemma callback_bottled_body e data c :
  m_bottled c = true -> m_called c = false ->
  span_empty data = false -> header_finished (m_parser c) = true ->
  let body :=
    collapse_chunk_headers (m_parser c) (view (m_recvbuffer c) data) in
  let e' := if finished (m_parser c) then None else e in
  let c1 := set_m_recvbuffer (overwrite (m_recvbuffer c) (sp_off data) body) c in
  callback e data c
  = if is_gzip (header (m_parser c) "content-encoding")
    then
      match inflate_gzip body (m_max_bottled_buffer_size c) with
      | (buf, None) =>
          (set_m_called true c1,
           Timer_cancel :: if m_handler c then [Handler e' buf] else [])
      | (_, Some ec) =>
          (c1, if m_handler c then [Handler (Some ec) body] else [])
      end
    else
      (set_m_called true c1,
       Timer_cancel :: if m_handler c then [Handler e' body] else []).
Proof.
  intros Hb Hc Hd Hf body e' c1. unfold callback, with_this.
  rewrite Hb, Hc, Hd, Hf. cbn [andb negb]. rewrite seq_upd.
  fold body e' c1.
  destruct (is_gzip _).
  - destruct (inflate_gzip _ _) as [buf [ec |]]; cbn [is_error].
    + destruct (m_handler c); reflexivity.
    + rewrite deliver_run. reflexivity.
  - rewrite deliver_run. reflexivity.
Qed.

(** The read that completes the response of a bottled connection (the
    parser accepts the bytes and reports the response finished, and no
    redirect is followed) invokes the handler exactly once, without an
    error, with the body from [body_start] to [m_read_pos] after
    [collapse_chunk_headers], inflated when the response is gzip and
    inflates; the callback is marked as made. *)
Theorem bottled_response_delivered (n now : Z) (parser' : http_parser)
    (c : http_connection) :
  m_abort c = false -> m_bottled c = true -> m_called c = false ->
  m_handler c = true ->
  parser_incoming (m_parser c)
    (firstn (Z.to_nat (m_read_pos c + n)) (m_recvbuffer c)) = (parser', false) ->
  negb (m_redirects c =? 0) && is_redirect (status_code parser') = false ->
  header_finished parser' = true -> finished parser' = true ->
  body_start parser' < m_read_pos c + n ->
  let body :=
    collapse_chunk_headers parser'
      (view (m_recvbuffer c)
         (mk_span (body_start parser')
            (m_read_pos c + n - body_start parser'))) in
  let inflated := inflate_gzip body (m_max_bottled_buffer_size c) in
  let gzip := is_gzip (header parser' "content-encoding") in
  (gzip = true -> snd inflated = None) ->
  filter is_handler (snd (on_read None n now c))
  = [Handler None (if gzip then fst inflated else body)]
  /\ m_called (fst (on_read None n now c)) = true.
Proof.
  intros Ha Hb Hc Hh Hparse Hredir Hhf Hfin Hbody body inflated gzip Hz.
  rewrite (on_read_accepted n now parser' c Ha)
    by (try exact Hparse; rewrite Hb; reflexivity).
  set (c1 := after_read n parser' c).
  assert (F : forall A (f : http_connection -> A),
             (forall v c, f (set_m_parser v c) = f c) ->
             (forall v c, f (set_m_read_pos v c) = f c) ->
             (forall v c, f (set_m_download_quota v c) = f c) ->
             f c1 = f c).
  { intros A f H1 H2 H3. unfold c1, after_read. rewrite H1, H2.
    destruct (negb (m_rate_limit c =? 0)); [apply H3 | reflexivity]. }
  assert (Hp1 : m_parser c1 = parser') by reflexivity.
  assert (Hpos1 : m_read_pos c1 = m_read_pos c + n) by reflexivity.
  assert (Hredirect : on_read_redirect c1 = None).
  { unfold on_read_redirect. rewrite Hp1, Hhf, (F _ m_redirects) by reflexivity.
    rewrite andb_true_r, Hredir. reflexivity. }
  rewrite Hredirect.
  (* the assignment of m_redirects *)
  rewrite fst_seq, snd_seq.
  set (c2 := fst (when _ _ c1)).
  assert (Hsnd : snd (when (negb (m_redirects c =? 0) && header_finished parser')
                        (upd (set_m_redirects 0)) c1) = [])
    by (destruct (negb (m_redirects c =? 0) && header_finished parser');
        reflexivity).
  rewrite Hsnd. cbn [app].
  assert (F2 : forall A (f : http_connection -> A),
             (forall v c, f (set_m_redirects v c) = f c) ->
             f c2 = f c1).
  { intros A f H1. unfold c2.
    destruct (negb (m_redirects c =? 0) && header_finished parser');
      [apply H1 | reflexivity]. }
  clearbody c2.
  assert (G : forall A (f : http_connection -> A),
             (forall v c, f (set_m_parser v c) = f c) ->
             (forall v c, f (set_m_read_pos v c) = f c) ->
             (forall v c, f (set_m_download_quota v c) = f c) ->
             (forall v c, f (set_m_redirects v c) = f c) ->
             f c2 = f c).
  { intros A f H1 H2 H3 H4. rewrite (F2 _ f H4). now apply F. }
  assert (Hp2 : m_parser c2 = parser') by (now rewrite (F2 _ m_parser)).
  assert (Hpos2 : m_read_pos c2 = m_read_pos c + n)
    by (now rewrite (F2 _ m_read_pos)).
  rewrite seq_with_this.
  rewrite (G _ m_bottled), Hb, Hp2, Hhf, Hfin, Hpos2 by reflexivity.
  cbn [negb andb]. rewrite seq_assoc, seq_emit. cbn [fst snd filter is_handler].
  rewrite fst_seq, snd_seq.
  rewrite callback_bottled_body;
    [
    | rewrite (G _ m_bottled) by reflexivity; exact Hb
    | rewrite (G _ m_called) by reflexivity; exact Hc
    | unfold span_empty; cbn [sp_len]; apply Z.eqb_neq; lia
    | rewrite Hp2; exact Hhf ].
  cbn [sp_off].
  rewrite Hp2, Hfin, (G _ m_recvbuffer), (G _ m_max_bottled_buffer_size),
    (G _ m_handler), Hh by reflexivity.
  fold body gzip inflated.
  set (c3 := set_m_recvbuffer _ c2).
  assert (Hb3 : m_bottled c3 = true)
    by (change (m_bottled c2 = true); rewrite (G _ m_bottled) by reflexivity;
        exact Hb).
  clearbody c3.
  assert (Hrest : forall c4, m_bottled c4 = true -> m_called c4 = true ->
            filter is_handler (snd (on_read_grow c4)) = []
            /\ m_called (fst (on_read_grow c4)) = true).
  { intros c4 H1 H2.
    destruct (keeps_delivered_on_read_grow c4 (conj H1 H2)) as [[_ H3] H4].
    split; [apply filter_not_handler, H4 | exact H3]. }
  destruct gzip eqn:Hg.
  - specialize (Hz eq_refl). destruct inflated as [buf ec] eqn:Hi.
    cbn [snd] in Hz. subst ec. cbn [fst snd].
    destruct (Hrest (set_m_called true c3) Hb3 eq_refl) as [H1 H2].
    rewrite filter_app, H1. split; [reflexivity | exact H2].
  - cbn [fst snd].
    destruct (Hrest (set_m_called true c3) Hb3 eq_refl) as [H1 H2].
    rewrite filter_app, H1. split; [reflexivity | exact H2].
Qed.

(** ** The end of the stream *)

Lemma on_read_eof (e : error_code) (n now : Z) (c : http_connection) :
  is_eof_or_shut_down e = true -> m_abort c = false ->
  on_read e n now c
  = callback (Some eof)
      (if m_bottled c && header_finished (m_parser c)
       then mk_span (body_start (m_parser c)) (get_body_size (m_parser c))
       else empty_span)
      (if negb (m_rate_limit c =? 0)
       then set_m_download_quota (m_download_quota c - n) c
       else c).
Proof.
  intros He Ha. unfold on_read.
  assert (Hop : is_operation_aborted e = false)
    by (destruct e as [[] |]; try discriminate; reflexivity).
  rewrite Hop, He. step.
  destruct (negb (m_rate_limit c =? 0)); step; rewrite Ha; reflexivity.
Qed.

(** When the stream ends (eof, or shut_down from a TLS stream) on a
    connection that is not closed and has not made a bottled callback:
    a bottled connection whose headers are finished and whose body is
    not empty hands the body to the handler, without its chunk headers
    and inflated if it is gzip; the error is eof, or none when the
    parser has the whole response, or the error of the inflater when
    that fails.  In every other case (streaming mode, unfinished
    headers, empty body) the handler gets eof and no data. *)
Theorem eof_delivers_body (e : error_code) (n now : Z)
    (c : http_connection) :
  is_eof_or_shut_down e = true ->
  m_abort c = false -> m_handler c = true ->
  m_bottled c && m_called c = false ->
  let t := snd (on_read e n now c) in
  let parser := m_parser c in
  if m_bottled c && header_finished parser
     && negb (get_body_size parser =? 0)
  then
    let body :=
      collapse_chunk_headers parser
        (view (m_recvbuffer c)
           (mk_span (body_start parser) (get_body_size parser))) in
    let e' := if finished parser then None else Some eof in
    if is_gzip (header parser "content-encoding")
    then
      match inflate_gzip body (m_max_bottled_buffer_size c) with
      | (buf, None) => t = [Timer_cancel; Handler e' buf]
      | (_, Some ec) => t = [Handler (Some ec) body]
      end
    else t = [Timer_cancel; Handler e' body]
  else t = [Timer_cancel; Handler (Some eof) []].
Proof.
  intros He Ha Hh Hcalled t parser. subst t parser.
  rewrite (on_read_eof e n now c He Ha).
  set (c1 := if negb (m_rate_limit c =? 0) then _ else c).
  assert (F : forall A (f : http_connection -> A),
             (forall v c, f (set_m_download_quota v c) = f c) ->
             f c1 = f c).
  { intros A f H. unfold c1.
    destruct (negb (m_rate_limit c =? 0)); [apply H | reflexivity]. }
  clearbody c1.
  destruct (m_bottled c) eqn:Hb; cbn [andb] in *.
  - destruct (header_finished (m_parser c)) eqn:Hf; cbn [andb].
    + destruct (get_body_size (m_parser c) =? 0) eqn:Hz; cbn [negb].
      * unfold callback, with_this.
        rewrite (F _ m_bottled), (F _ m_called), Hb, Hcalled by reflexivity.
        cbn [andb]. unfold span_empty. cbn [sp_len].
        rewrite Hz. cbn [negb andb]. rewrite deliver_run.
        rewrite (F _ m_handler), Hh by reflexivity.
        apply Z.eqb_eq in Hz. rewrite Hz. unfold view.
        cbn [sp_len Z.to_nat firstn snd]. reflexivity.
      * rewrite callback_bottled_body;
          [
          | rewrite (F _ m_bottled) by reflexivity; exact Hb
          | rewrite (F _ m_called) by reflexivity; exact Hcalled
          | unfold span_empty; cbn [sp_len]; exact Hz
          | rewrite (F _ m_parser) by reflexivity; exact Hf ].
        rewrite (F _ m_parser), (F _ m_recvbuffer),
          (F _ m_max_bottled_buffer_size), (F _ m_handler), Hh by reflexivity.
        destruct (is_gzip _); [| reflexivity].
        destruct (inflate_gzip _ _) as [buf [ec |]]; reflexivity.
    + rewrite callback_empty_run.
      rewrite (F _ m_bottled), (F _ m_called), (F _ m_handler), Hb, Hcalled, Hh
        by reflexivity.
      reflexivity.
  - rewrite callback_empty_run.
    rewrite (F _ m_bottled), (F _ m_called), (F _ m_handler), Hb, Hh
      by reflexivity.
    reflexivity.
Qed.

(** ** Reads stay within the buffer and the quota *)

Ltac reads_nothing :=
  unfold reads_nothing; repeat keeps_step.

Lemma reads_nothing_callback e data : reads_nothing (callback e data).
Proof. unfold callback, deliver. reads_nothing. Qed.

Lemma reads_nothing_close force : reads_nothing (close force).
Proof. unfold close. reads_nothing. Qed.

Lemma reads_nothing_connect : reads_nothing connect.
Proof. unfold connect. reads_nothing. Qed.

Lemma reads_nothing_start hostname port timeout prio ps ssl redirects
    bind_addr flags :
  reads_nothing
    (start hostname port timeout prio ps ssl redirects bind_addr flags).
Proof. unfold start. reads_nothing. apply reads_nothing_connect. Qed.

Lemma reads_nothing_get url timeout prio ps redirects ua bind_addr flags
    auth_ :
  reads_nothing (get url timeout prio ps redirects ua bind_addr flags auth_).
Proof. unfold get. reads_nothing. apply reads_nothing_start. Qed.

Lemma reads_nothing_on_timeout e now : reads_nothing (on_timeout e now).
Proof.
  unfold on_timeout, rearm_deadline. reads_nothing;
    first [apply reads_nothing_connect | apply reads_nothing_callback].
Qed.

Lemma reads_nothing_on_resolve e addresses now :
  reads_nothing (on_resolve e addresses now).
Proof.
  unfold on_resolve. reads_nothing;
    first [apply reads_nothing_connect | apply reads_nothing_callback
          | apply reads_nothing_close].
Qed.

Lemma reads_nothing_on_connect e now : reads_nothing (on_connect e now).
Proof.
  unfold on_connect. reads_nothing;
    first [apply reads_nothing_connect | apply reads_nothing_callback].
Qed.

Lemma reads_nothing_rate_limit limit : reads_nothing (rate_limit limit).
Proof. unfold rate_limit. reads_nothing. Qed.

Lemma issues_within_quiet (p : proc) : reads_nothing p -> issues_within p.
Proof.
  intros H c. destruct (H c I) as [_ HT].
  eapply Forall_impl; [| exact HT].
  intros [] Ha; try exact I. discriminate.
Qed.

Lemma issues_within_tail (p q : proc) :
  reads_nothing p -> issues_within q -> issues_within (p ;; q).
Proof.
  intros Hp Hq c. rewrite fst_seq, snd_seq. apply Forall_app. split.
  - destruct (Hp c I) as [_ HT]. eapply Forall_impl; [| exact HT].
    intros [] Ha; try exact I. discriminate.
  - apply Hq.
Qed.

Lemma issues_within_with_this (k : http_connection -> proc) :
  (forall c0, issues_within (k c0)) -> issues_within (with_this k).
Proof. intros H c. exact (H c c). Qed.

Lemma to_size_t_nonneg (n : Z) : 0 <= to_size_t n.
Proof. unfold to_size_t. apply Z.mod_pos_bound. lia. Qed.

Lemma to_size_t_le (n : Z) : 0 <= n -> to_size_t n <= n.
Proof. intros H. unfold to_size_t. apply Z.mod_le; lia. Qed.

(** An [int] that is not negative is its own [std::size_t]. *)
Lemma to_size_t_small (n : Z) : 0 <= n < 2147483648 -> to_size_t n = n.
Proof. intros H. unfold to_size_t. apply Z.mod_small. lia. Qed.

Lemma read_within_size_t (c : http_connection) (amount : Z) :
  (0 <= m_download_quota c -> m_read_pos c <= size (m_recvbuffer c) ->
   0 <= amount <= size (m_recvbuffer c) - m_read_pos c
   /\ (0 < m_rate_limit c -> amount <= m_download_quota c)) ->
  read_within c (Async_read_some (m_read_pos c) (to_size_t amount)).
Proof.
  intros H. cbn [read_within].
  split; [reflexivity |]. split; [apply to_size_t_nonneg |].
  intros Hq Hp. destruct (H Hq Hp) as [Ha Hr].
  pose proof (to_size_t_le amount (proj1 Ha)). split; [lia |].
  intros Hrate. specialize (Hr Hrate). lia.
Qed.

Lemma issues_within_on_assign_bandwidth e :
  issues_within (on_assign_bandwidth e).
Proof.
  intros c. unfold on_assign_bandwidth, with_this.
  destruct (_ || _).
  { apply issues_within_quiet, reads_nothing_callback. }
  step. destruct (is_error e); [constructor |].
  destruct (m_abort c); [constructor |].
  destruct (m_download_quota c >? 0); [constructor |].
  step. destruct (negb (sock_open _)); [constructor |].
  step. cbn [fst snd emit]. fields.
  constructor; [| repeat constructor].
  match goal with
  | |- read_within ?c1 (Async_read_some _ (to_size_t ?a)) =>
      change (read_within c1 (Async_read_some (m_read_pos c1) (to_size_t a)));
      apply read_within_size_t
  end.
  fields. intros Hq Hp.
  destruct (_ >? _) eqn:Hgt; rewrite Z.gtb_ltb in Hgt;
    [apply Z.ltb_lt in Hgt | apply Z.ltb_ge in Hgt]; lia.
Qed.

Lemma issues_within_request_read : issues_within request_read.
Proof.
  intros c. unfold request_read, with_this.
  destruct (m_rate_limit c >? 0) eqn:Hr; cbn [andb];
    rewrite Z.gtb_ltb in Hr;
    [apply Z.ltb_lt in Hr | apply Z.ltb_ge in Hr].
  - destruct (_ >? _) eqn:Hgt; rewrite Z.gtb_ltb in Hgt;
      [apply Z.ltb_lt in Hgt | apply Z.ltb_ge in Hgt].
    + destruct (m_download_quota c =? 0) eqn:Hz.
      * destruct (m_limiter_timer_active c); cbn [negb when];
          [constructor | apply issues_within_on_assign_bandwidth].
      * apply Z.eqb_neq in Hz. cbn [emit fst snd].
        constructor; [| constructor].
        apply read_within_size_t. intros; lia.
    + cbn [emit fst snd].
      constructor; [| constructor].
      apply read_within_size_t. intros; lia.
  - cbn [emit fst snd].
    constructor; [| constructor].
    apply read_within_size_t. intros; lia.
Qed.

Ltac issues_within :=
  repeat first
    [ match goal with
      | |- issues_within (with_this _) =>
          apply issues_within_with_this; intro
      | |- issues_within (if ?b then _ else _) => destruct b
      | |- issues_within (match ?x with _ => _ end) => destruct x eqn:?
      | |- issues_within (let (_, _) := ?x in _) => destruct x
      | |- issues_within request_read => apply issues_within_request_read
      | |- issues_within (on_assign_bandwidth _) =>
          apply issues_within_on_assign_bandwidth
      | |- issues_within (callback _ _) =>
          apply issues_within_quiet, reads_nothing_callback
      | |- issues_within ret =>
          apply issues_within_quiet; reads_nothing
      | |- issues_within (emit _) =>
          apply issues_within_quiet; reads_nothing
      | |- issues_within (_ ;; _) =>
          apply issues_within_tail;
          [ solve [ reads_nothing; apply reads_nothing_callback ] |]
      end ].

Lemma issues_within_on_write e : issues_within (on_write e).
Proof. unfold on_write. issues_within. Qed.

Lemma issues_within_on_read_grow : issues_within on_read_grow.
Proof. unfold on_read_grow. issues_within. Qed.

Lemma issues_within_on_read_redirect c0 redirect :
  on_read_redirect c0 = Some redirect -> issues_within redirect.
Proof.
  unfold on_read_redirect. intros H.
  destruct (negb (m_redirects c0 =? 0) && header_finished (m_parser c0)
            && is_redirect (status_code (m_parser c0))); [| discriminate].
  destruct (string_empty (header (m_parser c0) "location"));
    injection H as <-; apply issues_within_quiet.
  - apply reads_nothing_callback.
  - reads_nothing. apply reads_nothing_get.
Qed.

Lemma issues_within_on_read e n now : issues_within (on_read e n now).
Proof.
  unfold on_read. issues_within.
  all: first [ apply issues_within_on_read_grow
             | eapply issues_within_on_read_redirect; eassumption ].
Qed.

(** With a rate limit set and a quota that is not negative, a read
    issued at a read position within the buffer asks for no more than
    the quota. *)
Lemma request_read_within_quota c pos amount :
  let c' := fst (request_read c) in
  0 < m_rate_limit c' -> 0 <= m_download_quota c' ->
  m_read_pos c' <= size (m_recvbuffer c') ->
  In (Async_read_some pos amount) (snd (request_read c)) ->
  amount <= m_download_quota c'.
Proof.
  intros c' Hr Hq Hp Hin.
  pose proof (issues_within_request_read c) as H.
  rewrite Forall_forall in H. specialize (H _ Hin). cbn [read_within] in H.
  destruct H as (-> & _ & H). fold c' in H.
  now apply H.
Qed.

(** Every read the connection issues, in any API call or completion,
    starts at [m_read_pos] and has a size that is a [std::size_t].  As
    long as the quota is not negative and the read position is within
    the receive buffer when the call returns, the read ends within the
    receive buffer and, under a rate limit, asks for no more than the
    quota that is left.  Nothing is said of a read issued on a negative
    quota or at a read position past the buffer: its size is the
    [std::size_t] of a negative number. *)
Theorem reads_within_buffer_and_quota (ev : event) (c : http_connection) :
  Forall (read_within (fst (handle ev c))) (snd (handle ev c)).
Proof.
  revert c. change (issues_within (handle ev)).
  destruct ev; cbn [handle].
  - apply issues_within_quiet, reads_nothing_get.
  - apply issues_within_quiet, reads_nothing_start.
  - apply issues_within_quiet, reads_nothing_close.
  - apply issues_within_quiet, reads_nothing_rate_limit.
  - apply issues_within_quiet, reads_nothing_callback.
  - apply issues_within_quiet, reads_nothing_on_resolve.
  - apply issues_within_quiet. reads_nothing. apply reads_nothing_on_connect.
  - apply issues_within_on_write.
  - apply issues_within_tail; [reads_nothing |].
    apply issues_within_on_read.
  - apply issues_within_quiet, reads_nothing_on_timeout.
  - apply issues_within_on_assign_bandwidth.
Qed.

(** ** Redirects are bounded *)

Lemma starts_app (t1 t2 : list action) :
  starts (t1 ++ t2) = (starts t1 + starts t2)%nat.
Proof. unfold starts. now rewrite filter_app, length_app. Qed.

Lemma starts_none (t : list action) : Forall not_started t -> starts t = 0%nat.
Proof.
  unfold starts. induction 1 as [| a t Ha _ IH]; [reflexivity |].
  simpl. unfold not_started in Ha. now rewrite Ha.
Qed.

Ltac same_request :=
  unfold same_request; intro; repeat keeps_step.

Lemma same_request_callback e data : same_request (callback e data).
Proof. unfold callback, deliver. same_request. Qed.

Lemma same_request_close force : same_request (close force).
Proof. unfold close. same_request. Qed.

Lemma same_request_connect : same_request connect.
Proof. unfold connect. same_request. Qed.

Lemma same_request_on_timeout e now : same_request (on_timeout e now).
Proof.
  unfold on_timeout, rearm_deadline. same_request;
    first [apply same_request_connect | apply same_request_callback].
Qed.

Lemma same_request_on_resolve e addresses now :
  same_request (on_resolve e addresses now).
Proof.
  unfold on_resolve. same_request;
    first [apply same_request_connect | apply same_request_callback
          | apply same_request_close].
Qed.

Lemma same_request_on_connect e now : same_request (on_connect e now).
Proof.
  unfold on_connect. same_request;
    first [apply same_request_connect | apply same_request_callback].
Qed.

Lemma same_request_on_assign_bandwidth e :
  same_request (on_assign_bandwidth e).
Proof. unfold on_assign_bandwidth. same_request; apply same_request_callback. Qed.

Lemma same_request_request_read : same_request request_read.
Proof.
  unfold request_read. same_request. apply same_request_on_assign_bandwidth.
Qed.

Lemma same_request_on_write e : same_request (on_write e).
Proof.
  unfold on_write. same_request;
    first [apply same_request_request_read | apply same_request_callback].
Qed.

Lemma same_request_on_read_grow : same_request on_read_grow.
Proof.
  unfold on_read_grow. same_request;
    first [apply same_request_request_read | apply same_request_callback].
Qed.

Lemma same_request_rate_limit limit : same_request (rate_limit limit).
Proof. unfold rate_limit. same_request. Qed.

Lemma spends_same_request (p : proc) : same_request p -> spends p.
Proof.
  intros H c Hc. destruct (H (m_redirects c) c eq_refl) as [H1 H2].
  rewrite H1, (starts_none _ H2). lia.
Qed.

Lemma spends_seq (p q : proc) : spends p -> spends q -> spends (p ;; q).
Proof.
  intros Hp Hq c Hc. rewrite fst_seq, snd_seq, starts_app.
  destruct (Hp c Hc) as [H1 H2]. destruct (Hq _ H1) as [H3 H4].
  split; [exact H3 | lia].
Qed.

Lemma spends_with_this (k : http_connection -> proc) :
  (forall c0, spends (k c0)) -> spends (with_this k).
Proof. intros H c. exact (H c c). Qed.

(** [start] runs once and sets the redirects that are left. *)
Lemma start_redirects hostname port timeout prio ps ssl redirects bind_addr
    flags c :
  m_redirects
    (fst (start hostname port timeout prio ps ssl redirects bind_addr flags c))
  = redirects
  /\ starts
       (snd (start hostname port timeout prio ps ssl redirects bind_addr
               flags c))
     = 1%nat.
Proof.
  unfold start. rewrite !seq_upd.
  assert (Hrest : forall q c0,
            keeps (fun c => m_redirects c = redirects) not_started q ->
            m_redirects c0 = redirects ->
            m_redirects
              (fst ((upd (set_m_completion_timeout timeout) ;;
                     emit (Timer_expires_after timeout) ;; q) c0))
            = redirects
            /\ starts
                 (snd ((upd (set_m_completion_timeout timeout) ;;
                        emit (Timer_expires_after timeout) ;; q) c0))
               = 1%nat).
  { intros q c0 Hq H0. rewrite seq_upd, seq_emit. cbn [fst snd].
    destruct (Hq (set_m_completion_timeout timeout c0) H0) as [H1 H2].
    split; [exact H1 |].
    unfold starts. cbn [filter is_timer_expires_after List.length].
    f_equal. apply (starts_none _ H2). }
  destruct ps as [p |]; [rewrite seq_upd | rewrite seq_ret];
    (apply Hrest; [| reflexivity]);
    repeat keeps_step; apply same_request_connect.
Qed.

Lemma spends_get url timeout prio ps redirects ua bind_addr flags auth_ c :
  0 <= redirects ->
  (m_redirects
     (fst (get url timeout prio ps redirects ua bind_addr flags auth_ c))
   = m_redirects c
   /\ starts
        (snd (get url timeout prio ps redirects ua bind_addr flags auth_ c))
      = 0%nat)
  \/ (m_redirects
        (fst (get url timeout prio ps redirects ua bind_addr flags auth_ c))
      = redirects
      /\ starts
           (snd (get url timeout prio ps redirects ua bind_addr flags auth_ c))
         = 1%nat).
Proof.
  intros Hr. unfold get. rewrite !seq_upd.
  destruct (is_error _); [left; split; reflexivity |].
  unfold with_this.
  match goal with
  | |- context [if ?b then emit _ else _] => destruct b
  end; [left; split; reflexivity |].
  destruct (unsupported_protocol _); [left; split; reflexivity |].
  right. rewrite !seq_upd. apply start_redirects.
Qed.

Lemma spends_on_read e n now : spends (on_read e n now).
Proof.
  unfold on_read.
  assert (Hcb : forall e data, spends (callback e data))
    by (intros; apply spends_same_request, same_request_callback).
  assert (Hgrow : spends on_read_grow)
    by apply spends_same_request, same_request_on_read_grow.
  assert (Hret : spends ret)
    by (apply spends_same_request; intro; apply keeps_ret).
  assert (Hupd : forall f,
            (forall c, m_redirects (f c) = m_redirects c) -> spends (upd f)).
  { intros f Hf. apply spends_same_request. intro r. apply keeps_upd.
    intros c H. now rewrite Hf. }
  apply spends_seq.
  { apply spends_with_this. intro c0. destruct (negb _); cbn [when];
      [apply Hupd; reflexivity | exact Hret]. }
  destruct (is_operation_aborted e); [exact Hret |].
  apply spends_with_this. intro c0.
  destruct (m_abort c0); [exact Hret |].
  destruct (is_eof_or_shut_down e); [apply Hcb |].
  destruct (is_error e); [apply Hcb |].
  apply spends_seq; [apply Hupd; reflexivity |].
  apply spends_with_this. intro c1.
  destruct (_ || _).
  - destruct (parser_incoming _ _) as [parser' error].
    apply spends_seq; [apply Hupd; reflexivity |].
    destruct error; [apply Hcb |].
    (* the redirect test, at the connection it reads *)
    intros c Hc. unfold with_this.
    destruct (on_read_redirect c) as [redirect |] eqn:Hredirect.
    + unfold on_read_redirect in Hredirect.
      destruct (negb (m_redirects c =? 0)) eqn:Hleft;
        cbn [andb] in Hredirect; [| discriminate].
      destruct (header_finished (m_parser c) && _); [| discriminate].
      apply negb_true_iff, Z.eqb_neq in Hleft.
      destruct (string_empty _); injection Hredirect as <-.
      * apply Hcb, Hc.
      * rewrite seq_on_sock.
        match goal with
        | |- context [get ?u ?t ?p ?ps ?r ?ua ?b ?f ?a ?x] =>
            destruct (spends_get u t p ps r ua b f a x) as [[H1 H2] | [H1 H2]];
            [lia | | ]; rewrite H1, H2
        end.
        -- change (m_redirects (set_m_sock _ c)) with (m_redirects c). lia.
        -- lia.
    + clear Hredirect.
      match goal with
      | |- context [(when ?b ?u ;; ?rest) c] =>
          assert (H : forall b', spends (when b' u ;; rest));
          [| exact (H b c Hc)]
      end.
      intros b'. apply spends_seq.
      { destruct b'; [| exact Hret].
        intros c2 Hc2. cbn [when upd fst snd]. fields.
        split; [lia |]. cbn. lia. }
      apply spends_seq; [| exact Hgrow].
      apply spends_with_this. intro c2.
      destruct (_ && _).
      { apply spends_seq; [destruct (_ >? _); [apply Hcb | exact Hret] |].
        apply spends_seq; apply Hupd; reflexivity. }
      destruct (_ && _); [| exact Hret].
      apply spends_seq; [| apply Hcb].
      apply spends_same_request. intro. apply keeps_emit. reflexivity.
  - apply spends_seq; [apply Hcb |].
    apply spends_seq; [apply Hupd; reflexivity |].
    apply spends_seq; [apply Hupd; reflexivity | exact Hgrow].
Qed.

Lemma spends_handle (ev : event) : is_request ev = false -> spends (handle ev).
Proof.
  intros Hev. destruct ev; try discriminate; cbn [handle].
  - apply spends_same_request, same_request_close.
  - apply spends_same_request, same_request_rate_limit.
  - apply spends_same_request, same_request_callback.
  - apply spends_same_request, same_request_on_resolve.
  - apply spends_seq; [| apply spends_same_request, same_request_on_connect].
    apply spends_same_request. same_request.
  - apply spends_same_request, same_request_on_write.
  - apply spends_seq; [| apply spends_on_read].
    apply spends_same_request. same_request.
  - apply spends_same_request, same_request_on_timeout.
  - apply spends_same_request, same_request_on_assign_bandwidth.
Qed.

(** A request follows no more redirects than it was given: in any run
    of completions and of API calls other than [get] and [start], the
    number of times [start] runs (once per redirect that is followed)
    is at most [m_redirects], the number the request began with, and
    [m_redirects] never becomes negative.  So a chain of redirects
    ends. *)
Theorem redirects_are_bounded (evs : list event) (c : http_connection) :
  0 <= m_redirects c ->
  forallb (fun ev => negb (is_request ev)) evs = true ->
  0 <= m_redirects (fst (run evs c))
  /\ Z.of_nat (starts (snd (run evs c))) + m_redirects (fst (run evs c))
     <= m_redirects c.
Proof.
  revert c. induction evs as [| ev rest IH]; intros c Hc Hevs.
  - cbn. lia.
  - cbn [forallb] in Hevs. apply andb_prop in Hevs.
    destruct Hevs as [Hev Hrest]. apply negb_true_iff in Hev.
    cbn [run]. rewrite fst_seq, snd_seq, starts_app.
    destruct (spends_handle ev Hev c Hc) as [H1 H2].
    destruct (IH _ H1 Hrest) as [H3 H4].
    split; [exact H3 | lia].
Qed.

(** ** Where on_resolve connects to *)

Lemma not_connect_not_in (t : list action) (ep : endpoint) :
  Forall not_connect t -> ~ In (Async_connect ep) t.
Proof.
  intros H Hin. rewrite Forall_forall in H. specialize (H _ Hin).
  discriminate.
Qed.

Lemma close_no_connect force c : Forall not_connect (snd (close force c)).
Proof.
  assert (H : keeps (fun _ => True) not_connect (close force))
    by (unfold close; repeat keeps_step).
  apply (H c I).
Qed.

Lemma callback_no_connect e data c :
  Forall not_connect (snd (callback e data c)).
Proof.
  assert (H : keeps (fun _ => True) not_connect (callback e data))
    by (unfold callback, deliver; repeat keeps_step).
  apply (H c I).
Qed.

(** An endpoint [on_resolve] connects to is one of those the resolver
    returned and the endpoint filter let through (on a connection that
    does not let a SOCKS5 proxy resolve host names); under a bind
    address it is of the address family of the bind address; without an
    endpoint filter it is a resolved address with the port of the
    request. *)
Theorem on_resolve_connects_to_resolved (e : error_code)
    (addresses : list address) (now : Z) (c : http_connection)
    (ep : endpoint) :
  is_error e = false -> m_next_ep c = 0 ->
  ps_proxy_hostnames (m_proxy c) && is_socks5_proxy (ps_type (m_proxy c))
  = false ->
  In (Async_connect ep) (snd (on_resolve e addresses now c)) ->
  In ep (resolved_endpoints addresses c)
  /\ (forall b, m_bind_addr c = Some b -> endpoint_is_v4 ep = is_v4 b)
  /\ (m_endpoints c = [] -> m_filter_handler c = None ->
      In (ep_address ep) addresses /\ ep_port ep = m_port c).
Proof.
  intros He Hn Hproxy Hin.
  assert (Huse : In ep (usable_endpoints addresses c)).
  { rewrite (on_resolve_run e addresses now c He) in Hin.
    destruct (resolved_endpoints addresses c) as [| r rs] eqn:Hres.
    { exfalso. eapply not_connect_not_in; [| exact Hin].
      apply close_no_connect. }
    assert (Hc : In (Async_connect ep)
                   (snd (connect
                           (set_m_endpoints (usable_endpoints addresses c)
                              (set_m_endpoints (r :: rs)
                                 (set_m_start_time now
                                    (set_m_resolving_host false c))))))).
    { destruct (m_bind_addr c); [| exact Hin].
      destruct (usable_endpoints addresses c) eqn:Hu; [| exact Hin].
      exfalso. eapply not_connect_not_in; [| exact Hin].
      rewrite snd_seq. apply Forall_app.
      split; [apply callback_no_connect | apply close_no_connect]. }
    clear Hin.
    set (c3 := set_m_endpoints (usable_endpoints addresses c) _) in Hc.
    assert (Hp3 : m_proxy c3 = m_proxy c) by reflexivity.
    assert (Hn3 : m_next_ep c3 = 0) by exact Hn.
    assert (He3 : m_endpoints c3 = usable_endpoints addresses c)
      by reflexivity.
    clearbody c3. rewrite connect_run in Hc.
    assert (Hprep : connect_prepared c3 = c3)
      by (unfold connect_prepared; now rewrite Hp3, Hproxy).
    rewrite Hprep, Hn3, He3 in Hc.
    destruct (0 >=? _); [destruct Hc |].
    cbn [Z.to_nat] in Hc.
    destruct (usable_endpoints addresses c) as [| u us]; [destruct Hc |].
    cbn [nth_error snd] in Hc. destruct Hc as [Hc | []].
    injection Hc as <-. left. reflexivity. }
  assert (Hshuffled : In ep (random_shuffle (resolved_endpoints addresses c))
                      /\ forall b, m_bind_addr c = Some b ->
                                   endpoint_is_v4 ep = is_v4 b).
  { unfold usable_endpoints in Huse.
    destruct (m_bind_addr c) as [b |].
    - apply filter_In in Huse. destruct Huse as [H1 H2].
      split; [exact H1 |]. intros b' Hb. injection Hb as <-.
      apply eqb_prop, H2.
    - split; [exact Huse | discriminate]. }
  destruct Hshuffled as [Hsh Hfam].
  assert (Hres : In ep (resolved_endpoints addresses c)).
  { eapply Permutation_in; [| exact Hsh].
    apply Permutation_sym, random_shuffle_permutes. }
  split; [exact Hres |]. split; [exact Hfam |].
  intros Hnil Hfilter. unfold resolved_endpoints in Hres.
  rewrite Hnil, Hfilter in Hres. cbn [app] in Hres.
  apply in_map_iff in Hres. destruct Hres as (a & <- & Ha).
  split; [exact Ha | reflexivity].
Qed.

(** ** The paths of start *)

Lemma seq_when_on_sock (b : bool) f (q : proc) c :
  (when b (on_sock f) ;; q) c
  = q (if b then set_m_sock (option_map f (m_sock c)) c else c).
Proof. destruct b; [apply seq_on_sock | apply seq_ret]. Qed.

Lemma seq_match_proxy (ps : option proxy_settings) (q : proc) c :
  (match ps with Some p => upd (set_m_proxy p) | None => ret end ;; q) c
  = q (match ps with Some p => set_m_proxy p c | None => c end).
Proof. destruct ps; [apply seq_upd | apply seq_ret]. Qed.

Lemma seq_match_bind (bind_addr : option address) (q : proc) c :
  (match bind_addr with
   | Some a => on_sock (socket_open_bind a)
   | None => ret
   end ;; q) c
  = q (match bind_addr with
       | Some a => set_m_sock (option_map (socket_open_bind a) (m_sock c)) c
       | None => c
       end).
Proof. destruct bind_addr; [apply seq_on_sock | apply seq_ret]. Qed.

(** The members [start] does not assign. *)
Lemma start_frame (A : Type) (f : http_connection -> A) :
  (forall v c, f (set_m_redirects v c) = f c) ->
  (forall v c, f (set_m_resolve_flags v c) = f c) ->
  (forall v c, f (set_m_proxy v c) = f c) ->
  (forall v c, f (set_m_completion_timeout v c) = f c) ->
  (forall v c, f (set_m_called v c) = f c) ->
  (forall v c, f (set_m_parser v c) = f c) ->
  (forall v c, f (set_m_recvbuffer v c) = f c) ->
  (forall v c, f (set_m_read_pos v c) = f c) ->
  (forall v c, f (set_m_priority v c) = f c) ->
  (forall v c, f (set_m_ssl v c) = f c) ->
  (forall v c, f (set_m_bind_addr v c) = f c) ->
  (forall v c, f (set_m_sock v c) = f c) ->
  (forall v c, f (set_m_endpoints v c) = f c) ->
  (forall v c, f (set_m_next_ep v c) = f c) ->
  (forall v c, f (set_m_hostname v c) = f c) ->
  (forall v c, f (set_m_port v c) = f c) ->
  (forall v c, f (set_m_resolving_host v c) = f c) ->
  (forall v c, f (set_m_connecting v c) = f c) ->
  forall hostname port timeout prio ps ssl redirects bind_addr flags c,
    f (fst (start hostname port timeout prio ps ssl redirects bind_addr flags
              c)) = f c.
Proof.
  intros H1 H2 H3 H4 H5 H6 H7 H8 H9 H10 H11 H12 H13 H14 H15 H16 H17 H18.
  intros hostname port timeout prio ps ssl redirects bind_addr flags c.
  assert (Hst : stable (fun c' => f c' = f c)
                  (start hostname port timeout prio ps ssl redirects bind_addr
                     flags)).
  { unfold start.
    repeat first
      [ stable_step
      | match goal with
        | |- stable _ (upd _) =>
            apply stable_upd; intros ? <-; cbv beta; auto
        | |- stable _ (on_sock _) =>
            apply stable_on_sock; intros ? ? <-; auto
        | |- stable _ connect =>
            intros ? <-; apply connect_frame; auto
        end ]. }
  apply Hst. reflexivity.
Qed.


Lemma seq_emit_eq (a : action) (q : proc) c c' t :
  q c = (c', t) -> (emit a ;; q) c = (c', a :: t).
Proof. intros H. rewrite seq_emit, H. reflexivity. Qed.

(** [start] is its assignments, the arming of the deadline timer and
    [start_stream]. *)
Lemma start_unfold hostname port timeout prio ps ssl redirects bind_addr
    flags (c : http_connection) :
  start hostname port timeout prio ps ssl redirects bind_addr flags c
  = (fst (start_stream hostname port ps ssl bind_addr
            (start_prepared timeout prio ps redirects flags c)),
     Timer_expires_after timeout :: Timer_async_wait
     :: snd (start_stream hostname port ps ssl bind_addr
               (start_prepared timeout prio ps redirects flags c))).
Proof.
  unfold start, start_stream, start_fresh, start_prepared, reusable,
    bind_error.
  cbv zeta.
  rewrite !seq_upd, seq_match_proxy, seq_upd.
  do 2 apply seq_emit_eq. rewrite !seq_upd.
  apply surjective_pairing.
Qed.

Lemma start_stream_reuses hostname port ps ssl bind_addr c :
  reusable hostname port ssl bind_addr c = true ->
  start_stream hostname port ps ssl bind_addr c
  = (c, [Async_write (m_sendbuffer c)]).
Proof. intros H. unfold start_stream, with_this. now rewrite H. Qed.


(** The stream is replaced: the state after the bind. *)
Lemma start_stream_run hostname port ps ssl bind_addr c :
  reusable hostname port ssl bind_addr c = false ->
  exists c6,
    m_sock c6 = Some (bound_stream ps ssl bind_addr)
    /\ m_ssl c6 = ssl /\ m_bind_addr c6 = bind_addr
    /\ (forall A (f : http_connection -> A),
          (forall v c, f (set_m_ssl v c) = f c) ->
          (forall v c, f (set_m_bind_addr v c) = f c) ->
          (forall v c, f (set_m_sock v c) = f c) ->
          f c6 = f c)
    /\ start_stream hostname port ps ssl bind_addr c
       = start_fresh hostname port ps ssl bind_addr c6.
Proof.
  intros Hreuse. eexists.
  repeat match goal with |- _ /\ _ => split end.
  5: { unfold start_stream, with_this. rewrite Hreuse. cbv zeta.
       rewrite !seq_upd, seq_when_on_sock, seq_upd, seq_match_bind.
       reflexivity. }
  - unfold bound_stream. destruct bind_addr; reflexivity.
  - destruct bind_addr, (sock_open c); reflexivity.
  - destruct bind_addr, (sock_open c); reflexivity.
  - intros A f H1 H2 H3.
    destruct bind_addr, (sock_open c); now rewrite ?H3, ?H2, ?H1.
Qed.

Lemma start_prepared_reusable hostname port ssl bind_addr timeout prio ps
    redirects flags c :
  reusable hostname port ssl bind_addr
    (start_prepared timeout prio ps redirects flags c)
  = reusable hostname port ssl bind_addr c.
Proof. unfold start_prepared. destruct ps; reflexivity. Qed.


Lemma keeps_unconnected_on_sock (T : action -> Prop) f :
  (forall s, sock_connected s = false -> sock_connected (f s) = false) ->
  keeps stream_unconnected T (on_sock f).
Proof.
  intros Hf c (s & Hs & Hc). split; [| constructor].
  exists (f s). unfold on_sock, upd. cbn [fst]. fields.
  rewrite Hs. split; [reflexivity | apply Hf, Hc].
Qed.

Ltac keeps_unconnected :=
  repeat first
    [ match goal with
      | |- keeps _ _ (on_sock _) =>
          apply keeps_unconnected_on_sock; intros ? ?;
          assumption || reflexivity
      end
    | keeps_step ].

Lemma keeps_unconnected_connect : keeps stream_unconnected not_write connect.
Proof. unfold connect. keeps_unconnected. Qed.

Lemma keeps_unconnected_start_fresh hostname port ps ssl bind_addr :
  keeps stream_unconnected not_write
    (start_fresh hostname port ps ssl bind_addr).
Proof.
  unfold start_fresh. cbv zeta. keeps_unconnected.
  apply keeps_unconnected_connect.
Qed.


Lemma start_prepared_reset timeout prio ps redirects flags
    (c : http_connection) :
  let c5 := start_prepared timeout prio ps redirects flags c in
  m_called c5 = false /\ m_read_pos c5 = 0 /\ m_recvbuffer c5 = []
  /\ m_resolve_flags c5 = flags /\ m_redirects c5 = redirects
  /\ m_completion_timeout c5 = timeout /\ m_priority c5 = prio
  /\ m_proxy c5 = match ps with Some p => p | None => m_proxy c end.
Proof. unfold start_prepared. destruct ps; repeat split; reflexivity. Qed.

Lemma start_prepared_frame (A : Type) (f : http_connection -> A) :
  (forall v c, f (set_m_redirects v c) = f c) ->
  (forall v c, f (set_m_resolve_flags v c) = f c) ->
  (forall v c, f (set_m_proxy v c) = f c) ->
  (forall v c, f (set_m_completion_timeout v c) = f c) ->
  (forall v c, f (set_m_called v c) = f c) ->
  (forall v c, f (set_m_parser v c) = f c) ->
  (forall v c, f (set_m_recvbuffer v c) = f c) ->
  (forall v c, f (set_m_read_pos v c) = f c) ->
  (forall v c, f (set_m_priority v c) = f c) ->
  forall timeout prio ps redirects flags c,
    f (start_prepared timeout prio ps redirects flags c) = f c.
Proof.
  intros H1 H2 H3 H4 H5 H6 H7 H8 H9 timeout prio ps redirects flags c.
  unfold start_prepared. cbv zeta. rewrite H9, H8, H7, H6, H5, H4.
  destruct ps; [rewrite H3 |]; now rewrite H2, H1.
Qed.


Lemma fst_pair (A B : Type) (a : A) (b : B) : fst (a, b) = a.
Proof. reflexivity. Qed.

Lemma snd_pair (A B : Type) (a : A) (b : B) : snd (a, b) = b.
Proof. reflexivity. Qed.

Lemma start_fst hostname port timeout prio ps ssl redirects bind_addr flags
    (c : http_connection) :
  fst (start hostname port timeout prio ps ssl redirects bind_addr flags c)
  = fst (start_stream hostname port ps ssl bind_addr
           (start_prepared timeout prio ps redirects flags c)).
Proof. rewrite start_unfold. apply fst_pair. Qed.

Lemma start_snd hostname port timeout prio ps ssl redirects bind_addr flags
    (c : http_connection) :
  snd (start hostname port timeout prio ps ssl redirects bind_addr flags c)
  = Timer_expires_after timeout :: Timer_async_wait
    :: snd (start_stream hostname port ps ssl bind_addr
              (start_prepared timeout prio ps redirects flags c)).
Proof. rewrite start_unfold. apply snd_pair. Qed.
(** [start] on a stream that is open to the same host and port, with
    the same TLS setting and bind address, writes the request on that
    stream: nothing is resolved or connected, and the stream and the
    endpoint list stay as they are.  In every other case nothing is
    written by [start]: the stream is replaced by one that is not
    connected. *)
Theorem start_reuses_matching_stream hostname port timeout prio ps ssl
    redirects bind_addr flags (c : http_connection) :
  let r :=
    start hostname port timeout prio ps ssl redirects bind_addr flags c in
  if reusable hostname port ssl bind_addr c
  then
    snd r = [Timer_expires_after timeout; Timer_async_wait;
             Async_write (m_sendbuffer c)]
    /\ m_sock (fst r) = m_sock c
    /\ m_endpoints (fst r) = m_endpoints c
    /\ m_next_ep (fst r) = m_next_ep c
    /\ m_called (fst r) = false /\ m_read_pos (fst r) = 0
    /\ m_recvbuffer (fst r) = []
  else
    Forall not_write (snd r)
    /\ exists s, m_sock (fst r) = Some s /\ sock_connected s = false.
Proof.
  intros r. subst r. rewrite !start_fst, start_snd.
  pose proof (start_prepared_reusable hostname port ssl bind_addr timeout prio
                ps redirects flags c) as Hr5.
  destruct (reusable hostname port ssl bind_addr c) eqn:Hreuse.
  - rewrite (start_stream_reuses _ _ _ _ _ _ Hr5). cbn [fst snd].
    destruct (start_prepared_reset timeout prio ps redirects flags c)
      as (H1 & H2 & H3 & _).
    rewrite (start_prepared_frame _ m_sendbuffer),
      (start_prepared_frame _ m_sock), (start_prepared_frame _ m_endpoints),
      (start_prepared_frame _ m_next_ep) by reflexivity.
    repeat split; assumption.
  - destruct (start_stream_run hostname port ps ssl bind_addr _ Hr5)
      as (c6 & Hsock & _ & _ & _ & Hrun).
    rewrite Hrun. clear Hrun.
    assert (Hfresh : stream_unconnected c6).
    { exists (bound_stream ps ssl bind_addr). split; [exact Hsock |].
      unfold bound_stream. destruct bind_addr; reflexivity. }
    destruct (keeps_unconnected_start_fresh hostname port ps ssl bind_addr c6
                Hfresh) as [H1 H2].
    split; [repeat constructor; exact H2 | exact H1].
Qed.

Lemma fst_upd f (c : http_connection) : fst (upd f c) = f c.
Proof. reflexivity. Qed.

Lemma snd_upd f (c : http_connection) : snd (upd f c) = [].
Proof. reflexivity. Qed.

Lemma fst_emit a (c : http_connection) : fst (emit a c) = c.
Proof. reflexivity. Qed.

Lemma snd_emit a (c : http_connection) : snd (emit a c) = [a].
Proof. reflexivity. Qed.

(** The connect [start] issues through a SOCKS5 proxy that resolves
    host names (lines 291-293). *)
Lemma socks5_connect_run (hostname : string) (port : Z) (s : socket_type)
    (c : http_connection) :
  ps_proxy_hostnames (m_proxy c) && is_socks5_proxy (ps_type (m_proxy c))
  = true ->
  m_hostname c = hostname -> m_next_ep c = 0 -> m_endpoints c = [] ->
  m_sock c = Some s ->
  let r :=
    (upd (set_m_port (to_uint16 port)) ;;
     upd (fun c => set_m_endpoints
            (m_endpoints c ++ [mk_endpoint address_any (m_port c)]) c) ;;
     connect) c in
  snd r
  = [Async_connect
       (mk_endpoint
          match make_address hostname with
          | Some adr => adr
          | None => address_any
          end (to_uint16 port))]
  /\ m_next_ep (fst r) = 1 /\ m_connecting (fst r) = true
  /\ (make_address hostname = None ->
      m_sock (fst r)
      = Some (socket_start_connect (socket_set_dst_name hostname s)))
  /\ (forall A (f : http_connection -> A),
        (forall v c, f (set_m_port v c) = f c) ->
        (forall v c, f (set_m_endpoints v c) = f c) ->
        (forall v c, f (set_m_sock v c) = f c) ->
        (forall v c, f (set_m_next_ep v c) = f c) ->
        (forall v c, f (set_m_connecting v c) = f c) ->
        f (fst r) = f c).
Proof.
  intros Hp Hh Hn He Hs r. subst r. rewrite !seq_upd.
  set (c8 := set_m_endpoints _ _).
  assert (Hep : m_endpoints c8 = [mk_endpoint address_any (to_uint16 port)])
    by (unfold c8; fields; now rewrite He).
  assert (Hn8 : m_next_ep c8 = 0) by exact Hn.
  assert (Hh8 : m_hostname c8 = hostname) by exact Hh.
  assert (Hs8 : m_sock c8 = Some s) by exact Hs.
  assert (Hp8 : ps_proxy_hostnames (m_proxy c8)
                && is_socks5_proxy (ps_type (m_proxy c8)) = true) by exact Hp.
  assert (G : forall A (f : http_connection -> A),
             (forall v c, f (set_m_port v c) = f c) ->
             (forall v c, f (set_m_endpoints v c) = f c) ->
             f c8 = f c).
  { intros A f H1 H2. unfold c8. now rewrite H2, H1. }
  clearbody c8.
  rewrite connect_run. unfold connect_prepared. rewrite Hp8, Hn8, Hh8.
  unfold endpoints_size.
  destruct (make_address hostname) as [adr |] eqn:Hadr; fields;
    rewrite Hep; cbn [set_first_address List.length Z.of_nat Z.geb Z.compare
                      Z.to_nat nth_error Pos.of_succ_nat fst snd ep_port];
    fields; rewrite ?Hep; cbn [nth_error fst snd]; fields.
  - repeat split; try reflexivity; [discriminate |].
    intros A f H1 H2 H3 H4 H5. rewrite H3, H5, H4, H2. now apply G.
  - repeat split; try reflexivity.
    + intros _. now rewrite Hs8.
    + intros A f H1 H2 H3 H4 H5. rewrite H3, H5, H4, H3. now apply G.
Qed.

(** [start_fresh] on the stream [start_stream] made. *)
Lemma start_fresh_run hostname port ps ssl bind_addr (c6 : http_connection) :
  m_sock c6 = Some (bound_stream ps ssl bind_addr) ->
  (forall p, ps = Some p -> m_proxy c6 = p) ->
  let r := start_fresh hostname port ps ssl bind_addr c6 in
  let tls := TORRENT_USE_SSL && ssl in
  m_ssl (fst r) = m_ssl c6 /\ m_bind_addr (fst r) = m_bind_addr c6
  /\ if is_error (bind_error bind_addr)
     then snd r = [Post_callback (bind_error bind_addr)]
     else if is_error (setup_ssl_hostname tls hostname)
     then snd r = [Post_callback (setup_ssl_hostname tls hostname)]
     else
       m_hostname (fst r) = hostname /\ m_port (fst r) = to_uint16 port
       /\ if socks5_hostnames ps
          then
            snd r
            = [Async_connect
                 (mk_endpoint
                    match make_address hostname with
                    | Some adr => adr
                    | None => address_any
                    end (to_uint16 port))]
            /\ m_next_ep (fst r) = 1 /\ m_connecting (fst r) = true
            /\ m_resolving_host (fst r) = m_resolving_host c6
            /\ (make_address hostname = None ->
                exists s, m_sock (fst r) = Some s
                          /\ sock_dst_name s = Some hostname)
          else
            snd r = [Async_resolve hostname (m_resolve_flags c6)]
            /\ m_resolving_host (fst r) = true
            /\ m_endpoints (fst r) = [] /\ m_next_ep (fst r) = 0
            /\ m_sock (fst r) = Some (fresh_stream hostname ps ssl bind_addr).
Proof.
  intros Hsock Hproxy r tls. subst r. unfold start_fresh. cbv zeta.
  fold tls.
  destruct (is_error (bind_error bind_addr)).
  { rewrite fst_emit, snd_emit. repeat split; reflexivity. }
  rewrite seq_when_on_sock.
  set (c7 := if tls then _ else c6).
  assert (F : forall A (f : http_connection -> A),
             (forall v c, f (set_m_sock v c) = f c) -> f c7 = f c6).
  { intros A f H. unfold c7. destruct tls; [apply H | reflexivity]. }
  assert (Hsock7 : m_sock c7 = Some (fresh_stream hostname ps ssl bind_addr)).
  { unfold c7, fresh_stream. fold tls.
    destruct tls; fields; rewrite Hsock; reflexivity. }
  clearbody c7.
  destruct (is_error (setup_ssl_hostname tls hostname)).
  { rewrite fst_emit, snd_emit.
    rewrite (F _ m_ssl), (F _ m_bind_addr) by reflexivity.
    repeat split; reflexivity. }
  rewrite !seq_upd.
  set (c8 := set_m_hostname hostname _).
  assert (G : forall A (f : http_connection -> A),
             (forall v c, f (set_m_sock v c) = f c) ->
             (forall v c, f (set_m_endpoints v c) = f c) ->
             (forall v c, f (set_m_next_ep v c) = f c) ->
             (forall v c, f (set_m_hostname v c) = f c) ->
             f c8 = f c6).
  { intros A f H1 H2 H3 H4. unfold c8. rewrite H4, H3, H2. now apply F. }
  assert (Hh8 : m_hostname c8 = hostname) by reflexivity.
  assert (Hn8 : m_next_ep c8 = 0) by reflexivity.
  assert (He8 : m_endpoints c8 = []) by reflexivity.
  assert (Hs8 : m_sock c8 = Some (fresh_stream hostname ps ssl bind_addr))
    by exact Hsock7.
  clearbody c8. clear F Hsock7 c7.
  rewrite !fst_seq, !snd_seq, !fst_upd, !snd_upd, app_nil_r.
  destruct (socks5_hostnames ps) eqn:Hsocks.
  - assert (Hp8 : ps_proxy_hostnames (m_proxy c8)
                  && is_socks5_proxy (ps_type (m_proxy c8)) = true).
    { rewrite (G _ m_proxy) by reflexivity.
      unfold socks5_hostnames in Hsocks. destruct ps as [p |]; [| discriminate].
      now rewrite (Hproxy p eq_refl). }
    destruct (socks5_connect_run hostname port _ c8 Hp8 Hh8 Hn8 He8 Hs8)
      as (H1 & H2 & H3 & H4 & H5).
    cbv zeta in H1, H2, H3, H4, H5.
    set (r := (upd (set_m_port (to_uint16 port)) ;; _) c8) in *.
    clearbody r.
    replace (m_ssl (set_m_port (to_uint16 port) (fst r))) with (m_ssl (fst r))
      by reflexivity.
    replace (m_bind_addr (set_m_port (to_uint16 port) (fst r)))
      with (m_bind_addr (fst r)) by reflexivity.
    replace (m_hostname (set_m_port (to_uint16 port) (fst r)))
      with (m_hostname (fst r)) by reflexivity.
    replace (m_port (set_m_port (to_uint16 port) (fst r)))
      with (to_uint16 port) by reflexivity.
    replace (m_next_ep (set_m_port (to_uint16 port) (fst r)))
      with (m_next_ep (fst r)) by reflexivity.
    replace (m_connecting (set_m_port (to_uint16 port) (fst r)))
      with (m_connecting (fst r)) by reflexivity.
    replace (m_resolving_host (set_m_port (to_uint16 port) (fst r)))
      with (m_resolving_host (fst r)) by reflexivity.
    replace (m_sock (set_m_port (to_uint16 port) (fst r)))
      with (m_sock (fst r)) by reflexivity.
    rewrite (H5 _ m_ssl), (H5 _ m_bind_addr), (H5 _ m_hostname),
      (H5 _ m_resolving_host) by reflexivity.
    rewrite (G _ m_ssl), (G _ m_bind_addr), (G _ m_resolving_host)
      by reflexivity.
    repeat split; try assumption; try reflexivity.
    intros Hnone. rewrite (H4 Hnone). eexists. split; reflexivity.
  - rewrite seq_upd. unfold with_this.
    rewrite fst_emit, snd_emit.
    set (c9 := set_m_resolving_host true c8).
    replace (m_resolve_flags c9) with (m_resolve_flags c6)
      by (symmetry; apply (G _ m_resolve_flags); reflexivity).
    replace (m_ssl (set_m_port (to_uint16 port) c9)) with (m_ssl c6)
      by (symmetry; apply (G _ m_ssl); reflexivity).
    replace (m_bind_addr (set_m_port (to_uint16 port) c9)) with (m_bind_addr c6)
      by (symmetry; apply (G _ m_bind_addr); reflexivity).
    repeat split; try assumption; reflexivity.
Qed.

(** What [start] does when it replaces the stream.  A bind that
    fails, and then a TLS host name that cannot be set, is reported by
    a posted callback, and nothing is resolved or connected.
    Otherwise, through a SOCKS5 proxy that resolves host names no
    resolve is issued: the connect goes out at once, to the address the
    host name spells or else to the unspecified address, with the host
    name handed to the stream; in every other case the host is
    resolved, with an empty endpoint list.  The port is stored as a
    16-bit number. *)
Theorem start_on_fresh_stream hostname port timeout prio ps ssl redirects
    bind_addr flags (c : http_connection) :
  reusable hostname port ssl bind_addr c = false ->
  let r :=
    start hostname port timeout prio ps ssl redirects bind_addr flags c in
  let tls := TORRENT_USE_SSL && ssl in
  let armed := [Timer_expires_after timeout; Timer_async_wait] in
  m_ssl (fst r) = ssl /\ m_bind_addr (fst r) = bind_addr
  /\ if is_error (bind_error bind_addr)
     then snd r = armed ++ [Post_callback (bind_error bind_addr)]
     else if is_error (setup_ssl_hostname tls hostname)
     then snd r = armed ++ [Post_callback (setup_ssl_hostname tls hostname)]
     else
       m_hostname (fst r) = hostname /\ m_port (fst r) = to_uint16 port
       /\ if socks5_hostnames ps
          then
            snd r
            = armed
              ++ [Async_connect
                    (mk_endpoint
                       match make_address hostname with
                       | Some adr => adr
                       | None => address_any
                       end (to_uint16 port))]
            /\ m_next_ep (fst r) = 1 /\ m_connecting (fst r) = true
            /\ m_resolving_host (fst r) = m_resolving_host c
            /\ (make_address hostname = None ->
                exists s, m_sock (fst r) = Some s
                          /\ sock_dst_name s = Some hostname)
          else
            snd r = armed ++ [Async_resolve hostname flags]
            /\ m_resolving_host (fst r) = true
            /\ m_endpoints (fst r) = [] /\ m_next_ep (fst r) = 0
            /\ m_sock (fst r) = Some (fresh_stream hostname ps ssl bind_addr).
Proof.
  intros Hreuse r tls armed. subst r armed.
  rewrite !start_fst, start_snd.
  pose proof (start_prepared_reusable hostname port ssl bind_addr timeout prio
                ps redirects flags c) as Hr5.
  rewrite Hreuse in Hr5.
  destruct (start_prepared_reset timeout prio ps redirects flags c)
    as (_ & _ & _ & Hflags & _ & _ & _ & Hproxy).
  cbv zeta in Hflags, Hproxy.
  pose proof (start_prepared_frame _ m_resolving_host
                ltac:(reflexivity) ltac:(reflexivity) ltac:(reflexivity)
                ltac:(reflexivity) ltac:(reflexivity) ltac:(reflexivity)
                ltac:(reflexivity) ltac:(reflexivity) ltac:(reflexivity)
                timeout prio ps redirects flags c) as Hres.
  destruct (start_stream_run hostname port ps ssl bind_addr _ Hr5)
    as (c6 & Hsock & Hssl & Hbind & F6 & Hrun).
  rewrite Hrun. clear Hrun.
  rewrite <- (F6 _ m_resolve_flags) in Hflags by reflexivity.
  rewrite <- (F6 _ m_proxy) in Hproxy by reflexivity.
  rewrite <- (F6 _ m_resolving_host) in Hres by reflexivity.
  clear F6 Hr5.
  assert (Hproxy6 : forall p, ps = Some p -> m_proxy c6 = p)
    by (intros p ->; exact Hproxy).
  destruct (start_fresh_run hostname port ps ssl bind_addr c6 Hsock Hproxy6)
    as (H1 & H2 & H3).
  cbv zeta in H3. fold tls in H3.
  set (r := start_fresh hostname port ps ssl bind_addr c6) in *.
  clearbody r.
  rewrite H1, H2, Hssl, Hbind.
  split; [reflexivity |]. split; [reflexivity |].
  destruct (is_error (bind_error bind_addr)); [now rewrite H3 |].
  destruct (is_error (setup_ssl_hostname tls hostname)); [now rewrite H3 |].
  destruct H3 as (H4 & H5 & H6).
  split; [exact H4 |]. split; [exact H5 |].
  destruct (socks5_hostnames ps).
  - destruct H6 as (H6 & H7 & H8 & H9 & H10).
    rewrite H6, H9, Hres. repeat split; assumption.
  - destruct H6 as (H6 & H7 & H8 & H9 & H10).
    rewrite H6, Hflags. repeat split; assumption.
Qed.

(** ** get *)

(** A [get] that lets the input pass stores the request and calls
    [start] for the target of the request. *)
Lemma get_run (url : string) (timeout prio : Z)
    (ps : option proxy_settings) (redirects : Z) (ua : string)
    (bind_addr : option address) (flags : Z) (auth_ : string)
    (c : http_connection) :
  input_accepted url c = true ->
  get url timeout prio ps redirects ua bind_addr flags auth_ c
  = start (fst (request_target url ps)) (snd (request_target url ps))
      timeout prio ps
      (String.eqb (uc_protocol (parse_url_components url)) "https")
      redirects bind_addr flags (get_prepared url ps ua flags auth_ c).
Proof.
  unfold input_accepted. cbv zeta. intros Hin.
  apply andb_prop in Hin. destruct Hin as [Hin Hproto].
  apply andb_prop in Hin. destruct Hin as [Hec Hfilter].
  apply negb_true_iff in Hec, Hproto.
  unfold get. cbv zeta. rewrite !seq_upd. rewrite Hec.
  unfold with_this at 1. fields.
  replace (match m_hostname_filter_handler c with
           | Some hfh => negb (hfh (uc_hostname (parse_url_components url)))
           | None => false
           end) with false
    by (destruct (m_hostname_filter_handler c);
        [now rewrite Hfilter | reflexivity]).
  rewrite Hproto. rewrite !seq_upd. unfold with_this. fields.
  unfold request_target, request_port, get_prepared, request_text,
    request_auth. cbv zeta.
  destruct ps as [p |]; [destruct (is_http_proxy (ps_type p) && _) |];
    reflexivity.
Qed.

Lemma get_prepared_frame (A : Type) (f : http_connection -> A) :
  (forall v c, f (set_m_user_agent v c) = f c) ->
  (forall v c, f (set_m_resolve_flags v c) = f c) ->
  (forall v c, f (set_m_auth v c) = f c) ->
  (forall v c, f (set_m_sendbuffer v c) = f c) ->
  (forall v c, f (set_m_url v c) = f c) ->
  forall url ps ua flags auth_ c,
    f (get_prepared url ps ua flags auth_ c) = f c.
Proof.
  intros H1 H2 H3 H4 H5 url ps ua flags auth_ c. unfold get_prepared.
  now rewrite H5, H4, H3, H2, H1.
Qed.

(** The members the resolve path of [start_fresh] leaves alone. *)
Lemma start_fresh_resolves_frame hostname port ps ssl bind_addr
    (c6 : http_connection) (A : Type) (f : http_connection -> A) :
  is_error (bind_error bind_addr) = false ->
  is_error (setup_ssl_hostname (TORRENT_USE_SSL && ssl) hostname) = false ->
  socks5_hostnames ps = false ->
  (forall v c, f (set_m_sock v c) = f c) ->
  (forall v c, f (set_m_endpoints v c) = f c) ->
  (forall v c, f (set_m_next_ep v c) = f c) ->
  (forall v c, f (set_m_hostname v c) = f c) ->
  (forall v c, f (set_m_resolving_host v c) = f c) ->
  (forall v c, f (set_m_port v c) = f c) ->
  f (fst (start_fresh hostname port ps ssl bind_addr c6)) = f c6.
Proof.
  intros Hbind Hssl Hsocks H1 H2 H3 H4 H5 H6.
  unfold start_fresh. cbv zeta. rewrite Hbind, Hssl, Hsocks.
  rewrite seq_when_on_sock, !seq_upd, seq_assoc, seq_upd.
  rewrite !fst_seq, fst_upd. unfold with_this. rewrite fst_emit.
  rewrite H6, H5, H4, H3, H2.
  destruct (TORRENT_USE_SSL && ssl); [apply H1 | reflexivity].
Qed.

(** [start] on the path that resolves the host. *)
Lemma start_resolves hostname port timeout prio ps ssl redirects bind_addr
    flags (c : http_connection) :
  reusable hostname port ssl bind_addr c = false ->
  is_error (bind_error bind_addr) = false ->
  is_error (setup_ssl_hostname (TORRENT_USE_SSL && ssl) hostname) = false ->
  socks5_hostnames ps = false ->
  let r :=
    start hostname port timeout prio ps ssl redirects bind_addr flags c in
  snd r = [Timer_expires_after timeout; Timer_async_wait;
           Async_resolve hostname flags]
  /\ m_hostname (fst r) = hostname /\ m_port (fst r) = to_uint16 port
  /\ m_resolving_host (fst r) = true
  /\ m_endpoints (fst r) = [] /\ m_next_ep (fst r) = 0
  /\ m_sock (fst r) = Some (fresh_stream hostname ps ssl bind_addr)
  /\ m_ssl (fst r) = ssl /\ m_bind_addr (fst r) = bind_addr
  /\ (forall A (f : http_connection -> A),
        (forall v c, f (set_m_ssl v c) = f c) ->
        (forall v c, f (set_m_bind_addr v c) = f c) ->
        (forall v c, f (set_m_sock v c) = f c) ->
        (forall v c, f (set_m_endpoints v c) = f c) ->
        (forall v c, f (set_m_next_ep v c) = f c) ->
        (forall v c, f (set_m_hostname v c) = f c) ->
        (forall v c, f (set_m_resolving_host v c) = f c) ->
        (forall v c, f (set_m_port v c) = f c) ->
        f (fst r) = f (start_prepared timeout prio ps redirects flags c)).
Proof.
  intros Hreuse Hbinderr Hsslerr Hsocks r. subst r.
  rewrite !start_fst, start_snd.
  pose proof (start_prepared_reusable hostname port ssl bind_addr timeout prio
                ps redirects flags c) as Hr5.
  rewrite Hreuse in Hr5.
  destruct (start_prepared_reset timeout prio ps redirects flags c)
    as (_ & _ & _ & Hflags & _ & _ & _ & Hproxy).
  cbv zeta in Hflags, Hproxy.
  destruct (start_stream_run hostname port ps ssl bind_addr _ Hr5)
    as (c6 & Hsock & Hssl & Hbind & F6 & Hrun).
  rewrite Hrun. clear Hrun.
  rewrite <- (F6 _ m_resolve_flags) in Hflags by reflexivity.
  rewrite <- (F6 _ m_proxy) in Hproxy by reflexivity.
  assert (Hproxy6 : forall p, ps = Some p -> m_proxy c6 = p)
    by (intros p ->; exact Hproxy).
  destruct (start_fresh_run hostname port ps ssl bind_addr c6 Hsock Hproxy6)
    as (H1 & H2 & H3).
  cbv zeta in H3. rewrite Hbinderr, Hsslerr, Hsocks in H3.
  destruct H3 as (H4 & H5 & H6 & H7 & H8 & H9 & H10).
  pose proof (start_fresh_resolves_frame hostname port ps ssl bind_addr c6)
    as Hframe.
  set (r := start_fresh hostname port ps ssl bind_addr c6) in *.
  clearbody r.
  rewrite H1, H2, H6, Hflags, Hssl, Hbind.
  repeat split; try assumption.
  intros A f G1 G2 G3 G4 G5 G6 G7 G8.
  rewrite (Hframe A f) by assumption. now apply F6.
Qed.

Lemma get_prepared_reusable hostname port ssl bind_addr url ps ua flags auth_
    (c : http_connection) :
  reusable hostname port ssl bind_addr (get_prepared url ps ua flags auth_ c)
  = reusable hostname port ssl bind_addr c.
Proof.
  exact (get_prepared_frame _ (reusable hostname port ssl bind_addr)
           (fun _ _ => eq_refl) (fun _ _ => eq_refl) (fun _ _ => eq_refl)
           (fun _ _ => eq_refl) (fun _ _ => eq_refl) url ps ua flags auth_ c).
Qed.

(** The request of [get] through a plain HTTP proxy, line by line. *)
Lemma request_text_proxy (url : string) (p : proxy_settings) (ua : string)
    (bottled : bool) (auth_ : string) :
  is_http_proxy (ps_type p) = true ->
  String.eqb (uc_protocol (parse_url_components url)) "https" = false ->
  request_text url (Some p) ua bottled auth_
  = serialize (proxy_request_lines url p ua bottled (request_auth url auth_)).
Proof.
  intros Hhttp Hssl.
  unfold request_text, proxy_request_lines, serialize, request_port,
    request_auth.
  cbv zeta. rewrite Hhttp, Hssl. cbn [negb andb].
  rewrite !append_assoc, host_header_spec.
  destruct (ps_type p); try discriminate;
    destruct (string_empty ua), bottled,
      (string_empty
         (if string_empty (uc_auth (parse_url_components url))
          then auth_ else uc_auth (parse_url_components url)));
    cbn [negb app map String.concat];
    rewrite ?append_assoc; reflexivity.
Qed.

(** A [get] through a plain HTTP proxy (type http or http_pw, and not
    an https URL) that lets the input pass: the request line carries
    the whole URL, [Proxy-Authorization: Basic base64(user:password)]
    follows it for a proxy of type http_pw, and the [Host] line and the
    common headers are those of a direct request.  The connection goes
    to the proxy: when the stream is replaced and set up without error
    (the bind and the host name hook of the plain stream give none), it
    is the proxy's host name that is resolved and the proxy's port that
    is stored, and the new stream itself is made without a proxy. *)
Theorem get_through_http_proxy (url : string) (timeout prio : Z)
    (p : proxy_settings) (redirects : Z) (ua : string)
    (bind_addr : option address) (flags : Z) (auth_ : string)
    (c : http_connection) :
  input_accepted url c = true ->
  is_http_proxy (ps_type p) = true ->
  String.eqb (uc_protocol (parse_url_components url)) "https" = false ->
  let r := get url timeout prio (Some p) redirects ua bind_addr flags auth_ c in
  m_sendbuffer (fst r)
  = serialize
      (proxy_request_lines url p ua (m_bottled c) (request_auth url auth_))
  /\ (reusable (ps_hostname p) (ps_port p) false bind_addr c = false ->
      is_error (bind_error bind_addr) = false ->
      is_error (setup_ssl_hostname false (ps_hostname p)) = false ->
      snd r = [Timer_expires_after timeout; Timer_async_wait;
               Async_resolve (ps_hostname p) flags]
      /\ m_hostname (fst r) = ps_hostname p
      /\ m_port (fst r) = to_uint16 (ps_port p)
      /\ exists s, m_sock (fst r) = Some s
                   /\ sock_proxy s = default_proxy_settings).
Proof.
  intros Hin Hhttp Hssl r. subst r.
  rewrite (get_run url timeout prio (Some p) redirects ua bind_addr flags
             auth_ c Hin).
  assert (Htarget : request_target url (Some p) = (ps_hostname p, ps_port p))
    by (unfold request_target; cbv zeta; now rewrite Hhttp, Hssl).
  rewrite Htarget, Hssl, fst_pair, snd_pair.
  split.
  - rewrite (start_frame _ m_sendbuffer) by reflexivity.
    change (request_text url (Some p) ua (m_bottled c) auth_
            = serialize
                (proxy_request_lines url p ua (m_bottled c)
                   (request_auth url auth_))).
    now apply request_text_proxy.
  - intros Hreuse Hbind Htls0.
    assert (Hsocks : socks5_hostnames (Some p) = false).
    { unfold socks5_hostnames. destruct (ps_type p); try discriminate;
        now rewrite andb_false_r. }
    assert (Htls : is_error (setup_ssl_hostname (TORRENT_USE_SSL && false)
                               (ps_hostname p)) = false)
      by (now rewrite andb_false_r).
    clear Htls0.
    rewrite <- (get_prepared_reusable _ _ _ _ url (Some p) ua flags auth_)
      in Hreuse.
    destruct (start_resolves (ps_hostname p) (ps_port p) timeout prio (Some p)
                false redirects bind_addr flags _ Hreuse Hbind Htls Hsocks)
      as (H1 & H2 & H3 & _ & _ & _ & H7 & _).
    cbv zeta in *.
    set (r := start (ps_hostname p) (ps_port p) timeout prio (Some p) false
                redirects bind_addr flags
                (get_prepared url (Some p) ua flags auth_ c)) in *.
    clearbody r.
    repeat split; try assumption.
    eexists. split; [exact H7 |].
    unfold fresh_stream, bound_stream, plain_http_proxy. cbv zeta.
    rewrite Hhttp, andb_false_r. cbn [negb andb].
    now destruct bind_addr.
Qed.

(** ** After close *)

Lemma keeps_aborted_callback e data : keeps aborted idle (callback e data).
Proof. unfold callback, deliver. repeat keeps_step. Qed.

Lemma keeps_aborted_on_assign_bandwidth e :
  keeps aborted idle (on_assign_bandwidth e).
Proof.
  unfold on_assign_bandwidth. repeat keeps_step.
  apply keeps_aborted_callback.
Qed.

Lemma keeps_aborted_on_write e : keeps aborted idle (on_write e).
Proof.
  unfold on_write. repeat keeps_step. apply keeps_aborted_callback.
Qed.

Lemma keeps_aborted_on_timeout e now : keeps aborted idle (on_timeout e now).
Proof. unfold on_timeout. repeat keeps_step. Qed.

Lemma keeps_aborted_close force : keeps aborted idle (close force).
Proof. unfold close. repeat keeps_step. Qed.

Lemma keeps_aborted_on_read e n now : keeps aborted idle (on_read e n now).
Proof. unfold on_read. repeat keeps_step. Qed.

Lemma keeps_aborted_handle ev :
  tests_abort ev = true -> keeps aborted idle (handle ev).
Proof.
  destruct ev; cbn [tests_abort handle]; try discriminate; intros _.
  - apply keeps_aborted_close.
  - apply keeps_aborted_callback.
  - apply keeps_aborted_on_write.
  - keeps_step; [keeps_step | apply keeps_aborted_on_read].
  - apply keeps_aborted_on_timeout.
  - apply keeps_aborted_on_assign_bandwidth.
Qed.

(** A closed connection stays closed and begins nothing when a write,
    a read or one of its two timers completes late, when a posted
    callback runs or when it is closed again: no asynchronous operation
    is started and no timer is armed, whatever these events report. *)
Theorem closed_connection_begins_nothing (evs : list event)
    (c : http_connection) :
  m_abort c = true ->
  forallb tests_abort evs = true ->
  m_abort (fst (run evs c)) = true /\ Forall idle (snd (run evs c)).
Proof.
  intros Ha Hevs.
  assert (H : keeps aborted idle (run evs)).
  { clear c Ha. induction evs as [| ev rest IH]; cbn [run].
    - apply keeps_ret.
    - cbn [forallb] in Hevs. apply andb_prop in Hevs.
      destruct Hevs as [Hev Hrest].
      apply keeps_seq; [now apply keeps_aborted_handle | now apply IH]. }
  exact (H c Ha).
Qed.

(** ** on_write *)

Lemma on_write_run (c : http_connection) :
  m_abort c = false ->
  on_write None c
  = request_read
      (set_m_recvbuffer (resize 4096 (m_recvbuffer c)) (set_m_sendbuffer "" c)).
Proof.
  intros Ha. unfold on_write. cbn [is_operation_aborted is_error].
  unfold with_this. rewrite Ha. now rewrite !seq_upd.
Qed.

Lemma stable_frame_callback_empty (P : http_connection -> Prop) :
  (forall v c, P c -> P (set_m_called v c)) ->
  forall e, stable P (callback e empty_span).
Proof.
  intros Hc e c HP. rewrite callback_empty_run.
  destruct (_ && _); cbn [fst]; auto.
Qed.

(** The members [request_read] leaves alone. *)
Lemma request_read_frame (A : Type) (f : http_connection -> A) :
  (forall v c, f (set_m_called v c) = f c) ->
  (forall v c, f (set_m_limiter_timer_active v c) = f c) ->
  (forall v c, f (set_m_download_quota v c) = f c) ->
  forall c, f (fst (request_read c)) = f c.
Proof.
  intros H1 H2 H3 c.
  assert (Hst : stable (fun c' => f c' = f c) request_read).
  { unfold request_read, on_assign_bandwidth. frame_step.
    all: try (apply stable_frame_callback_empty; intros; cbv beta;
              now rewrite H1).
    all: try (intros; cbv beta; congruence). }
  now apply Hst.
Qed.

(** The completion of the write of the request, on a connection that
    is not closed.  An aborted write does nothing.  A failed one leaves
    the request in the send buffer and goes to [callback]: the handler
    gets the error and no data, except that nothing happens when the
    connection is bottled and has made its callback, and that the
    handler is not invoked when the connection has dropped it.  After a
    write that succeeded the send buffer is empty, the receive buffer
    has 4096 bytes, and the first read is issued at the read position:
    for what is left of the 4096 bytes when no rate limit is set or the
    quota covers it, for the quota when the quota is smaller and not
    zero; with a quota of zero nothing is issued while the limiter
    timer runs, and otherwise the limiter's handler runs at once: on a
    stream that is not open it reports eof through [callback], on an
    open one the quota is refilled with a quarter of the rate limit,
    the read is issued for at most that, and the limiter is armed for
    250 ms.  Every size is given to the stream as a [std::size_t], so
    that a negative one (from a negative quota, or a read position past
    4096) stands for [2^64] minus its magnitude. *)
Theorem on_write_paths (e : error_code) (c : http_connection) :
  m_abort c = false ->
  let r := on_write e c in
  let pos := m_read_pos c in
  if is_operation_aborted e then r = (c, [])
  else if is_error e
  then m_sendbuffer (fst r) = m_sendbuffer c /\ snd r = reports e c
  else
    m_sendbuffer (fst r) = ""
    /\ size (m_recvbuffer (fst r)) = 4096
    /\ (m_rate_limit c <= 0 \/ 4096 - pos <= m_download_quota c ->
        snd r = [Async_read_some pos (to_size_t (4096 - pos))])
    /\ (0 < m_rate_limit c -> m_download_quota c < 4096 - pos ->
        (m_download_quota c <> 0 ->
         snd r = [Async_read_some pos (to_size_t (m_download_quota c))])
        /\ (m_download_quota c = 0 -> m_limiter_timer_active c = true ->
            snd r = [])
        /\ (m_download_quota c = 0 -> m_limiter_timer_active c = false ->
            if sock_open c
            then
              snd r
              = [Async_read_some pos
                   (to_size_t
                      (Z.min (4096 - pos) (Z.quot (m_rate_limit c) 4)));
                 Limiter_expires_after 250; Limiter_async_wait]
              /\ m_download_quota (fst r) = Z.quot (m_rate_limit c) 4
            else snd r = reports (Some eof) c)).
Proof.
  intros Ha r pos. subst r pos.
  destruct (is_operation_aborted e) eqn:Hop.
  { unfold on_write. now rewrite Hop. }
  destruct (is_error e) eqn:He.
  { unfold on_write. rewrite Hop, He. split.
    - now rewrite (callback_frame _ m_sendbuffer) by reflexivity.
    - apply callback_reports. }
  destruct e; [discriminate |]. rewrite (on_write_run c Ha).
  set (c1 := set_m_recvbuffer _ _).
  assert (Hsend : m_sendbuffer c1 = "") by reflexivity.
  assert (Hsize : size (m_recvbuffer c1) = 4096)
    by (apply (size_resize 4096 (m_recvbuffer c)); lia).
  assert (Hpos : m_read_pos c1 = m_read_pos c) by reflexivity.
  assert (Hrate : m_rate_limit c1 = m_rate_limit c) by reflexivity.
  assert (Hquota : m_download_quota c1 = m_download_quota c) by reflexivity.
  assert (Hlim : m_limiter_timer_active c1 = m_limiter_timer_active c)
    by reflexivity.
  assert (Hopen : sock_open c1 = sock_open c) by reflexivity.
  assert (Hab : m_abort c1 = false) by exact Ha.
  assert (Hrep : reports (Some eof) c1 = reports (Some eof) c)
    by (apply reports_frame; reflexivity).
  clearbody c1.
  split; [now rewrite (request_read_frame _ m_sendbuffer) by reflexivity |].
  split.
  { now rewrite (request_read_frame _ (fun c => size (m_recvbuffer c)))
      by reflexivity. }
  unfold request_read, with_this.
  rewrite Hsize, Hpos, Hrate, Hquota, Hlim.
  split.
  { intros Hfree.
    replace ((m_rate_limit c >? 0)
             && (4096 - m_read_pos c >? m_download_quota c)) with false
      by (symmetry; apply andb_false_iff; rewrite !Z.gtb_ltb, !Z.ltb_ge; lia).
    reflexivity. }
  intros Hr Hq.
  replace ((m_rate_limit c >? 0)
           && (4096 - m_read_pos c >? m_download_quota c)) with true
    by (symmetry; apply andb_true_iff; rewrite !Z.gtb_ltb, !Z.ltb_lt; lia).
  split; [| split].
  - intros Hne. apply Z.eqb_neq in Hne. now rewrite Hne.
  - intros H0 Hact. rewrite H0, Hact. reflexivity.
  - intros H0 Hact. rewrite H0, Hact. cbn [Z.eqb negb when].
    unfold on_assign_bandwidth, with_this.
    rewrite Hlim, Hact, Hopen. cbn [is_operation_aborted andb orb].
    destruct (sock_open c) eqn:Ho; cbn [negb].
    + rewrite Hab, Hquota, H0.
      cbn [is_error Z.gtb Z.compare].
      rewrite seq_upd, seq_upd.
      replace (sock_open _) with true by (symmetry; exact Hopen).
      cbn [negb].
      replace (m_read_pos _) with (m_read_pos c) by (symmetry; exact Hpos).
      replace (m_recvbuffer _) with (m_recvbuffer c1) by reflexivity.
      replace (m_download_quota _) with (Z.quot (m_rate_limit c1) 4)
        by reflexivity.
      rewrite Hsize, Hrate.
      replace (if 4096 - m_read_pos c >? Z.quot (m_rate_limit c) 4
               then Z.quot (m_rate_limit c) 4 else 4096 - m_read_pos c)
        with (Z.min (4096 - m_read_pos c) (Z.quot (m_rate_limit c) 4))
        by (rewrite Z.gtb_ltb;
            destruct (Z.ltb_spec (Z.quot (m_rate_limit c) 4)
                        (4096 - m_read_pos c)); lia).
      split; reflexivity.
    + rewrite callback_reports. exact Hrep.
Qed.

(** ** From the request to the first read *)

(** [get] on the path that resolves the host of the request. *)
Lemma get_resolves (url : string) (timeout prio : Z)
    (ps : option proxy_settings) (redirects : Z) (ua : string)
    (bind_addr : option address) (flags : Z) (auth_ : string)
    (c : http_connection) :
  let host := fst (request_target url ps) in
  let port := snd (request_target url ps) in
  let ssl := String.eqb (uc_protocol (parse_url_components url)) "https" in
  input_accepted url c = true ->
  reusable host port ssl bind_addr c = false ->
  is_error (bind_error bind_addr) = false ->
  is_error (setup_ssl_hostname (TORRENT_USE_SSL && ssl) host) = false ->
  socks5_hostnames ps = false ->
  let r := get url timeout prio ps redirects ua bind_addr flags auth_ c in
  snd r = [Timer_expires_after timeout; Timer_async_wait;
           Async_resolve host flags]
  /\ m_endpoints (fst r) = [] /\ m_next_ep (fst r) = 0
  /\ m_port (fst r) = to_uint16 port /\ m_bind_addr (fst r) = bind_addr
  /\ m_proxy (fst r) = match ps with Some p => p | None => m_proxy c end
  /\ m_sendbuffer (fst r) = request_text url ps ua (m_bottled c) auth_
  /\ m_read_pos (fst r) = 0
  /\ m_filter_handler (fst r) = m_filter_handler c
  /\ m_connect_handler (fst r) = m_connect_handler c
  /\ m_abort (fst r) = m_abort c
  /\ m_rate_limit (fst r) = m_rate_limit c.
Proof.
  intros host port ssl Hin Hreuse Hbind Hssl Hsocks r. subst r.
  rewrite (get_run url timeout prio ps redirects ua bind_addr flags auth_ c
             Hin).
  fold host port ssl.
  rewrite <- (get_prepared_reusable _ _ _ _ url ps ua flags auth_) in Hreuse.
  destruct (start_resolves host port timeout prio ps ssl redirects bind_addr
              flags _ Hreuse Hbind Hssl Hsocks)
    as (H1 & _ & H3 & _ & H5 & H6 & _ & _ & H9 & F).
  cbv zeta in *.
  destruct (start_prepared_reset timeout prio ps redirects flags
              (get_prepared url ps ua flags auth_ c))
    as (_ & Hpos & _ & _ & _ & _ & _ & Hproxy).
  cbv zeta in Hpos, Hproxy.
  set (c0 := get_prepared url ps ua flags auth_ c) in *.
  assert (Hp0 : m_proxy c0 = m_proxy c) by reflexivity.
  assert (Hs0 : m_sendbuffer c0 = request_text url ps ua (m_bottled c) auth_)
    by reflexivity.
  assert (Hf0 : m_filter_handler c0 = m_filter_handler c) by reflexivity.
  assert (Hc0 : m_connect_handler c0 = m_connect_handler c) by reflexivity.
  assert (Ha0 : m_abort c0 = m_abort c) by reflexivity.
  assert (Hr0 : m_rate_limit c0 = m_rate_limit c) by reflexivity.
  clearbody c0.
  set (c5 := start_prepared timeout prio ps redirects flags c0) in *.
  assert (Hs5 : m_sendbuffer c5 = m_sendbuffer c0)
    by (apply (start_prepared_frame _ m_sendbuffer); reflexivity).
  assert (Hf5 : m_filter_handler c5 = m_filter_handler c0)
    by (apply (start_prepared_frame _ m_filter_handler); reflexivity).
  assert (Hc5 : m_connect_handler c5 = m_connect_handler c0)
    by (apply (start_prepared_frame _ m_connect_handler); reflexivity).
  assert (Ha5 : m_abort c5 = m_abort c0)
    by (apply (start_prepared_frame _ m_abort); reflexivity).
  assert (Hr5 : m_rate_limit c5 = m_rate_limit c0)
    by (apply (start_prepared_frame _ m_rate_limit); reflexivity).
  clearbody c5.
  set (r := start host port timeout prio ps ssl redirects bind_addr flags c0)
    in *.
  clearbody r.
  rewrite (F _ m_proxy), (F _ m_sendbuffer), (F _ m_read_pos),
    (F _ m_filter_handler), (F _ m_connect_handler), (F _ m_abort),
    (F _ m_rate_limit) by reflexivity.
  rewrite Hproxy, Hp0, Hs5, Hs0, Hf5, Hf0, Hc5, Hc0, Ha5, Ha0, Hr5, Hr0.
  repeat split; assumption.
Qed.

Lemma random_shuffle_nil : random_shuffle [] = [].
Proof.
  apply Permutation_nil, random_shuffle_permutes.
Qed.

(** [on_resolve] with a usable endpoint connects to the first one. *)
Lemma on_resolve_first_connect (addresses : list address) (now : Z)
    (c : http_connection) (ep : endpoint) (rest : list endpoint) :
  m_next_ep c = 0 ->
  ps_proxy_hostnames (m_proxy c) && is_socks5_proxy (ps_type (m_proxy c))
  = false ->
  usable_endpoints addresses c = ep :: rest ->
  let r := on_resolve None addresses now c in
  snd r = [Async_connect ep]
  /\ m_next_ep (fst r) = 1 /\ m_endpoints (fst r) = ep :: rest
  /\ m_connecting (fst r) = true /\ m_start_time (fst r) = now
  /\ forall A (f : http_connection -> A),
       (forall v c, f (set_m_resolving_host v c) = f c) ->
       (forall v c, f (set_m_start_time v c) = f c) ->
       (forall v c, f (set_m_endpoints v c) = f c) ->
       (forall v c, f (set_m_next_ep v c) = f c) ->
       (forall v c, f (set_m_connecting v c) = f c) ->
       (forall v c, f (set_m_sock v c) = f c) ->
       f (fst r) = f c.
Proof.
  intros Hn Hproxy Huse r. subst r.
  rewrite (on_resolve_run None addresses now c eq_refl). cbv zeta.
  rewrite Huse.
  destruct (resolved_endpoints addresses c) as [| r0 rs] eqn:Hres.
  { exfalso. unfold usable_endpoints in Huse. rewrite Hres in Huse.
    rewrite random_shuffle_nil in Huse. now destruct (m_bind_addr c). }
  replace (match m_bind_addr c with
           | Some _ | _ => connect
                             (set_m_endpoints (ep :: rest)
                                (set_m_endpoints (r0 :: rs)
                                   (set_m_start_time now
                                      (set_m_resolving_host false c))))
           end)
    with (connect
            (set_m_endpoints (ep :: rest)
               (set_m_endpoints (r0 :: rs)
                  (set_m_start_time now (set_m_resolving_host false c)))))
    by (now destruct (m_bind_addr c)).
  set (c3 := set_m_endpoints (ep :: rest) _).
  assert (Hp3 : m_proxy c3 = m_proxy c) by reflexivity.
  assert (Hn3 : m_next_ep c3 = 0) by exact Hn.
  assert (He3 : m_endpoints c3 = ep :: rest) by reflexivity.
  assert (Ht3 : m_start_time c3 = now) by reflexivity.
  assert (F3 : forall A (f : http_connection -> A),
             (forall v c, f (set_m_resolving_host v c) = f c) ->
             (forall v c, f (set_m_start_time v c) = f c) ->
             (forall v c, f (set_m_endpoints v c) = f c) ->
             f c3 = f c).
  { intros A f G1 G2 G3. unfold c3. now rewrite !G3, G2, G1. }
  clearbody c3. rewrite connect_run. cbv zeta.
  assert (Hprep : connect_prepared c3 = c3)
    by (unfold connect_prepared; now rewrite Hp3, Hproxy).
  rewrite Hprep, Hn3. unfold endpoints_size. rewrite He3.
  cbn [List.length Z.to_nat nth_error].
  replace (0 >=? Z.of_nat (S (List.length rest))) with false
    by (symmetry; rewrite Z.geb_leb; apply Z.leb_gt; lia).
  rewrite fst_pair, snd_pair.
  split; [reflexivity |].
  split; [reflexivity |].
  split; [exact He3 |].
  split; [reflexivity |].
  split; [exact Ht3 |].
  intros A f G1 G2 G3 G4 G5 G6. rewrite G6, G5, G4. now apply F3.
Qed.

(** A connect that succeeded writes the request. *)
Lemma on_connect_success (now : Z) (c : http_connection) :
  let r := handle (Ev_on_connect None now) c in
  snd r = (if m_connect_handler c then [Connect_handler] else [])
          ++ [Async_write (m_sendbuffer c)]
  /\ forall A (f : http_connection -> A),
       (forall v c, f (set_m_sock v c) = f c) ->
       (forall v c, f (set_m_connecting v c) = f c) ->
       (forall v c, f (set_m_last_receive v c) = f c) ->
       (forall v c, f (set_m_start_time v c) = f c) ->
       f (fst r) = f c.
Proof.
  intros r. subst r. cbn [handle is_error negb].
  change (when true (on_sock socket_connected)) with (on_sock socket_connected).
  rewrite seq_on_sock. unfold on_connect. rewrite !seq_upd.
  unfold with_this. cbn [is_error negb].
  set (c3 := set_m_start_time now _).
  assert (Hh : m_connect_handler c3 = m_connect_handler c) by reflexivity.
  assert (Hs : m_sendbuffer c3 = m_sendbuffer c) by reflexivity.
  assert (F3 : forall A (f : http_connection -> A),
             (forall v c, f (set_m_sock v c) = f c) ->
             (forall v c, f (set_m_connecting v c) = f c) ->
             (forall v c, f (set_m_last_receive v c) = f c) ->
             (forall v c, f (set_m_start_time v c) = f c) ->
             f c3 = f c).
  { intros A f G1 G2 G3 G4. unfold c3. now rewrite G4, G3, G2, G1. }
  clearbody c3. rewrite Hh, Hs.
  destruct (m_connect_handler c); cbn [when].
  - split; [reflexivity |]. exact F3.
  - rewrite seq_ret. split; [reflexivity |]. exact F3.
Qed.

(** Without a rate limit the write of the request is followed by a
    read for what is left of 4096 bytes. *)
Lemma on_write_first_read (c : http_connection) :
  m_abort c = false -> m_rate_limit c <= 0 ->
  snd (on_write None c)
  = [Async_read_some (m_read_pos c) (to_size_t (4096 - m_read_pos c))].
Proof.
  intros Ha Hr. rewrite (on_write_run c Ha).
  set (c1 := set_m_recvbuffer _ _).
  assert (Hsize : size (m_recvbuffer c1) = 4096)
    by (apply (size_resize 4096 (m_recvbuffer c)); lia).
  assert (Hpos : m_read_pos c1 = m_read_pos c) by reflexivity.
  assert (Hrate : m_rate_limit c1 = m_rate_limit c) by reflexivity.
  clearbody c1. unfold request_read, with_this.
  rewrite Hsize, Hpos, Hrate.
  replace (m_rate_limit c >? 0) with false
    by (symmetry; rewrite Z.gtb_ltb; apply Z.ltb_ge; lia).
  reflexivity.
Qed.

Lemma run_snd_cons (ev : event) (rest : list event) (c : http_connection) :
  snd (run (ev :: rest) c)
  = snd (handle ev c) ++ snd (run rest (fst (handle ev c))).
Proof. cbn [run]. apply snd_seq. Qed.

(** A request that takes the usual way: [get] makes a new stream and
    resolves the host, the resolver answers, the connect to the first
    usable endpoint succeeds and the write of the request completes, on
    a connection that is not closed, has no rate limit and does not
    leave the host name to a SOCKS5 proxy.  The connection then has
    armed the timer, resolved the host, connected to that endpoint
    (the resolved addresses with the port of the request, as the
    endpoint filter, the shuffle and the bind address leave them),
    told the connect handler if one is installed, written the request
    [get] built, and issued one read of 4096 bytes at position 0;
    nothing else. *)
Theorem request_reaches_first_read (url : string) (timeout prio : Z)
    (ps : option proxy_settings) (redirects : Z) (ua : string)
    (bind_addr : option address) (flags : Z) (auth_ : string)
    (addresses : list address) (t1 t2 : Z) (c : http_connection)
    (ep : endpoint) (rest : list endpoint) :
  let host := fst (request_target url ps) in
  let port := snd (request_target url ps) in
  let ssl := String.eqb (uc_protocol (parse_url_components url)) "https" in
  let proxy := match ps with Some p => p | None => m_proxy c end in
  let resolved :=
    map (fun addr => mk_endpoint addr (to_uint16 port)) addresses in
  let shuffled :=
    random_shuffle
      match m_filter_handler c with
      | Some fh => fh resolved
      | None => resolved
      end in
  input_accepted url c = true ->
  reusable host port ssl bind_addr c = false ->
  is_error (bind_error bind_addr) = false ->
  is_error (setup_ssl_hostname (TORRENT_USE_SSL && ssl) host) = false ->
  ps_proxy_hostnames proxy && is_socks5_proxy (ps_type proxy) = false ->
  m_abort c = false -> m_rate_limit c <= 0 ->
  match bind_addr with
  | Some b => filter (fun ep => Bool.eqb (endpoint_is_v4 ep) (is_v4 b)) shuffled
  | None => shuffled
  end = ep :: rest ->
  snd (run [Ev_get url timeout prio ps redirects ua bind_addr flags auth_;
            Ev_on_resolve None addresses t1;
            Ev_on_connect None t2;
            Ev_on_write None] c)
  = [Timer_expires_after timeout; Timer_async_wait; Async_resolve host flags;
     Async_connect ep]
    ++ (if m_connect_handler c then [Connect_handler] else [])
    ++ [Async_write (request_text url ps ua (m_bottled c) auth_);
        Async_read_some 0 4096].
Proof.
  intros host port ssl proxy resolved shuffled Hin Hreuse Hbind Hssl Hproxy
    Ha Hrate Huse.
  assert (Hsocks : socks5_hostnames ps = false)
    by (subst proxy; destruct ps; [exact Hproxy | reflexivity]).
  destruct (get_resolves url timeout prio ps redirects ua bind_addr flags
              auth_ c Hin Hreuse Hbind Hssl Hsocks)
    as (G1 & G2 & G3 & G4 & G5 & G6 & G7 & G8 & G9 & G10 & G11 & G12).
  cbv zeta in *. fold host port ssl in G1, G4.
  rewrite run_snd_cons.
  change (handle (Ev_get url timeout prio ps redirects ua bind_addr flags
                    auth_) c)
    with (get url timeout prio ps redirects ua bind_addr flags auth_ c).
  set (c1 := fst (get url timeout prio ps redirects ua bind_addr flags auth_
                    c)) in *.
  rewrite G1. clear G1. clearbody c1.
  (* the resolver answers *)
  assert (Huse1 : usable_endpoints addresses c1 = ep :: rest).
  { unfold usable_endpoints, resolved_endpoints.
    rewrite G2, G4, G5, G9. exact Huse. }
  unfold proxy in Hproxy. rewrite <- G6 in Hproxy.
  destruct (on_resolve_first_connect addresses t1 c1 ep rest G3 Hproxy Huse1)
    as (R1 & _ & _ & _ & _ & FR).
  cbv zeta in *.
  rewrite run_snd_cons.
  change (handle (Ev_on_resolve None addresses t1) c1)
    with (on_resolve None addresses t1 c1).
  set (c2 := fst (on_resolve None addresses t1 c1)) in *.
  rewrite R1. clear R1.
  assert (S2 : m_sendbuffer c2 = m_sendbuffer c1)
    by (apply (FR _ m_sendbuffer); reflexivity).
  assert (H2 : m_connect_handler c2 = m_connect_handler c1)
    by (apply (FR _ m_connect_handler); reflexivity).
  assert (A2 : m_abort c2 = m_abort c1)
    by (apply (FR _ m_abort); reflexivity).
  assert (L2 : m_rate_limit c2 = m_rate_limit c1)
    by (apply (FR _ m_rate_limit); reflexivity).
  assert (P2 : m_read_pos c2 = m_read_pos c1)
    by (apply (FR _ m_read_pos); reflexivity).
  clear FR. clearbody c2.
  (* the connect succeeds *)
  destruct (on_connect_success t2 c2) as (C1 & FC). cbv zeta in *.
  rewrite run_snd_cons.
  set (c3 := fst (handle (Ev_on_connect None t2) c2)) in *.
  rewrite C1. clear C1.
  assert (A3 : m_abort c3 = m_abort c2)
    by (apply (FC _ m_abort); reflexivity).
  assert (L3 : m_rate_limit c3 = m_rate_limit c2)
    by (apply (FC _ m_rate_limit); reflexivity).
  assert (P3 : m_read_pos c3 = m_read_pos c2)
    by (apply (FC _ m_read_pos); reflexivity).
  clear FC. clearbody c3.
  (* the write completes *)
  rewrite run_snd_cons.
  change (handle (Ev_on_write None) c3) with (on_write None c3).
  rewrite on_write_first_read
    by (rewrite ?A3, ?A2, ?G11, ?L3, ?L2, ?G12; assumption).
  rewrite P3, P2, G8, S2, H2, G7, G10.
  cbn [run ret snd]. rewrite app_nil_r.
  cbn [app Z.sub Z.opp]. rewrite <- !app_assoc. reflexivity.
Qed.

(** ** on_assign_bandwidth *)

Lemma to_size_t_negative (n : Z) :
  -18446744073709551616 <= n < 0 ->
  to_size_t n = 18446744073709551616 + n.
Proof.
  intros H. unfold to_size_t.
  rewrite <- (Z.mod_add n 1) by lia.
  rewrite Z.mod_small by lia. lia.
Qed.

(** The tick of the limiter.  When the wait was cancelled while the
    limiter was marked active, or the stream is not open, eof goes to
    [callback]: the handler gets eof and no data, except that nothing
    happens when the connection is bottled and has made its callback,
    and that the handler is not invoked when the connection has dropped
    it.  Otherwise the limiter is marked inactive, and nothing more
    happens after an error, on a closed connection or while quota is
    left.  With the quota used up it is refilled with a quarter of the
    rate limit (rounded towards zero), one read is issued at the read
    position for the room left in the buffer but at most the quota, and
    the limiter is armed for another 250 ms.  The size of the read is
    given to the stream as a [std::size_t]: under a rate limit from 0
    to 3 the quota is 0 and the read asks for no bytes, and a negative
    size (from a negative rate limit, or a read position past the
    buffer) stands for [2^64] minus its magnitude. *)
Theorem on_assign_bandwidth_paths (e : error_code) (c : http_connection) :
  let r := on_assign_bandwidth e c in
  let room := size (m_recvbuffer c) - m_read_pos c in
  let amount := Z.min room (Z.quot (m_rate_limit c) 4) in
  if (is_operation_aborted e && m_limiter_timer_active c)
     || negb (sock_open c)
  then
    m_limiter_timer_active (fst r) = m_limiter_timer_active c
    /\ m_download_quota (fst r) = m_download_quota c
    /\ snd r = reports (Some eof) c
  else if is_error e || m_abort c || (m_download_quota c >? 0)
  then
    snd r = [] /\ m_limiter_timer_active (fst r) = false
    /\ m_download_quota (fst r) = m_download_quota c
  else
    snd r = [Async_read_some (m_read_pos c) (to_size_t amount);
             Limiter_expires_after 250; Limiter_async_wait]
    /\ m_limiter_timer_active (fst r) = true
    /\ m_download_quota (fst r) = Z.quot (m_rate_limit c) 4
    /\ (0 <= m_rate_limit c < 4 -> 0 <= room -> to_size_t amount = 0)
    /\ (-18446744073709551616 <= amount < 0 ->
        to_size_t amount = 18446744073709551616 + amount).
Proof.
  intros r room amount. subst r room amount.
  unfold on_assign_bandwidth, with_this.
  destruct ((is_operation_aborted e && m_limiter_timer_active c)
            || negb (sock_open c)) eqn:Hfirst.
  { rewrite (callback_frame _ m_limiter_timer_active),
      (callback_frame _ m_download_quota) by reflexivity.
    split; [reflexivity |]. split; [reflexivity |].
    apply callback_reports. }
  apply orb_false_iff in Hfirst. destruct Hfirst as [_ Hopen].
  apply negb_false_iff in Hopen.
  rewrite seq_upd.
  destruct (is_error e); [now repeat split |].
  destruct (m_abort c); [now repeat split |].
  destruct (m_download_quota c >? 0); [now repeat split |].
  cbn [orb]. rewrite seq_upd.
  replace (sock_open _) with true by (symmetry; exact Hopen).
  cbn [negb].
  replace (m_read_pos _) with (m_read_pos c) by reflexivity.
  replace (m_recvbuffer _) with (m_recvbuffer c) by reflexivity.
  replace (m_download_quota _) with (Z.quot (m_rate_limit c) 4)
    by reflexivity.
  replace (if size (m_recvbuffer c) - m_read_pos c >? Z.quot (m_rate_limit c) 4
           then Z.quot (m_rate_limit c) 4
           else size (m_recvbuffer c) - m_read_pos c)
    with (Z.min (size (m_recvbuffer c) - m_read_pos c)
            (Z.quot (m_rate_limit c) 4))
    by (rewrite Z.gtb_ltb;
        destruct (Z.ltb_spec (Z.quot (m_rate_limit c) 4)
                    (size (m_recvbuffer c) - m_read_pos c)); lia).
  split; [reflexivity |]. split; [reflexivity |]. split; [reflexivity |].
  split.
  - intros Hr Hroom.
    replace (Z.quot (m_rate_limit c) 4) with 0
      by (symmetry; apply Z.quot_small; lia).
    rewrite Z.min_r by exact Hroom. reflexivity.
  - apply to_size_t_negative.
Qed.

(** ** Reads that fail *)

(** [on_read] for a read whose bytes the parser rejects. *)
Lemma on_read_rejected (n now : Z) (parser' : http_parser)
    (c : http_connection) :
  m_abort c = false ->
  m_bottled c || negb (header_finished (m_parser c)) = true ->
  parser_incoming (m_parser c)
    (firstn (Z.to_nat (m_read_pos c + n)) (m_recvbuffer c)) = (parser', true) ->
  on_read None n now c
  = callback (Some http_parse_error) empty_span (after_read n parser' c).
Proof.
  intros Habort Hbranch Hparse.
  unfold on_read, after_read.
  cbn [is_operation_aborted is_eof_or_shut_down is_error]. step.
  destruct (negb (m_rate_limit c =? 0)); step;
    rewrite Habort; step; rewrite Hbranch, Hparse; step; reflexivity.
Qed.

(** [on_read] for a read that failed, other than by the end of the
    stream. *)
Lemma on_read_failed (e : error_code) (n now : Z) (c : http_connection) :
  is_error e = true -> is_operation_aborted e = false ->
  is_eof_or_shut_down e = false -> m_abort c = false ->
  on_read e n now c
  = callback e empty_span
      (if negb (m_rate_limit c =? 0)
       then set_m_download_quota (m_download_quota c - n) c
       else c).
Proof.
  intros He Hop Heof Ha. unfold on_read. rewrite Hop, Heof, He. step.
  destruct (negb (m_rate_limit c =? 0)); step; rewrite Ha; reflexivity.
Qed.

(** Reads that fail, on a connection that is not closed, holds a
    handler and has not made a bottled callback.  A read that was
    aborted touches nothing but the quota, which is charged under a rate
    limit before the error is looked at.  A read that failed otherwise
    (the end of the stream apart) gives its error to the handler,
    without data, and leaves the read position where it was.  Bytes the
    parser rejects give the handler http_parse_error without data.  In
    the last two cases no further read is issued. *)
Theorem on_read_failures (e : error_code) (n now : Z) (c : http_connection) :
  m_abort c = false -> m_handler c = true ->
  m_bottled c && m_called c = false ->
  let r := on_read e n now c in
  (is_operation_aborted e = true ->
   snd r = [] /\ m_called (fst r) = m_called c
   /\ m_read_pos (fst r) = m_read_pos c
   /\ m_download_quota (fst r)
      = if m_rate_limit c =? 0 then m_download_quota c
        else m_download_quota c - n)
  /\ (is_error e = true -> is_operation_aborted e = false ->
      is_eof_or_shut_down e = false ->
      snd r = [Timer_cancel; Handler e []]
      /\ m_called (fst r) = true /\ m_read_pos (fst r) = m_read_pos c)
  /\ (e = None ->
      m_bottled c || negb (header_finished (m_parser c)) = true ->
      forall parser',
        parser_incoming (m_parser c)
          (firstn (Z.to_nat (m_read_pos c + n)) (m_recvbuffer c))
        = (parser', true) ->
        snd r = [Timer_cancel; Handler (Some http_parse_error) []]
        /\ m_called (fst r) = true /\ m_parser (fst r) = parser').
Proof.
  intros Ha Hh Hcalled r. subst r.
  split; [| split].
  - intros Hop. unfold on_read. rewrite Hop, seq_with_this.
    destruct (m_rate_limit c =? 0) eqn:Hrate; cbn [negb]; step;
      repeat split; reflexivity.
  - intros He Hop Heof. rewrite (on_read_failed e n now c He Hop Heof Ha).
    set (c1 := if negb (m_rate_limit c =? 0) then _ else c).
    assert (H1 : m_bottled c1 && m_called c1 = false)
      by (unfold c1; destruct (negb (m_rate_limit c =? 0)); exact Hcalled).
    assert (H2 : m_handler c1 = true)
      by (unfold c1; destruct (negb (m_rate_limit c =? 0)); exact Hh).
    assert (H3 : m_read_pos c1 = m_read_pos c)
      by (unfold c1; destruct (negb (m_rate_limit c =? 0)); reflexivity).
    clearbody c1. rewrite callback_empty_run, H1, H2.
    repeat split; first [reflexivity | exact H3].
  - intros -> Hbranch parser' Hparse.
    rewrite (on_read_rejected n now parser' c Ha Hbranch Hparse).
    set (c1 := after_read n parser' c).
    assert (H1 : m_bottled c1 && m_called c1 = false)
      by (unfold c1, after_read; destruct (negb (m_rate_limit c =? 0)); exact Hcalled).
    assert (H2 : m_handler c1 = true)
      by (unfold c1, after_read; destruct (negb (m_rate_limit c =? 0)); exact Hh).
    assert (H3 : m_parser c1 = parser') by reflexivity.
    clearbody c1. rewrite callback_empty_run, H1, H2.
    repeat split; first [reflexivity | exact H3].
Qed.

(** ** The handler is reached unless the connection is closed *)

















(** *** callback and close settle the call *)





















(** *** start and get *)









(** *** The handlers of the event loop *)








(** *** Only close sets [m_abort] *)
















(** *** Runs *)






End Properties.

(** * Concrete runs *)

(** C1. A bottled [get] whose response announces gzip but does not
    inflate: the read that completes the response goes through the
    inflate-error return of [callback], which invokes the handler but
    does not set [m_called]; [on_read] issues the next read, and on its
    end-of-file completion [callback] takes the same path again.  The
    handler is invoked twice for one [get]. *)
Theorem C1_gzip_error_path_delivers_twice :
  let evs :=
    Example.request_sent
    ++ [Ev_on_read None Example.not_gzip_response 3;
        Ev_on_read (Some eof) [] 4] in
  let c := fst (run evs Example.bottled_connection) in
  let t := snd (run evs Example.bottled_connection) in
  admissible_run evs Example.bottled_connection = true
  /\ filter is_handler t
     = [Handler (Some (other_errc 2)) (Example.bytes "abc");
        Handler (Some (other_errc 2)) (Example.bytes "abc")]
  /\ handler_calls t = 2%nat
  /\ m_called c = false.
Proof.
  intros evs c t. repeat split; vm_compute; reflexivity.
Qed.



(** C3. A bottled connection carries a request to its end: the handler
    gets the response.  The caller then calls [get] with a URL whose
    scheme is not supported.  [get] posts the error and returns before
    [start] would clear [m_called]; when the event loop runs the posted
    callback, [callback] finds the connection bottled and called and
    returns: the error is not delivered, now or by any later run of
    the posted callback. *)
Theorem C3_input_error_not_delivered :
  let evs :=
    Example.request_sent ++ [Ev_on_read None Example.ok_response 3] in
  let c := fst (run evs Example.bottled_connection) in
  let later :=
    [Ev_get "ftp://example.org/a" 10 0 None 5 "ua" None 0 "";
     Ev_posted_callback (Some unsupported_url_protocol)] in
  admissible_run (evs ++ later) Example.bottled_connection = true
  /\ filter is_handler (snd (run evs Example.bottled_connection))
     = [Handler None (Example.bytes "abc")]
  /\ m_abort c = false
  /\ m_handler c = true
  /\ snd (run later c) = [Post_callback (Some unsupported_url_protocol)]
  /\ handler_calls (snd (run later c)) = 0%nat
  /\ forall e,
       snd (handle (Ev_posted_callback e) (fst (run later c))) = [].
Proof.
  intros evs c later.
  repeat (split; [vm_compute; reflexivity |]).
  intros e. cbn [handle]. rewrite callback_empty_run.
  replace (m_bottled (fst (run later c)) && m_called (fst (run later c)))
    with true by (vm_compute; reflexivity).
  reflexivity.
Qed.

Lemma C3_input_errors_are_posted_witness :
  snd (get "ftp://example.org/a" 10 0 None 5 "ua" None 0 ""
         Example.bottled_connection)
  = [Post_callback (Some unsupported_url_protocol)]
  /\ handler_calls
       (snd (get "ftp://example.org/a" 10 0 None 5 "ua" None 0 ""
               Example.bottled_connection)) = 0%nat.
Proof.
  destruct (C3_input_errors_are_posted "ftp://example.org/a" 10 0 None 5
              "ua" None 0 "" Example.bottled_connection eq_refl)
    as (H1 & H2 & _).
  split; [rewrite H1; reflexivity | exact H2].
Defined.

Lemma C4_request_text_witness :
  m_sendbuffer
    (fst (get "http://example.org/a" 10 0 None 5 "ua" None 0 ""
            Example.bottled_connection))
  = serialize
      ["GET /a HTTP/1.1"; "Host: example.org"; "User-Agent: ua";
       "Accept-Encoding: gzip"; "Connection: close"; ""]
  /\ Forall (fun l => String.prefix "Accept:" l = false)
       ["GET /a HTTP/1.1"; "Host: example.org"; "User-Agent: ua";
        "Accept-Encoding: gzip"; "Connection: close"; ""].
Proof.
  exact (C4_request_text "http://example.org/a" 10 0 None 5 "ua" None 0 ""
           Example.bottled_connection eq_refl eq_refl eq_refl eq_refl).
Defined.


(** C6. The request of the example was started at time 0 with a
    timeout of 10 and is still resolving at time 10, when the timer
    armed by [start] fires: the effective deadline 20 has not passed,
    and [on_timeout] arms the timer for time 10 again, which is due at
    once, leaving the connection as it was; so it does the next time. *)
Theorem C6_rearmed_at_undoubled_deadline :
  let c := fst (run [Example.get_a] Example.bottled_connection) in
  m_resolving_host c = true
  /\ effective_deadline c = 20
  /\ on_timeout None 10 c = (c, [Timer_expires_at 10; Timer_async_wait])
  /\ snd (run [Ev_on_timeout None 10; Ev_on_timeout None 10;
               Ev_on_timeout None 15] c)
     = [Timer_expires_at 10; Timer_async_wait;
        Timer_expires_at 10; Timer_async_wait;
        Timer_expires_at 10; Timer_async_wait].
Proof.
  intros c.
  split; [vm_compute; reflexivity |].
  split; [vm_compute; reflexivity |].
  split; [| vm_compute; reflexivity].
  apply on_timeout_before_deadline; vm_compute; reflexivity.
Qed.

(** C7. No rate limit is set when the first read is issued, for the
    4096 bytes of the buffer; [rate_limit(100)] is called while the
    read is outstanding; the read completes with 17 bytes.  [on_read]
    finds a rate limit and takes the bytes off a quota of 0. *)
Theorem C7_quota_negative_after_rate_limit :
  let evs :=
    Example.request_sent
    ++ [Ev_rate_limit 100; Ev_on_read None Example.status_line 3] in
  let c := fst (run evs Example.bottled_connection) in
  admissible_run evs Example.bottled_connection = true
  /\ In (Async_read_some 0 4096)
        (snd (run Example.request_sent Example.bottled_connection))
  /\ m_rate_limit c = 100
  /\ m_download_quota c = -17.
Proof.
  intros evs c.
  split; [vm_compute; reflexivity |].
  split; [vm_compute; do 5 right; left; reflexivity |].
  split; vm_compute; reflexivity.
Qed.

(** The read [on_read] issues at the end of that run is sized by the
    quota, [std::size_t(-17)]. *)
Lemma read_on_negative_quota :
  let evs :=
    Example.request_sent
    ++ [Ev_rate_limit 100; Ev_on_read None Example.status_line 3] in
  In (Async_read_some 17 18446744073709551599)
     (snd (run evs Example.bottled_connection)).
Proof.
  intros evs. vm_compute. do 8 right. left. reflexivity.
Qed.

Lemma C8_next_ep_within_endpoints_witness :
  0 <= m_next_ep (fst (run Example.request_sent Example.bottled_connection))
    <= endpoints_size
         (fst (run Example.request_sent Example.bottled_connection))
  /\ snd (connect (fst (run Example.request_sent Example.bottled_connection)))
     = [].
Proof.
  split.
  - apply (proj1 (C8_next_ep_within_endpoints (K := Example.collaborators))).
    apply reachable_run; [constructor | vm_compute; reflexivity].
  - apply (proj1 (proj2 (proj2
             (C8_next_ep_within_endpoints (K := Example.collaborators))))).
    vm_compute. discriminate.
Defined.

(** C9 does not hold for a response that fills the buffer to the cap
    and is complete: a bottled connection with a cap of 4096 bytes
    reads 41 bytes of headers and the 4055 bytes of body they announce.
    [on_read] delivers the response to the handler as a success; the
    read position has reached the cap, and [callback] with
    file_too_large does nothing, since the connection has made its
    callback.  The handler does not get file_too_large. *)
Lemma C9_exact_fit_is_delivered_as_success :
  let evs :=
    Example.request_sent ++ [Ev_on_read None Example.exact_fit_response 3] in
  let c := fst (run evs Example.small_connection) in
  let t := snd (run evs Example.small_connection) in
  admissible_run evs Example.small_connection = true
  /\ m_read_pos c = m_max_bottled_buffer_size c
  /\ m_max_bottled_buffer_size c = 4096
  /\ filter is_handler t = [Handler None (repeat x61 4055)].
Proof.
  intros evs c t. repeat split; vm_compute; reflexivity.
Qed.

Lemma C9_grow_policy_witness :
  size (m_recvbuffer (fst (on_read_grow Example.buffer_full))) = 4096
  /\ snd (on_read_grow Example.buffer_full)
     = [Timer_cancel; Handler (Some file_too_large) []].
Proof.
  pose proof (C9_grow_policy (K := Example.collaborators) Example.buffer_full
                ltac:(vm_compute; reflexivity)) as H.
  cbv zeta in H. destruct H as [H1 H2].
  specialize (H1 ltac:(vm_compute; reflexivity)
                 ltac:(vm_compute; discriminate)).
  specialize (H2 ltac:(vm_compute; reflexivity)).
  destruct H1 as [_ H1]. destruct H2 as (_ & _ & H2).
  split.
  - rewrite H1. vm_compute. reflexivity.
  - rewrite H2. vm_compute. reflexivity.
Defined.

(** * Error messages (src/src/error_code.cpp) *)

Lemma ip2_msgs_length (abi_version_1 : bool) :
  List.length (ip2_error_category.msgs abi_version_1) = 219%nat.
Proof. destruct abi_version_1; reflexivity. Qed.

Lemma ip2_msgs_known (abi_version_1 : bool) (s : string) :
  In s (ip2_error_category.msgs abi_version_1) -> s <> "Unknown error".
Proof.
  assert (H : forallb (fun s => negb (String.eqb s "Unknown error"))
                (ip2_error_category.msgs abi_version_1) = true)
    by (destruct abi_version_1; vm_compute; reflexivity).
  rewrite forallb_forall in H. intros Hin Heq. specialize (H s Hin).
  subst s. discriminate.
Qed.

Lemma ip2_message_out_of_range (abi_version_1 : bool) (ev : Z) :
  ev < 0 \/ 219 <= ev ->
  ip2_error_category.message abi_version_1 ev = "Unknown error".
Proof.
  intros H. unfold ip2_error_category.message. rewrite ip2_msgs_length.
  destruct (ev <? 0) eqn:Hneg; [reflexivity |].
  apply Z.ltb_ge in Hneg.
  replace (ev >=? Z.of_nat 219) with true
    by (symmetry; rewrite Z.geb_leb; apply Z.leb_le; lia).
  reflexivity.
Qed.

(** The text ["Unknown error"] marks exactly the values outside the
    table: [message] gives it for a negative value and for a value from
    219 on, and for no value in between, with either setting of the
    build switch. *)
Theorem ip2_message_unknown_iff_out_of_range (abi_version_1 : bool) (ev : Z) :
  ip2_error_category.message abi_version_1 ev = "Unknown error"
  <-> ev < 0 \/ 219 <= ev.
Proof.
  unfold ip2_error_category.message. rewrite ip2_msgs_length.
  destruct (ev <? 0) eqn:Hneg; cbn [orb].
  - apply Z.ltb_lt in Hneg. split; [intros _; left; exact Hneg | reflexivity].
  - apply Z.ltb_ge in Hneg.
    destruct (ev >=? Z.of_nat 219) eqn:Hge; rewrite Z.geb_leb in Hge.
    + apply Z.leb_le in Hge. split; [intros _; right; lia | reflexivity].
    + apply Z.leb_gt in Hge. split; [| lia].
      intros H. exfalso.
      eapply ip2_msgs_known; [| exact H].
      apply nth_In. rewrite ip2_msgs_length. lia.
Qed.

Lemma ip2_message_in_head (abi_version_1 : bool) (ev : Z) :
  0 <= ev < 190 ->
  ip2_error_category.message abi_version_1 ev
  = nth (Z.to_nat ev) ip2_error_category.msgs_head "".
Proof.
  intros H. unfold ip2_error_category.message. rewrite ip2_msgs_length.
  replace (ev <? 0) with false by (symmetry; apply Z.ltb_ge; lia).
  replace (ev >=? Z.of_nat 219) with false
    by (symmetry; rewrite Z.geb_leb; apply Z.leb_gt; lia).
  cbn [orb]. unfold ip2_error_category.msgs.
  apply app_nth1. change (List.length ip2_error_category.msgs_head) with 190%nat.
  lia.
Qed.

Lemma ip2_message_in_bdecode (abi_version_1 : bool) (ev : Z) :
  190 <= ev < 200 ->
  ip2_error_category.message abi_version_1 ev
  = nth (Z.to_nat (ev - 190))
      (ip2_error_category.msgs_bdecode abi_version_1) "".
Proof.
  intros H. unfold ip2_error_category.message. rewrite ip2_msgs_length.
  replace (ev <? 0) with false by (symmetry; apply Z.ltb_ge; lia).
  replace (ev >=? Z.of_nat 219) with false
    by (symmetry; rewrite Z.geb_leb; apply Z.leb_gt; lia).
  cbn [orb]. unfold ip2_error_category.msgs.
  rewrite app_nth2
    by (change (List.length ip2_error_category.msgs_head) with 190%nat; lia).
  change (List.length ip2_error_category.msgs_head) with 190%nat.
  replace (Z.to_nat ev - 190)%nat with (Z.to_nat (ev - 190)) by lia.
  apply app_nth1.
  replace (List.length (ip2_error_category.msgs_bdecode abi_version_1))
    with 10%nat by (destruct abi_version_1; reflexivity).
  lia.
Qed.

Lemma ip2_message_in_tail (abi_version_1 : bool) (ev : Z) :
  200 <= ev < 219 ->
  ip2_error_category.message abi_version_1 ev
  = nth (Z.to_nat (ev - 200)) ip2_error_category.msgs_tail "".
Proof.
  intros H. unfold ip2_error_category.message. rewrite ip2_msgs_length.
  replace (ev <? 0) with false by (symmetry; apply Z.ltb_ge; lia).
  replace (ev >=? Z.of_nat 219) with false
    by (symmetry; rewrite Z.geb_leb; apply Z.leb_gt; lia).
  cbn [orb]. unfold ip2_error_category.msgs.
  rewrite app_nth2
    by (change (List.length ip2_error_category.msgs_head) with 190%nat; lia).
  change (List.length ip2_error_category.msgs_head) with 190%nat.
  rewrite app_nth2
    by (replace (List.length (ip2_error_category.msgs_bdecode abi_version_1))
          with 10%nat by (destruct abi_version_1; reflexivity); lia).
  replace (List.length (ip2_error_category.msgs_bdecode abi_version_1))
    with 10%nat by (destruct abi_version_1; reflexivity).
  f_equal. lia.
Qed.

(** The numbering of the error values does not depend on the build
    switch [TORRENT_ABI_VERSION]: the two builds give the same text for
    every value but the seven bdecode errors 190 to 196, whose text only
    the build with version 1 has; the other build has the empty string
    for all of 190 to 199. *)
Theorem ip2_message_abi_stable (ev : Z) :
  (ip2_error_category.message true ev = ip2_error_category.message false ev
   <-> ~ 190 <= ev <= 196)
  /\ (190 <= ev <= 199 -> ip2_error_category.message false ev = "").
Proof.
  assert (Hcases : ev < 0 \/ 0 <= ev < 190 \/ 190 <= ev < 200
                   \/ 200 <= ev < 219 \/ 219 <= ev) by lia.
  destruct Hcases as [H | [H | [H | [H | H]]]].
  - split; [| lia].
    split; [lia | intros _].
    transitivity "Unknown error";
      [| symmetry]; apply ip2_message_out_of_range; lia.
  - split; [| lia]. split; [lia | intros _].
    now rewrite !ip2_message_in_head.
  - rewrite !ip2_message_in_bdecode by exact H.
    assert (Hn : exists n, Z.to_nat (ev - 190) = n /\ (n < 10)%nat
                           /\ ev = 190 + Z.of_nat n)
      by (exists (Z.to_nat (ev - 190)); lia).
    destruct Hn as (n & -> & Hlt & ->).
    do 10 (destruct n as [| n];
           [cbn; split; [split; [discriminate || lia | lia || reflexivity]
                        | reflexivity] |]).
    lia.
  - split; [| lia]. split; [lia | intros _].
    now rewrite !ip2_message_in_tail.
  - split; [| lia].
    split; [lia | intros _].
    transitivity "Unknown error";
      [| symmetry]; apply ip2_message_out_of_range; lia.
Qed.

(** * Instances of the further properties *)

Lemma handler_silent_after_close_witness :
  m_handler (fst (close true Example.bottled_connection)) = false
  /\ handler_calls
       (snd (run [Ev_close true; Ev_on_resolve None [Example.server] 1;
                  Ev_on_connect None 2; Ev_on_read (Some eof) [] 3]
               Example.bottled_connection)) = 0%nat.
Proof.
  exact (handler_silent_after_close (K := Example.collaborators) true
           Example.bottled_connection
           [Ev_on_resolve None [Example.server] 1; Ev_on_connect None 2;
            Ev_on_read (Some eof) [] 3] eq_refl).
Defined.

Lemma bottled_delivery_is_final_witness :
  let c :=
    fst (run (Example.request_sent ++ [Ev_on_read (Some eof) [] 3])
           Example.bottled_connection) in
  let evs := [Ev_on_timeout None 100; Ev_on_read (Some eof) [] 101] in
  (handler_calls (snd (run evs c)) = 0%nat
   /\ m_called (fst (run evs c)) = true)
  \/ Exists started (snd (run evs c)).
Proof.
  intros c evs.
  apply (bottled_delivery_is_final (K := Example.collaborators) c evs);
    vm_compute; reflexivity.
Defined.

Lemma rate_limit_arms_once_witness :
  let c := fst (run Example.request_sent Example.bottled_connection) in
  snd (rate_limit 100 c) = [Limiter_expires_after 250; Limiter_async_wait]
  /\ m_rate_limit (fst (rate_limit 100 c)) = 100
  /\ m_limiter_timer_active (fst (rate_limit 100 c)) = true
  /\ snd (rate_limit 200 (fst (rate_limit 100 c))) = []
  /\ m_rate_limit (fst (rate_limit 200 (fst (rate_limit 100 c)))) = 200.
Proof.
  intros c.
  assert (Hs : m_sock c
               = Some (mk_socket true true Example.x_default_proxy false
                         None None None))
    by (vm_compute; reflexivity).
  exact (rate_limit_arms_once (K := Example.collaborators) 100 200 c _ Hs).
Defined.

Lemma on_timeout_at_deadline_witness :
  let c :=
    fst (run [Example.get_a; Ev_on_resolve None [Example.server] 1]
           Example.bottled_connection) in
  effective_deadline c = 11
  /\ snd (on_timeout None 11 c)
     = [Timer_cancel; Handler (Some timed_out) []].
Proof.
  intros c. split; [vm_compute; reflexivity |].
  assert (Hd : effective_deadline c <= 11) by (vm_compute; discriminate).
  pose proof (on_timeout_at_deadline (K := Example.collaborators) None 11 c
                eq_refl eq_refl Hd) as H.
  cbv zeta in H.
  replace (m_next_ep c <? endpoints_size c) with false in H
    by (vm_compute; reflexivity).
  apply (proj2 H); vm_compute; reflexivity.
Defined.

Lemma streaming_chunk_delivered_witness :
  let c :=
    fst (run (Example.request_sent
              ++ [Ev_on_read None
                    (Example.bytes ("HTTP/1.1 200 OK" ++ crlf ++ crlf)) 3])
           Example.streaming_connection) in
  let r := handle (Ev_on_read None (Example.bytes "chunk") 4) c in
  (exists rest,
     snd r = Timer_cancel :: Handler None (Example.bytes "chunk") :: rest)
  /\ m_read_pos (fst r) = 0
  /\ m_last_receive (fst r) = 4.
Proof.
  intros c.
  apply (streaming_chunk_delivered (K := Example.collaborators)
           (Example.bytes "chunk") 4 c); vm_compute; reflexivity.
Defined.

Lemma bottled_response_delivered_witness :
  let response :=
    Example.bytes ("HTTP/1.1 200 OK" ++ crlf ++ "content-length: 3" ++ crlf
                   ++ crlf ++ "abc") in
  let sent := fst (run Example.request_sent Example.bottled_connection) in
  let c := set_m_recvbuffer (overwrite (m_recvbuffer sent) 0 response) sent in
  filter is_handler (snd (on_read None 41 3 c))
  = [Handler None (Example.bytes "abc")]
  /\ m_called (fst (on_read None 41 3 c)) = true.
Proof.
  intros response sent c.
  pose proof (bottled_response_delivered (K := Example.collaborators) 41 3
                (string_of_list_byte response) c) as H.
  cbv zeta in H.
  assert (Hgzip : is_gzip
                    (header (Collaborators := Example.collaborators)
                       (string_of_list_byte response) "content-encoding")
                  = false)
    by (vm_compute; reflexivity).
  rewrite Hgzip in H.
  replace (Example.bytes "abc")
    with (collapse_chunk_headers (Collaborators := Example.collaborators)
            (string_of_list_byte response)
            (view (m_recvbuffer c)
               (mk_span
                  (body_start (Collaborators := Example.collaborators)
                     (string_of_list_byte response))
                  (m_read_pos c + 41
                   - body_start (Collaborators := Example.collaborators)
                       (string_of_list_byte response)))))
    by (vm_compute; reflexivity).
  apply H; try (vm_compute; reflexivity); discriminate.
Defined.

Lemma eof_delivers_body_witness :
  snd (on_read (Some eof) 0 3
         (fst (run Example.request_sent Example.bottled_connection)))
  = [Timer_cancel; Handler (Some eof) []].
Proof.
  pose proof (eof_delivers_body (K := Example.collaborators) (Some eof) 0 3
                (fst (run Example.request_sent Example.bottled_connection))
                eq_refl) as H.
  cbv zeta in H.
  replace (m_bottled
             (fst (run Example.request_sent Example.bottled_connection))
           && header_finished
                (m_parser
                   (fst (run Example.request_sent
                           Example.bottled_connection)))
           && negb
                (get_body_size
                   (m_parser
                      (fst (run Example.request_sent
                              Example.bottled_connection))) =? 0))
    with false in H by (vm_compute; reflexivity).
  apply H; vm_compute; reflexivity.
Defined.

Lemma redirects_are_bounded_witness :
  let evs := [Ev_on_read None Example.redirect_response 3] in
  let c := fst (run Example.request_sent Example.bottled_connection) in
  m_redirects c = 5
  /\ 0 <= m_redirects (fst (run evs c))
  /\ Z.of_nat (starts (snd (run evs c))) + m_redirects (fst (run evs c))
     <= m_redirects c.
Proof.
  intros evs c. split; [vm_compute; reflexivity |].
  apply (redirects_are_bounded (K := Example.collaborators) evs c);
    [vm_compute; discriminate | reflexivity].
Defined.

Lemma on_resolve_connects_to_resolved_witness :
  let c := fst (run [Example.get_a] Example.bottled_connection) in
  let ep := mk_endpoint Example.server 80 in
  In ep (resolved_endpoints [Example.server] c)
  /\ (forall b, m_bind_addr c = Some b -> endpoint_is_v4 ep = is_v4 b)
  /\ (m_endpoints c = [] -> m_filter_handler c = None ->
      In (ep_address ep) [Example.server] /\ ep_port ep = m_port c).
Proof.
  intros c ep.
  apply (on_resolve_connects_to_resolved (K := Example.collaborators) None
           [Example.server] 1 c ep);
    try (vm_compute; reflexivity).
  vm_compute. left. reflexivity.
Defined.

Lemma start_on_fresh_stream_witness :
  let r :=
    start "example.org" 80 10 0 None false 5 None 0
      Example.bottled_connection in
  snd r = [Timer_expires_after 10; Timer_async_wait;
           Async_resolve "example.org" 0]
  /\ m_resolving_host (fst r) = true
  /\ m_hostname (fst r) = "example.org" /\ m_port (fst r) = 80.
Proof.
  intros r.
  pose proof (start_on_fresh_stream (K := Example.collaborators)
                "example.org" 80 10 0 None false 5 None 0
                Example.bottled_connection eq_refl) as H.
  cbv zeta in H. fold r in H.
  cbn [bind_error is_error setup_ssl_hostname Example.collaborators
       socks5_hostnames] in H.
  destruct H as (_ & _ & Hh & Hp & Ht & Hr & _).
  repeat split; assumption.
Defined.

Lemma get_through_http_proxy_witness :
  let p :=
    mk_proxy_settings "proxy.example" "user" "pw" settings_pack.http_pw 3128
      false in
  let r :=
    get "http://example.org/a" 10 0 (Some p) 5 "ua" None 0 ""
      Example.bottled_connection in
  m_sendbuffer (fst r)
  = serialize
      ["GET http://example.org/a HTTP/1.1";
       "Proxy-Authorization: Basic base64(user:pw)";
       "Host: example.org"; "User-Agent: ua"; "Accept-Encoding: gzip";
       "Connection: close"; ""]
  /\ snd r = [Timer_expires_after 10; Timer_async_wait;
              Async_resolve "proxy.example" 0]
  /\ m_port (fst r) = 3128.
Proof.
  intros p r.
  destruct (get_through_http_proxy (K := Example.collaborators)
              "http://example.org/a" 10 0 p 5 "ua" None 0 ""
              Example.bottled_connection eq_refl eq_refl eq_refl)
    as (H1 & H2).
  fold r in H1, H2.
  destruct (H2 eq_refl eq_refl eq_refl) as (H3 & _ & H5 & _).
  split; [exact H1 |]. split; [exact H3 | exact H5].
Defined.

Lemma closed_connection_begins_nothing_witness :
  let c :=
    fst (run (Example.request_sent ++ [Ev_close true])
           Example.bottled_connection) in
  let evs :=
    [Ev_on_read None Example.status_line 3; Ev_on_write None;
     Ev_on_timeout None 100; Ev_on_assign_bandwidth None] in
  m_abort (fst (run evs c)) = true /\ Forall idle (snd (run evs c)).
Proof.
  intros c evs.
  apply (closed_connection_begins_nothing (K := Example.collaborators) evs c);
    vm_compute; reflexivity.
Defined.

Lemma on_write_paths_witness :
  let c :=
    fst (run [Example.get_a; Ev_on_resolve None [Example.server] 1;
              Ev_on_connect None 2] Example.bottled_connection) in
  m_sendbuffer (fst (on_write None c)) = ""
  /\ size (m_recvbuffer (fst (on_write None c))) = 4096
  /\ snd (on_write None c) = [Async_read_some 0 4096].
Proof.
  intros c.
  assert (Ha : m_abort c = false) by (vm_compute; reflexivity).
  destruct (on_write_paths (K := Example.collaborators) None c Ha)
    as (H1 & H2 & H3 & _).
  split; [exact H1 |]. split; [exact H2 |].
  rewrite H3; [vm_compute; reflexivity |].
  left. vm_compute. discriminate.
Defined.

Lemma request_reaches_first_read_witness :
  snd (run Example.request_sent Example.bottled_connection)
  = [Timer_expires_after 10; Timer_async_wait;
     Async_resolve "example.org" 0;
     Async_connect (mk_endpoint Example.server 80);
     Async_write
       (request_text (K := Example.collaborators) "http://example.org/a"
          None "ua" true "");
     Async_read_some 0 4096].
Proof.
  assert (Hr : m_rate_limit Example.bottled_connection <= 0)
    by (vm_compute; discriminate).
  exact (request_reaches_first_read (K := Example.collaborators)
           "http://example.org/a" 10 0 None 5 "ua" None 0 ""
           [Example.server] 1 2 Example.bottled_connection
           (mk_endpoint Example.server 80) []
           eq_refl eq_refl eq_refl eq_refl eq_refl eq_refl Hr eq_refl).
Defined.

Lemma on_read_failures_witness :
  let c := fst (run Example.request_sent Example.bottled_connection) in
  snd (on_read (Some (other_errc 7)) 0 3 c)
  = [Timer_cancel; Handler (Some (other_errc 7)) []]
  /\ m_called (fst (on_read (Some (other_errc 7)) 0 3 c)) = true
  /\ m_read_pos (fst (on_read (Some (other_errc 7)) 0 3 c)) = m_read_pos c.
Proof.
  intros c.
  assert (Ha : m_abort c = false) by (vm_compute; reflexivity).
  assert (Hh : m_handler c = true) by (vm_compute; reflexivity).
  assert (Hc : m_bottled c && m_called c = false) by (vm_compute; reflexivity).
  exact (proj1 (proj2 (on_read_failures (K := Example.collaborators)
                         (Some (other_errc 7)) 0 3 c Ha Hh Hc))
           eq_refl eq_refl eq_refl).
Defined.
